(** * RAZOR Primer-BLAST validation: a shallow embedding

    The development follows the scripts of the repository:

      - [submit_primerblast_jobs.py]: the size-band selection of
        [PrimerBlastSubmitter], the submission of a job and the loop that
        collects the submissions;
      - [validate_records_from_primerblast.py]: the pair extractor, the pair
        matcher, the per-job validation and the ordered aggregation of
        [validate_all_jobs];
      - [analyze_validations.py]: the tallies of a results file.

    Conventions.  Python integers are [Z] and floats are [spec_float].
    Text is [string]; a character stands for a code point below 256, and
    every character class, case mapping and numeral conversion below is
    Python's restricted to that range.  Dictionaries read from JSON are
    [gmap string value]; the dictionary built by [_extract_single_pair] has
    a fixed shape and is the record [pair].  An exception is an explicit
    outcome.  Console output and the pacing of requests ([_rate_limit]) are
    not part of the model, except for what can raise while it is printed:
    a progress line reads [job_info['primer_id']], and the summary of
    [validate_all_jobs] hashes, sorts and compares fields of the records. *)

From Stdlib Require Import ZArith Ascii String List Lia Bool Permutation.
From Stdlib Require Import Sorted SpecFloat.
From stdpp Require Import base option list gmap strings.

#[local] Set Warnings "-register-all".

Local Open Scope string_scope.
Local Open Scope list_scope.
Local Open Scope Z_scope.

(** ** Job submitter *)

Module Submitter.

(** [PrimerBlastSubmitter._determine_product_size_range]. *)
Definition _determine_product_size_range (product_size : Z) : Z * Z :=
  if product_size <? 150 then (100, 200)
  else if product_size <=? 200 then (150, 200)
  else (300, 500).

(** Width of the band requested for a product size. *)
Definition band_width (product_size : Z) : Z :=
  let '(lo, hi) := _determine_product_size_range product_size in hi - lo.

End Submitter.

(** ** Text *)

Module Text.

Definition code (c : ascii) : Z := Z.of_N (N_of_ascii c).

Definition chr (n : Z) : ascii := ascii_of_N (Z.to_N n).

Definition between (lo hi : Z) (c : ascii) : bool :=
  (lo <=? code c) && (code c <=? hi).

(** [\d] on code points below 256: the ten ASCII digits. *)
Definition is_digit (c : ascii) : bool := between 48 57 c.

(** [\s] on code points below 256: TAB..CR, FS..US, space, NEL and the
    no-break space. *)
Definition is_space (c : ascii) : bool :=
  between 9 13 c || between 28 32 c || (code c =? 133) || (code c =? 160).

(** The blanks [int()] accepts around a numeral, on code points below 256:
    TAB..CR, space, NEL and the no-break space.  FS..US are blanks for [\s]
    and not for [int()]. *)
Definition is_blank (c : ascii) : bool :=
  between 9 13 c || (code c =? 32) || (code c =? 133) || (code c =? 160).

(** [str.lower] maps character by character below 256. *)
Definition lower_char (c : ascii) : ascii :=
  if between 65 90 c then chr (code c + 32)
  else if between 192 222 c && negb (code c =? 215) then chr (code c + 32)
  else c.

Fixpoint lower (s : string) : string :=
  match s with
  | EmptyString => EmptyString
  | String c s' => String (lower_char c) (lower s')
  end.

(** [str.upper].  The sharp s becomes two letters.  The capitals of the
    micro sign and of y with diaeresis lie above 255 and are the capital of
    no other character below 256; they stand for themselves here, which
    leaves every comparison of upper-cased texts as Python decides it. *)
Fixpoint upper (s : string) : string :=
  match s with
  | EmptyString => EmptyString
  | String c s' =>
      if code c =? 223 then String "S" (String "S" (upper s'))
      else if between 97 122 c then String (chr (code c - 32)) (upper s')
      else if between 224 254 c && negb (code c =? 247)
      then String (chr (code c - 32)) (upper s')
      else String c (upper s')
  end.

(** [needle in s]. *)
Fixpoint contains (needle s : string) : bool :=
  String.prefix needle s ||
  match s with
  | EmptyString => false
  | String _ s' => contains needle s'
  end.

Definition digit_value (c : ascii) : Z := code c - 48.

(** Value of a run of decimal digits, most significant first. *)
Definition digits_value (s : string) : Z :=
  fold_left (fun acc c => 10 * acc + digit_value c) (list_ascii_of_string s) 0.

(** The text after its leading blanks, as [int()] skips them. *)
Fixpoint skip_blanks (s : string) : string :=
  match s with
  | String c s' => if is_blank c then skip_blanks s' else s
  | EmptyString => EmptyString
  end.

(** Digits of a decimal numeral with its underscores removed, when the text
    is [digit ("_"? digit)*] followed by blanks only.  [prev] tells whether
    the previous character was a digit. *)
Fixpoint numeral_digits (prev : bool) (s : string) : option string :=
  match s with
  | EmptyString => if prev then Some EmptyString else None
  | String c s' =>
      if is_digit c then String c <$> numeral_digits true s'
      else if (code c =? 95) && prev then
        match s' with
        | String d _ => if is_digit d then numeral_digits false s' else None
        | EmptyString => None
        end
      else if is_blank c && prev then
        match skip_blanks s' with EmptyString => Some EmptyString | _ => None end
      else None
  end.

(** [int(s)] for a text [s]: blanks around, an optional sign, decimal digits
    with single underscores between them.  [None] is [ValueError].  (The
    interpreter's configurable limit on the number of digits is not
    modelled.) *)
Definition int_str (s : string) : option Z :=
  match skip_blanks s with
  | String "-" s' => (fun d => - digits_value d) <$> numeral_digits false s'
  | String "+" s' => digits_value <$> numeral_digits false s'
  | s' => digits_value <$> numeral_digits false s'
  end.

End Text.

(** ** Regular expressions of the validator

    The four patterns of the validator are sequences of literal text and of
    repeated character classes; every class repetition is greedy and every
    capturing group encloses one [class+].  All four are compiled with
    [re.IGNORECASE]. *)

Module Regex.
Import Text.

Inductive cls : Type :=
| Digit      (* \d *)
| Space      (* \s *)
| NotGt      (* [^>] *)
| NotLt      (* [^<] *)
| Base.      (* [ATCGN] *)

Definition cls_mem (k : cls) (c : ascii) : bool :=
  match k with
  | Digit => is_digit c
  | Space => is_space c
  | NotGt => negb (code c =? 62)
  | NotLt => negb (code c =? 60)
  | Base => existsb (fun b => code (lower_char c) =? code b)
              (list_ascii_of_string "atcgn")
  end.

Inductive atom : Type :=
| Lit (text : string)     (* literal text, letters compared ignoring case *)
| Star (k : cls)          (* k*  *)
| Plus (k : cls)          (* k+  *)
| Group (k : cls).        (* (k+) *)

Definition regex := list atom.

(** Literal text at the head of [s], ignoring case: the rest of [s]. *)
Fixpoint strip_literal (text s : string) : option string :=
  match text, s with
  | EmptyString, _ => Some s
  | String p text', String c s' =>
      if code (lower_char c) =? code (lower_char p)
      then strip_literal text' s' else None
  | String _ _, EmptyString => None
  end.

(** Greedy repetition with backtracking: take the longest run of [p]
    first, and give back one character at a time while the continuation
    fails.  [taken] is the text consumed so far. *)
Fixpoint rep {R : Type} (p : ascii -> bool) (cont : string -> string -> option R)
    (taken s : string) : option R :=
  match s with
  | String c s' =>
      if p c then
        match rep p cont (taken ++ String c EmptyString)%string s' with
        | Some r => Some r
        | None => cont taken s
        end
      else cont taken s
  | EmptyString => cont taken s
  end.

Definition rep1 {R : Type} (p : ascii -> bool) (cont : string -> string -> option R)
    (s : string) : option R :=
  match s with
  | String c s' => if p c then rep p cont (String c EmptyString) s' else None
  | EmptyString => None
  end.

(** A match anchored at the head of [s]: the groups captured so far and the
    text after the match. *)
Fixpoint match_here (r : regex) (s : string) (caps : list string)
    : option (list string * string) :=
  match r with
  | [] => Some (caps, s)
  | Lit text :: r' =>
      match strip_literal text s with
      | Some s' => match_here r' s' caps
      | None => None
      end
  | Star k :: r' => rep (cls_mem k) (fun _ s' => match_here r' s' caps) EmptyString s
  | Plus k :: r' => rep1 (cls_mem k) (fun _ s' => match_here r' s' caps) s
  | Group k :: r' => rep1 (cls_mem k) (fun g s' => match_here r' s' (caps ++ [g])) s
  end.

(** [re.search]: the groups of the leftmost match. *)
Fixpoint search (r : regex) (s : string) : option (list string) :=
  match match_here r s [] with
  | Some (caps, _) => Some caps
  | None =>
      match s with
      | String _ s' => search r s'
      | EmptyString => None
      end
  end.

(** [re.split] for a pattern without groups that matches no empty text
    (an empty match is passed over): [cur] is the piece being read. *)
Fixpoint split_from (fuel : nat) (r : regex) (cur s : string) : list string :=
  match fuel with
  | O => [(cur ++ s)%string]
  | S fuel' =>
      match match_here r s [] with
      | Some (_, rest) =>
          if (String.length rest <? String.length s)%nat
          then cur :: split_from fuel' r EmptyString rest
          else
            match s with
            | String c s' => split_from fuel' r (cur ++ String c EmptyString)%string s'
            | EmptyString => [cur]
            end
      | None =>
          match s with
          | String c s' => split_from fuel' r (cur ++ String c EmptyString)%string s'
          | EmptyString => [cur]
          end
      end
  end.

Definition split (r : regex) (s : string) : list string :=
  split_from (S (String.length s)) r EmptyString s.

End Regex.

(** ** Values, dictionaries and exceptions *)

Module Py.
Import Text.

(** The values [json] reads and writes, which are also the values of the
    cells of a row.  A number written with a fraction or an exponent, and
    the [NaN] and [Infinity] of an empty or overflowing cell, is a float: a
    finite float [S754_finite s m e] is [(-1)^s * m * 2^e]. *)
Inductive value : Type :=
| VNone
| VBool (b : bool)
| VInt (n : Z)
| VFloat (f : spec_float)
| VStr (s : string)
| VList (l : list value)
| VDict (d : list (string * value)).

Abbreviation dict := (gmap string value).

Inductive exn : Type := KeyError | ValueError | TypeError | AttributeError
                      | IndexError | ZeroDivisionError | OverflowError.

Inductive outcome (A : Type) : Type :=
| Ret (a : A)
| Raise (e : exn).
Arguments Ret {A} a.
Arguments Raise {A} e.

Definition obind {A B : Type} (c : outcome A) (k : A -> outcome B) : outcome B :=
  match c with
  | Ret a => k a
  | Raise e => Raise e
  end.

(** Truth value of an object in a condition. *)
Definition truthy (v : value) : bool :=
  match v with
  | VNone => false
  | VBool b => b
  | VInt n => negb (n =? 0)
  | VFloat f => match f with S754_zero _ => false | _ => true end
  | VStr s => negb (String.eqb s EmptyString)
  | VList l => match l with [] => false | _ :: _ => true end
  | VDict d => match d with [] => false | _ :: _ => true end
  end.

Definition is_none (v : value) : bool :=
  match v with VNone => true | _ => false end.

(** [d.get(key)]. *)
Definition get (key : string) (d : dict) : value := default VNone (d !! key).

(** [int(f)] for a float: the fraction is dropped, towards zero. *)
Definition truncate (f : spec_float) : outcome Z :=
  match f with
  | S754_zero _ => Ret 0
  | S754_infinity _ => Raise OverflowError
  | S754_nan => Raise ValueError
  | S754_finite negative m e =>
      let magnitude := Z.shiftl (Z.pos m) e in
      Ret (if negative then - magnitude else magnitude)
  end.

(** [int(v)]. *)
Definition py_int (v : value) : outcome Z :=
  match v with
  | VInt n => Ret n
  | VBool b => Ret (if b then 1 else 0)
  | VFloat f => truncate f
  | VStr s => match int_str s with Some n => Ret n | None => Raise ValueError end
  | VNone | VList _ | VDict _ => Raise TypeError
  end.

Definition of_int (o : option Z) : value :=
  match o with Some n => VInt n | None => VNone end.

Definition of_str (o : option string) : value :=
  match o with Some s => VStr s | None => VNone end.

End Py.

Declare Scope outcome_scope.
Delimit Scope outcome_scope with outcome.
Notation "x <- c ;; k" := (Py.obind c (fun x => k))
  (at level 100, c at next level, right associativity) : outcome_scope.

(** ** Pair extractor *)

Module Extractor.
Import Text Regex.

(** The dictionary built by [_extract_single_pair]. *)
Record pair : Type := mk_pair {
  forward_start : option Z;
  forward_end : option Z;
  forward_sequence : option string;
  reverse_start : option Z;
  reverse_end : option Z;
  reverse_sequence : option string;
  product_length : option Z;
  pair_index : option Z
}.

(** [<h3[^>]*>Primer pair \d+</h3>] *)
Definition section_marker : regex :=
  [Lit "<h3"; Star NotGt; Lit ">Primer pair "; Plus Digit; Lit "</h3>"].

(** [<tr><th>Forward\s+primer</th><td>([ATCGN]+)</td><td>([^<]+)</td>
     <td>(\d+)</td><td>(\d+)</td><td>(\d+)</td>], and the same for the
    reverse primer. *)
Definition primer_row (direction : string) : regex :=
  [Lit ("<tr><th>" ++ direction)%string; Plus Space; Lit "primer</th><td>"; Group Base;
   Lit "</td><td>"; Group NotLt;
   Lit "</td><td>"; Group Digit;
   Lit "</td><td>"; Group Digit;
   Lit "</td><td>"; Group Digit; Lit "</td>"].

Definition forward_pattern : regex := primer_row "Forward".
Definition reverse_pattern : regex := primer_row "Reverse".

(** [<tr><th>Product\s+length</th><td[^>]*>(\d+)</td></tr>] *)
Definition product_pattern : regex :=
  [Lit "<tr><th>Product"; Plus Space; Lit "length</th><td"; Star NotGt; Lit ">";
   Group Digit; Lit "</td></tr>"].

(** Sequence, start and stop of a primer row: groups 1, 4 and 5.  [int()] is
    applied to groups matched by [\d+], where it is [digits_value] (up to
    the interpreter's limit on the number of digits, see [int_str]). *)
Definition primer_fields (groups : option (list string))
    : option string * option Z * option Z :=
  match groups with
  | Some [seq; strand; len; start; stop] =>
      (Some seq, Some (digits_value start), Some (digits_value stop))
  | _ => (None, None, None)
  end.

Definition product_field (groups : option (list string)) : option Z :=
  match groups with
  | Some [len] => Some (digits_value len)
  | _ => None
  end.

(** [PrimerBlastValidator._extract_single_pair]. *)
Definition _extract_single_pair (html_content : string) (pair_index : option Z) : pair :=
  let '(fseq, fstart, fstop) := primer_fields (search forward_pattern html_content) in
  let '(rseq, rstart, rstop) := primer_fields (search reverse_pattern html_content) in
  let plen := product_field (search product_pattern html_content) in
  {| forward_start := fstart; forward_end := fstop; forward_sequence := fseq;
     reverse_start := rstart; reverse_end := rstop; reverse_sequence := rseq;
     product_length := plen; pair_index := pair_index |}.

(** The loop [for idx, section in enumerate(pair_sections, 1)]. *)
Fixpoint collect_pairs (idx : Z) (pair_sections : list string) : list pair :=
  match pair_sections with
  | [] => []
  | section :: rest =>
      let pair_data := _extract_single_pair section (Some idx) in
      match forward_start pair_data with
      | Some _ => pair_data :: collect_pairs (idx + 1) rest
      | None => collect_pairs (idx + 1) rest
      end
  end.

(** The sections handed to the loop. *)
Definition sections_of (html_content : string) : list string :=
  let pair_sections := split section_marker html_content in
  if (length pair_sections <=? 1)%nat then [html_content] else tail pair_sections.

(** [PrimerBlastValidator.extract_all_primer_pairs]. *)
Definition extract_all_primer_pairs (html_content : string) : list pair :=
  collect_pairs 1 (sections_of html_content).

(** A page has a section marker when the marker pattern matches somewhere. *)
Definition has_section_marker (html_content : string) : bool :=
  match search section_marker html_content with Some _ => true | None => false end.

End Extractor.

Module Samples.
Import Extractor.

Definition forward_row : string :=
  "<tr><th>Forward primer</th><td>TTTTTGCTATGGCCGGCATC</td><td>Plus</td><td>20</td><td>78</td><td>97</td><td>59.54</td><td>50.00</td><td>6.00</td><td>4.00</td></tr>".

Definition reverse_row : string :=
  "<tr><th>Reverse primer</th><td>TGATTGCCATGCAGACCCAT</td><td>Minus</td><td>20</td><td>498</td><td>479</td><td>59.54</td><td>50.00</td><td>6.00</td><td>4.00</td></tr>".

Definition product_row : string :=
  "<tr><th>Product length</th><td colspan=9>421</td></tr>".

(** A result page without section headers. *)
Definition plain_page : string := (forward_row ++ reverse_row ++ product_row)%string.

(** A result page with two sections; the first reports other coordinates. *)
Definition two_pair_page : string :=
  ("<html><h3>Primer pair 1</h3>"
   ++ "<tr><th>Forward primer</th><td>ACGT</td><td>Plus</td><td>4</td><td>10</td><td>13</td>"
   ++ "<tr><th>Product length</th><td>99</td></tr>"
   ++ "<h3 class=x>primer PAIR 2</h3>" ++ plain_page)%string.

End Samples.

(** ** Pair matcher and job validation *)

Module Validator.
Import Text Py Extractor.

(** *** The pair matcher *)

(** [expected is None or extracted is None or int(expected) == int(extracted)] *)
Definition null_or_equal (expected : value) (extracted : option Z) : outcome bool :=
  if is_none expected then Ret true
  else match extracted with
       | None => Ret true
       | Some x => (n <- py_int expected;; Ret (n =? x))%outcome
       end.

(** The loop of [find_matching_pair]: the three tests are evaluated for a
    pair before their conjunction is looked at. *)
Fixpoint first_match (expected_fwd expected_rev expected_size : value)
    (pairs : list pair) : outcome (option pair) :=
  match pairs with
  | [] => Ret None
  | p :: rest =>
      (fwd_match <- null_or_equal expected_fwd (forward_start p);;
       rev_match <- null_or_equal expected_rev (reverse_start p);;
       size_match <- null_or_equal expected_size (product_length p);;
       if fwd_match && rev_match && size_match then Ret (Some p)
       else first_match expected_fwd expected_rev expected_size rest)%outcome
  end.

(** [PrimerBlastValidator.find_matching_pair]. *)
Definition find_matching_pair (all_pairs : list pair) (job_info : dict)
    : outcome (option pair * bool) :=
  let expected_fwd := get "left_primer_start" job_info in
  let expected_rev := get "right_primer_start" job_info in
  let expected_size := get "product_size" job_info in
  (found <- first_match expected_fwd expected_rev expected_size all_pairs;;
   match found with
   | Some p => Ret (Some p, true)
   | None => Ret (head all_pairs, false)
   end)%outcome.

(** *** State of one validation: the job record being edited in place and
    the requests sent so far. *)

Record state : Type := mk_state {
  job_info : dict;
  requests : list value
}.

Definition M (A : Type) : Type := state -> outcome A * state.

Definition ret {A : Type} (a : A) : M A := fun st => (Ret a, st).

Definition bind {A B : Type} (c : M A) (k : A -> M B) : M B :=
  fun st =>
    match c st with
    | (Ret a, st') => k a st'
    | (Raise e, st') => (Raise e, st')
    end.

Definition lift {A : Type} (o : outcome A) : M A := fun st => (o, st).

Definition read : M dict := fun st => (Ret (job_info st), st).

(** [job_info[key] = v] *)
Definition store (key : string) (v : value) : M unit :=
  fun st => (Ret tt, {| job_info := <[key := v]> (job_info st);
                        requests := requests st |}).

(** [job_info[key]] *)
Definition subscript (key : string) : M value :=
  fun st =>
    match job_info st !! key with
    | Some v => (Ret v, st)
    | None => (Raise KeyError, st)
    end.

End Validator.

Declare Scope validation_scope.
Delimit Scope validation_scope with M.
Notation "x <- c ;; k" := (Validator.bind c (fun x => k))
  (at level 100, c at next level, right associativity) : validation_scope.
Notation "c ;; k" := (Validator.bind c (fun _ => k))
  (at level 100, right associativity) : validation_scope.

Module Job.
Import Text Py Extractor Validator.

(** A progress line is printed when [job_index] is given; it reads
    [job_info['primer_id']]. *)
Definition progress (job_index : option Z) : M unit :=
  match job_index with
  | Some _ => (_ <- subscript "primer_id";; ret tt)%M
  | None => ret tt
  end.

(** One comparison of the sequence check: [True] when both texts are
    present and differ after [upper()]. *)
Definition sequence_differs (extracted : option string) (expected : value)
    : outcome bool :=
  match extracted with
  | Some s =>
      if negb (String.eqb s EmptyString) && truthy expected then
        match expected with
        | VStr e => Ret (negb (String.eqb (upper s) (upper e)))
        | _ => Raise AttributeError
        end
      else Ret false
  | None => Ret false
  end.

(** Lines 292-301: [sequence_match]. *)
Definition sequence_check (matched_pair : pair) (job : dict) : outcome bool :=
  (fwd_differs <- sequence_differs (forward_sequence matched_pair) (get "forward_primer" job);;
   rev_differs <- sequence_differs (reverse_sequence matched_pair) (get "reverse_primer" job);;
   Ret (negb fwd_differs && negb rev_differs))%outcome.

(** One coordinate check: it stays [False] unless both numbers are present. *)
Definition present_and_equal (expected : value) (extracted : option Z) : outcome bool :=
  if is_none expected then Ret false
  else match extracted with
       | None => Ret false
       | Some x => (n <- py_int expected;; Ret (n =? x))%outcome
       end.

(** The [validation] dictionary. *)
Definition checks (fwd rev size seqs : bool) : value :=
  VDict [("forward_start_match", VBool fwd); ("reverse_start_match", VBool rev);
         ("product_size_match", VBool size); ("sequences_match", VBool seqs)].

(** Lines 305-363: the coordinate checks and the verdict. *)
Definition validate_coordinates (job_index : option Z) (matched_pair : pair)
    (sequence_match : bool) : M unit :=
  (job <- read;;
   let expected_fwd := get "left_primer_start" job in
   let expected_rev := get "right_primer_start" job in
   let expected_size := get "product_size" job in
   fwd <- lift (present_and_equal expected_fwd (forward_start matched_pair));;
   rev <- lift (present_and_equal expected_rev (reverse_start matched_pair));;
   size <- lift (present_and_equal expected_size (product_length matched_pair));;
   store "validation" (checks fwd rev size sequence_match);;
   let validation_passed := fwd && rev && size && sequence_match in
   store "validation_passed" (VBool validation_passed);;
   if validation_passed then
     progress job_index;; store "validation_status" (VStr "pass")
   else
     progress job_index;; store "validation_status" (VStr "fail"))%M.

(** Lines 278-303: the extracted fields and the sequence check. *)
Definition record_matched_pair (job_index : option Z) (matched_pair : pair)
    (match_found : bool) : M unit :=
  (store "matched_pair_index" (of_int (pair_index matched_pair));;
   store "used_matching_algorithm" (VBool match_found);;
   store "extracted_forward_sequence" (of_str (forward_sequence matched_pair));;
   store "extracted_forward_start" (of_int (forward_start matched_pair));;
   store "extracted_forward_end" (of_int (forward_end matched_pair));;
   store "extracted_reverse_sequence" (of_str (reverse_sequence matched_pair));;
   store "extracted_reverse_start" (of_int (reverse_start matched_pair));;
   store "extracted_reverse_end" (of_int (reverse_end matched_pair));;
   store "extracted_product_length" (of_int (product_length matched_pair));;
   job <- read;;
   sequence_match <- lift (sequence_check matched_pair job);;
   store "sequences_match" (VBool sequence_match);;
   validate_coordinates job_index matched_pair sequence_match)%M.

(** Lines 257-276: extraction and matching. *)
Definition validate_page (job_index : option Z) (html : string) : M unit :=
  let all_pairs := extract_all_primer_pairs html in
  match all_pairs with
  | [] => (progress job_index;; store "validation_status" (VStr "extraction_failed"))%M
  | _ :: _ =>
      (store "total_primer_pairs_found" (VInt (Z.of_nat (length all_pairs)));;
       job <- read;;
       found <- lift (find_matching_pair all_pairs job);;
       match found with
       | (None, _) =>
           progress job_index;; store "validation_status" (VStr "no_primer_data")
       | (Some matched_pair, match_found) =>
           record_matched_pair job_index matched_pair match_found
       end)%M
  end.

Section Network.

(** What the service answers to a request for a results URL: [None] when
    the request fails or raises ([fetch_results] catches every exception). *)
Variable served : value -> option string.

(** [PrimerBlastValidator.fetch_results]. *)
Definition fetch_results (results_url : value) : M (option string) :=
  fun st => (Ret (served results_url),
             {| job_info := job_info st; requests := requests st ++ [results_url] |}).

(** [PrimerBlastValidator.validate_job]; [total_jobs] is only printed. *)
Definition validate_job (job_index : option Z) : M unit :=
  (job <- read;;
   if negb (truthy (get "results_url" job)) then
     store "validation_status" (VStr "no_url");; progress job_index
   else
     progress job_index;;
     results_url <- subscript "results_url";;
     html <- fetch_results results_url;;
     match html with
     | None | Some EmptyString =>
         progress job_index;; store "validation_status" (VStr "fetch_failed")
     | Some html =>
         if contains "processing" (lower html) || contains "queued" (lower html) then
           progress job_index;; store "validation_status" (VStr "processing")
         else if contains "No primer pairs found" html then
           progress job_index;; store "validation_status" (VStr "no_primers")
         else validate_page job_index html
     end)%M.

End Network.

End Job.

(** ** Validation aggregator *)

Module Aggregator.
Import Py Validator Job.

(** Lines 391-410: the range check and [jobs[start_line:actual_end]];
    [None] stands for the early [return []]. *)
Definition select_range (jobs : list dict) (start_line : Z) (end_line : option Z)
    : option (list dict) :=
  let total_jobs := Z.of_nat (length jobs) in
  let actual_end := match end_line with Some e => e | None => total_jobs end in
  if start_line <? 0 then None
  else if start_line >=? total_jobs then None
  else
    let actual_end := if actual_end >? total_jobs then total_jobs else actual_end in
    if start_line >=? actual_end then None
    else Some (take (Z.to_nat actual_end - Z.to_nat start_line)%nat
                 (drop (Z.to_nat start_line) jobs)).

(** What the loop of [validate_all_jobs] owns: the slot array, the counter
    and the successive contents of the output file. *)
Record progress_state : Type := mk_progress {
  validated_jobs : list (option dict);
  completed_count : Z;
  written : list (list (option dict))
}.

(** [[j for j in validated_jobs if j is not None]] *)
Definition completed_only (slots : list (option dict)) : list (option dict) :=
  filter (fun j => is_Some j) slots.

(** *** The summary, lines 484-535

    What the summary prints is not kept; what is kept is each step of it
    that can raise, since it runs before the list is returned. *)

(** What an object is as a key of a dictionary and for [sorted]: a list or
    a dictionary cannot be hashed; of the others, texts order with texts,
    numbers with numbers, and [None] with nothing else. *)
Inductive key_kind : Type := NullKey | NumberKey | TextKey.

Definition same_kind (a b : key_kind) : bool :=
  match a, b with
  | NullKey, NullKey | NumberKey, NumberKey | TextKey, TextKey => true
  | _, _ => false
  end.

Definition key_kind_of (v : value) : outcome key_kind :=
  match v with
  | VNone => Ret NullKey
  | VBool _ | VInt _ | VFloat _ => Ret NumberKey
  | VStr _ => Ret TextKey
  | VList _ | VDict _ => Raise TypeError
  end.

(** The loop that counts the statuses: the keys that [statuses] receives,
    job after job.  A slot that is still [None] has no [get]. *)
Fixpoint status_keys (validated_jobs : list (option dict)) : outcome (list key_kind) :=
  match validated_jobs with
  | [] => Ret []
  | None :: _ => Raise AttributeError
  | Some job :: rest =>
      (key <- key_kind_of (default (VStr "unknown") (job !! "validation_status"));;
       keys <- status_keys rest;;
       Ret (key :: keys))%outcome
  end.

(** [sorted(statuses.items())]: the keys are distinct, so two items are
    ordered by their keys, and keys of two kinds do not order. *)
Definition sorted_keys (keys : list key_kind) : outcome unit :=
  match keys with
  | [] => Ret tt
  | key :: rest => if forallb (same_kind key) rest then Ret tt else Raise TypeError
  end.

(** [f > k] for a float [f] and an integer [k]. *)
Definition float_exceeds (f : spec_float) (k : Z) : bool :=
  match f with
  | S754_zero _ => 0 >? k
  | S754_infinity negative => negb negative
  | S754_nan => false
  | S754_finite negative m e =>
      let signed := if negative then Z.neg m else Z.pos m in
      if 0 <=? e then signed * 2 ^ e >? k else signed >? k * 2 ^ (- e)
  end.

(** [v > k] for an integer [k]. *)
Definition exceeds (v : value) (k : Z) : outcome bool :=
  match v with
  | VBool b => Ret ((if b then 1 else 0) >? k)
  | VInt n => Ret (n >? k)
  | VFloat f => Ret (float_exceeds f k)
  | VNone | VStr _ | VList _ | VDict _ => Raise TypeError
  end.

(** [sum(1 for job in validated_jobs if test(job))] *)
Fixpoint count_where (test : dict -> outcome bool) (validated_jobs : list (option dict))
    : outcome Z :=
  match validated_jobs with
  | [] => Ret 0
  | None :: _ => Raise AttributeError
  | Some job :: rest =>
      (hit <- test job;;
       n <- count_where test rest;;
       Ret (if hit then n + 1 else n))%outcome
  end.

(** [job.get('total_primer_pairs_found', 0)] *)
Definition pairs_found (job : dict) : value :=
  default (VInt 0) (job !! "total_primer_pairs_found").

(** Lines 484-535.  In the loop of the distribution a count that passed
    [count > 0] is a number: it can be hashed and orders with the others. *)
Definition summary (validated_jobs : list (option dict)) : outcome unit :=
  (keys <- status_keys validated_jobs;;
   _ <- sorted_keys keys;;
   jobs_with_multiple_pairs <-
     count_where (fun job => exceeds (pairs_found job) 1) validated_jobs;;
   jobs_using_matching <-
     count_where (fun job =>
                    Ret (truthy (default (VBool false) (job !! "used_matching_algorithm"))))
       validated_jobs;;
   if jobs_with_multiple_pairs >? 0 then
     (_ <- count_where (fun job => exceeds (pairs_found job) 0) validated_jobs;; Ret tt)
   else Ret tt)%outcome.

Section Batch.

(** What the service answers to the request made by the worker of a slot. *)
Variable served : nat -> value -> option string.

(** The closure [process_job] of [validate_all_jobs]. *)
Definition process_job (idx : nat) (job : dict) : outcome (nat * dict) :=
  if negb (truthy (get "job_key" job)) then
    match job !! "primer_id" with
    | Some _ => Ret (idx, <["validation_status" := VStr "no_job_key"]> job)
    | None => Raise KeyError
    end
  else
    match validate_job (served idx) (Some (Z.of_nat idx + 1))
            {| job_info := job; requests := [] |} with
    | (Ret _, st) => Ret (idx, job_info st)
    | (Raise e, _) => Raise e
    end.

(** The futures, in submission order: [future_to_idx]. *)
Definition futures (jobs_subset : list dict) : list (outcome (nat * dict)) :=
  imap process_job jobs_subset.

(** One turn of [for future in as_completed(future_to_idx)]. *)
Definition complete (checkpoint_interval : Z) (result : outcome (nat * dict))
    (st : progress_state) : outcome unit * progress_state :=
  match result with
  | Raise e => (Raise e, st)
  | Ret (idx, validated_job) =>
      if (idx <? length (validated_jobs st))%nat then
        let slots := <[idx := Some validated_job]> (validated_jobs st) in
        let count := completed_count st + 1 in
        if checkpoint_interval =? 0 then
          (Raise ZeroDivisionError, mk_progress slots count (written st))
        else if count mod checkpoint_interval =? 0 then
          (Ret tt, mk_progress slots count (written st ++ [completed_only slots]))
        else (Ret tt, mk_progress slots count (written st))
      else (Raise IndexError, st)
  end.

(** The loop over the futures in their order of completion; an index that
    names no future is not an event of the pool and is passed over. *)
Fixpoint gather (checkpoint_interval : Z) (pool : list (outcome (nat * dict)))
    (order : list nat) (st : progress_state) : outcome unit * progress_state :=
  match order with
  | [] => (Ret tt, st)
  | future :: later =>
      match pool !! future with
      | None => gather checkpoint_interval pool later st
      | Some result =>
          match complete checkpoint_interval result st with
          | (Ret _, st') => gather checkpoint_interval pool later st'
          | (Raise e, st') => (Raise e, st')
          end
      end
  end.

(** Lines 426-537, for the order in which the futures complete: the
    value returned and the successive contents of the output file.  The
    summary comes after the last write and before the [return]. *)
Definition aggregate (jobs_subset : list dict) (checkpoint_interval : Z)
    (order : list nat) : outcome (list (option dict)) * list (list (option dict)) :=
  let start := mk_progress (replicate (length jobs_subset) None) 0 [] in
  match gather checkpoint_interval (futures jobs_subset) order start with
  | (Ret _, st) =>
      ((_ <- summary (validated_jobs st);; Ret (validated_jobs st))%outcome,
       written st ++ [validated_jobs st])
  | (Raise e, st) => (Raise e, written st)
  end.

(** [validate_all_jobs]. *)
Definition validate_all_jobs (jobs : list dict) (start_line : Z) (end_line : option Z)
    (checkpoint_interval : Z) (order : list nat)
    : outcome (list (option dict)) * list (list (option dict)) :=
  match select_range jobs start_line end_line with
  | None => (Ret [], [])
  | Some jobs_subset => aggregate jobs_subset checkpoint_interval order
  end.


End Batch.

End Aggregator.

(** ** Vocabulary of the statements *)

Module Spec.
Import Text Py Extractor Validator Job.



(** An expected value is absent or something [int()] accepts. *)
Definition convertible (v : value) : Prop :=
  v = VNone \/ exists n, py_int v = Ret n.

Definition expectations_numeric (job : dict) : Prop :=
  convertible (get "left_primer_start" job) /\
  convertible (get "right_primer_start" job) /\
  convertible (get "product_size" job).

(** The progress lines of a job can be printed. *)
Definition can_report (job_index : option Z) (job : dict) : Prop :=
  job_index = None \/ is_Some (job !! "primer_id").

(** The request for the results page of [job] is answered with [html], and
    [validate_job] goes on to extract pairs from it. *)
Definition reaches_extraction (served : value -> option string) (job : dict)
    (html : string) : Prop :=
  truthy (get "results_url" job) = true /\
  served (get "results_url" job) = Some html /\
  html <> EmptyString /\
  contains "processing" (lower html) = false /\
  contains "queued" (lower html) = false /\
  contains "No primer pairs found" html = false.

(** The record after lines 279-289: the fields of the matched pair. *)
Definition with_fields (p : pair) (match_found : bool) (job : dict) : dict :=
  <["extracted_product_length" := of_int (product_length p)]>
  (<["extracted_reverse_end" := of_int (reverse_end p)]>
  (<["extracted_reverse_start" := of_int (reverse_start p)]>
  (<["extracted_reverse_sequence" := of_str (reverse_sequence p)]>
  (<["extracted_forward_end" := of_int (forward_end p)]>
  (<["extracted_forward_start" := of_int (forward_start p)]>
  (<["extracted_forward_sequence" := of_str (forward_sequence p)]>
  (<["used_matching_algorithm" := VBool match_found]>
  (<["matched_pair_index" := of_int (pair_index p)]> job)))))))).

(** The record after lines 267-289: the number of pairs, then the fields
    of the matched pair. *)
Definition recorded (n_pairs : nat) (p : pair) (match_found : bool) (job : dict) : dict :=
  with_fields p match_found
    (<["total_primer_pairs_found" := VInt (Z.of_nat n_pairs)]> job).

(** The record after the verdict. *)
Definition judged (fwd rev size seqs : bool) (job : dict) : dict :=
  <["validation_status" := VStr (if fwd && rev && size && seqs then "pass" else "fail")]>
  (<["validation_passed" := VBool (fwd && rev && size && seqs)]>
  (<["validation" := checks fwd rev size seqs]>
  (<["sequences_match" := VBool seqs]> job))).

Definition status (job : dict) : option value := job !! "validation_status".

(** The statuses a run of [validate_job] is seen to end with. *)
Definition assigned_statuses : list string :=
  ["no_url"; "fetch_failed"; "processing"; "no_primers"; "extraction_failed";
   "pass"; "fail"].

(** The three tests were evaluated, without an exception, on a pair that
    the loop let through or returned. *)
Definition tested (job : dict) (p : pair) : Prop :=
  (exists b, null_or_equal (get "left_primer_start" job) (forward_start p) = Ret b) /\
  (exists b, null_or_equal (get "right_primer_start" job) (reverse_start p) = Ret b) /\
  (exists b, null_or_equal (get "product_size" job) (product_length p) = Ret b).



(** Two characters are the same character, or the same letter of the
    alphabet in its two cases. *)
Definition same_letter (a b : ascii) : bool :=
  (code a =? code b)
  || ((between 65 90 a || between 97 122 a) && (between 65 90 b || between 97 122 b)
      && (Z.abs (code a - code b) =? 32)).

(** Two texts of the same length that hold the same letters, position by
    position, whatever the case of each. *)
Fixpoint equal_ignoring_case (s e : string) : bool :=
  match s, e with
  | EmptyString, EmptyString => true
  | String a s', String b e' => same_letter a b && equal_ignoring_case s' e'
  | _, _ => false
  end.

(** Every character, for a check that runs over all of them. *)
Definition every_character : list ascii := map ascii_of_nat (seq 0 256).

(** What [upper] makes of a base [c] and of any character [d], against
    [same_letter]: [upper] keeps a base as one character; it makes one
    character of [d], equal to that of [c] exactly for the same letter, or
    two (the sharp s), which then begin with another letter. *)
Definition upper_agrees (c d : ascii) : bool :=
  match upper (String c EmptyString), upper (String d EmptyString) with
  | String a EmptyString, String b EmptyString =>
      Bool.eqb (Ascii.eqb a b) (same_letter c d)
  | String a EmptyString, String b (String _ _) =>
      negb (Ascii.eqb a b) && negb (same_letter c d)
  | _, _ => false
  end.



End Spec.

Module Jobs.
Import Py Extractor Samples.

(** A job record as the submitter writes it. *)
Definition job_78 : dict :=
  list_to_map
    [("primer_id", VStr "P1"); ("accession", VStr "NC_000001");
     ("forward_primer", VStr "tttttgctatggccggcatc");
     ("reverse_primer", VStr "TGATTGCCATGCAGACCCAT");
     ("product_size", VInt 421); ("left_primer_start", VInt 78);
     ("right_primer_start", VInt 498); ("job_key", VStr "JOB1");
     ("results_url", VStr "https://www.ncbi.nlm.nih.gov/tools/primer-blast/primertool.cgi?job_key=JOB1");
     ("status", VStr "submitted")].

(** The same record without an expected product size. *)
Definition job_without_size : dict := delete "product_size" job_78.

(** The record of a submission that yielded no job key. *)
Definition job_without_url : dict :=
  <["results_url" := VNone]> (<["job_key" := VNone]> job_78).

(** The second pair of [two_pair_page]. *)
Definition pair_2 : pair :=
  {| forward_start := Some 78; forward_end := Some 97;
     forward_sequence := Some "TTTTTGCTATGGCCGGCATC";
     reverse_start := Some 498; reverse_end := Some 479;
     reverse_sequence := Some "TGATTGCCATGCAGACCCAT";
     product_length := Some 421; pair_index := Some 2 |}.

(** A page without any primer row. *)
Definition blank_page : string := "<html><body><p>Primer-BLAST results</p></body></html>".

(** The service answers every request with the same page. *)
Definition always (page : string) : value -> option string := fun _ => Some page.

(** A batch of three records, and workers that all receive the page with
    two sections. *)
Definition batch : list dict := [job_78; job_without_url; job_without_size].

Definition batch_served : nat -> value -> option string :=
  fun _ => always two_pair_page.

End Jobs.

(** ** Vocabulary for the runs of [validate_job] *)

Module Runs.
Import Text Py Extractor Validator Job Spec.

(** The fields [validate_job] assigns. *)
Definition written_keys : list string :=
  ["validation_status"; "total_primer_pairs_found"; "matched_pair_index";
   "used_matching_algorithm"; "extracted_forward_sequence";
   "extracted_forward_start"; "extracted_forward_end";
   "extracted_reverse_sequence"; "extracted_reverse_start";
   "extracted_reverse_end"; "extracted_product_length"; "sequences_match";
   "validation"; "validation_passed"].

(** Every run of a computation, returning or raising, relates its first
    and last state by [R]. *)
Definition respects {A : Type} (R : state -> state -> Prop) (c : M A) : Prop :=
  forall (st : state) (o : outcome A) (st' : state), c st = (o, st') -> R st st'.

(** The fields outside [written_keys] are as they were, and no field is
    removed. *)
Definition framed (st st' : state) : Prop :=
  (forall key, ~ In key written_keys -> job_info st' !! key = job_info st !! key) /\
  (forall key, is_Some (job_info st !! key) -> is_Some (job_info st' !! key)).

Definition same_requests (st st' : state) : Prop := requests st' = requests st.

(** The record with nothing but a status added. *)
Definition marked (s : string) (job : dict) : dict :=
  <["validation_status" := VStr s]> job.

(** The ways in which [validate_job] returns, with the state it leaves. *)
Inductive returning_run (served : value -> option string) (job : dict)
    (sent : list value) : state -> Prop :=
| run_no_url :
    truthy (get "results_url" job) = false ->
    returning_run served job sent (mk_state (marked "no_url" job) sent)
| run_fetch_failed :
    truthy (get "results_url" job) = true ->
    served (get "results_url" job) = None \/
    served (get "results_url" job) = Some EmptyString ->
    returning_run served job sent
      (mk_state (marked "fetch_failed" job) (sent ++ [get "results_url" job]))
| run_processing (html : string) :
    truthy (get "results_url" job) = true ->
    served (get "results_url" job) = Some html ->
    html <> EmptyString ->
    contains "processing" (lower html) || contains "queued" (lower html) = true ->
    returning_run served job sent
      (mk_state (marked "processing" job) (sent ++ [get "results_url" job]))
| run_no_primers (html : string) :
    truthy (get "results_url" job) = true ->
    served (get "results_url" job) = Some html ->
    html <> EmptyString ->
    contains "processing" (lower html) || contains "queued" (lower html) = false ->
    contains "No primer pairs found" html = true ->
    returning_run served job sent
      (mk_state (marked "no_primers" job) (sent ++ [get "results_url" job]))
| run_extraction_failed (html : string) :
    reaches_extraction served job html ->
    extract_all_primer_pairs html = [] ->
    returning_run served job sent
      (mk_state (marked "extraction_failed" job) (sent ++ [get "results_url" job]))
| run_verdict (html : string) (p : pair) (found seqs fwd rev size : bool) :
    reaches_extraction served job html ->
    find_matching_pair (extract_all_primer_pairs html) job = Ret (Some p, found) ->
    sequence_check p job = Ret seqs ->
    present_and_equal (get "left_primer_start" job) (forward_start p) = Ret fwd ->
    present_and_equal (get "right_primer_start" job) (reverse_start p) = Ret rev ->
    present_and_equal (get "product_size" job) (product_length p) = Ret size ->
    returning_run served job sent
      (mk_state (judged fwd rev size seqs
                   (recorded (length (extract_all_primer_pairs html)) p found job))
         (sent ++ [get "results_url" job])).

End Runs.

(** ** More sample pages and records *)

Module Cases.
Import Py Extractor Samples Jobs.

(** A page that still announces the job as queued although it carries the
    rows of a pair and the sentence of an empty result. *)
Definition mixed_page : string :=
  ("<p>Job QUEUED</p>" ++ plain_page ++ "<p>No primer pairs found</p>")%string.

(** A page that reports an empty result, with rows left in it. *)
Definition empty_result_page : string :=
  (plain_page ++ "<p>No primer pairs found</p>")%string.

(** A record whose expected forward start is not a number. *)
Definition job_bad_start : dict := <["left_primer_start" := VStr "n/a"]> job_78.

(** A record whose expected values are a text with blanks, a sign and an
    underscore, a text with a leading zero, and the float 421.5. *)
Definition job_loose_expectations : dict :=
  <["left_primer_start" := VStr " +7_8 "]>
  (<["right_primer_start" := VStr "0498"]>
  (<["product_size" := VFloat (S754_finite false 843 (-1))]> job_78)).

(** A record without any expected coordinate. *)
Definition job_without_expectations : dict :=
  delete "left_primer_start" (delete "right_primer_start" (delete "product_size" job_78)).

(** A record without job key that holds a text where the number of pairs
    found is expected. *)
Definition job_stale_total : dict :=
  <["total_primer_pairs_found" := VStr "3"]> job_without_url.


End Cases.

(** ** Vocabulary for the extractor, and [extract_coordinates] *)

Module Rows.
Import Text Regex Extractor.

(** The classes of the capturing groups of a pattern, in order. *)
Fixpoint group_classes (r : regex) : list cls :=
  match r with
  | [] => []
  | Group k :: r' => k :: group_classes r'
  | _ :: r' => group_classes r'
  end.

(** A text that is not empty and made of characters of one class. *)
Definition made_of (k : cls) (g : string) : Prop :=
  g <> EmptyString /\
  Forall (fun c => cls_mem k c = true) (list_ascii_of_string g).

(** An extracted number, when there is one, is not negative. *)
Definition natural (o : option Z) : Prop :=
  match o with Some n => 0 <= n | None => True end.

(** An extracted sequence, when there is one, is a run of the letters
    A, T, C, G, N in either case. *)
Definition bases (o : option string) : Prop :=
  match o with Some s => made_of Base s | None => True end.

(** The dictionary [extract_coordinates] returns when no pair was found. *)
Definition null_pair : pair :=
  {| forward_start := None; forward_end := None; forward_sequence := None;
     reverse_start := None; reverse_end := None; reverse_sequence := None;
     product_length := None; pair_index := None |}.

(** [PrimerBlastValidator.extract_coordinates]. *)
Definition extract_coordinates (html_content : string) : pair :=
  match extract_all_primer_pairs html_content with
  | [] => null_pair
  | first :: _ => first
  end.

(** The pair of the section at position [i] (from 0) of a page. *)
Definition pair_of_section (i : nat) (section : string) : pair :=
  _extract_single_pair section (Some (Z.of_nat i + 1)).

(** Two pairs carry indices, the first one the smaller. *)
Definition index_before (p q : pair) : Prop :=
  exists a b, pair_index p = Some a /\ pair_index q = Some b /\ a < b.

End Rows.

(** ** Analysis of a results file ([analyze_validations.py]) *)

Module Analysis.
Import Py.

(** The tallies of [analyze_primer_validation] while it reads the list. *)
Record tally : Type := mk_tally {
  passed_count : Z;
  failed_count : Z;
  all_records : list (value * value)
}.

(** [v == s] for a text [s]. *)
Definition is_text (s : string) (v : value) : bool :=
  match v with
  | VStr t => String.eqb t s
  | _ => false
  end.

(** One turn of the loop over the records.  An element of the list that is
    null has no [get] ([AttributeError]). *)
Definition count_record (record : option dict) (t : tally) : outcome tally :=
  match record with
  | None => Raise AttributeError
  | Some record =>
      let primer_id := default (VStr "MISSING_ID") (record !! "primer_id") in
      let validation_status := get "validation_status" record in
      let listed := all_records t ++ [(primer_id, validation_status)] in
      if is_text "pass" validation_status then
        Ret (mk_tally (passed_count t + 1) (failed_count t) listed)
      else if is_text "fail" validation_status || is_text "failed" validation_status then
        Ret (mk_tally (passed_count t) (failed_count t + 1) listed)
      else Ret (mk_tally (passed_count t) (failed_count t) listed)
  end.

Fixpoint count_records (records : list (option dict)) (t : tally) : outcome tally :=
  match records with
  | [] => Ret t
  | record :: rest =>
      match count_record record t with
      | Ret t' => count_records rest t'
      | Raise e => Raise e
      end
  end.

(** [analyze_primer_validation] on the list read from the file (a list of
    objects and nulls, as [validate_all_jobs] writes it). *)
Definition analyze_primer_validation (records : list (option dict)) : outcome tally :=
  count_records records (mk_tally 0 0 []).

(** The status of a record counts as passed, or as failed. *)
Definition is_passed (record : dict) : bool :=
  is_text "pass" (get "validation_status" record).

Definition is_failed (record : dict) : bool :=
  is_text "fail" (get "validation_status" record)
  || is_text "failed" (get "validation_status" record).

(** The line of a record in the list of all records. *)
Definition listing (record : dict) : value * value :=
  (default (VStr "MISSING_ID") (record !! "primer_id"),
   get "validation_status" record).

End Analysis.

(** ** Submission of a job ([submit_primerblast_jobs.py]) *)

Module Pattern.
Import Text Regex.

(** The patterns of the submitter: literal text (compared exactly, or
    ignoring case under [re.IGNORECASE]), one character of a class, and
    greedy repetitions of a class, one of which may be captured. *)
Inductive piece : Type :=
| Exact (text : string)
| Folded (text : string)
| One (p : ascii -> bool)
| Many (p : ascii -> bool)          (* class*  *)
| Many1 (p : ascii -> bool)         (* class+  *)
| Capture (p : ascii -> bool).      (* (class+) *)

Fixpoint strip_exact (text s : string) : option string :=
  match text, s with
  | EmptyString, _ => Some s
  | String p text', String c s' =>
      if code c =? code p then strip_exact text' s' else None
  | String _ _, EmptyString => None
  end.

Fixpoint match_at (pattern : list piece) (s : string) (caps : list string)
    : option (list string * string) :=
  match pattern with
  | [] => Some (caps, s)
  | Exact text :: rest =>
      match strip_exact text s with
      | Some s' => match_at rest s' caps
      | None => None
      end
  | Folded text :: rest =>
      match strip_literal text s with
      | Some s' => match_at rest s' caps
      | None => None
      end
  | One p :: rest =>
      match s with
      | String c s' => if p c then match_at rest s' caps else None
      | EmptyString => None
      end
  | Many p :: rest => rep p (fun _ s' => match_at rest s' caps) EmptyString s
  | Many1 p :: rest => rep1 p (fun _ s' => match_at rest s' caps) s
  | Capture p :: rest => rep1 p (fun g s' => match_at rest s' (caps ++ [g])) s
  end.

(** [re.search(...).group(1)] for a pattern with one group: the captured
    text of the leftmost match. *)
Fixpoint find (pattern : list piece) (s : string) : option string :=
  match match_at pattern s [] with
  | Some ([g], _) => Some g
  | Some _ => None
  | None =>
      match s with
      | String _ s' => find pattern s'
      | EmptyString => None
      end
  end.

Definition double_quote : string := String (chr 34) EmptyString.

Definition is_quote (c : ascii) : bool := (code c =? 34) || (code c =? 39).

(** [[A-Za-z0-9_-]] *)
Definition is_key_char (c : ascii) : bool :=
  between 65 90 c || between 97 122 c || between 48 57 c
  || (code c =? 95) || (code c =? 45).

(** The redirection: [content=], a quote, characters other than quotes,
    [URL=], the captured run of characters other than quotes, a quote;
    ignoring case.  A quote is the double or the single one. *)
Definition meta_refresh : list piece :=
  [Folded "content="; One is_quote; Many (fun c => negb (is_quote c));
   Folded "URL="; Capture (fun c => negb (is_quote c)); One is_quote].

(** [job_key=([A-Za-z0-9_-]+)] *)
Definition key_in_url : list piece := [Exact "job_key="; Capture is_key_char].

(** The hidden field: [name=] and the quoted word job_key, blanks,
    [value=] and, between double quotes, the captured run of characters
    other than the double quote. *)
Definition hidden_input : list piece :=
  [Exact ("name=" ++ double_quote ++ "job_key" ++ double_quote)%string;
   Many1 is_space; Exact ("value=" ++ double_quote)%string;
   Capture (fun c => negb (code c =? 34)); Exact double_quote].

(** The hidden field with its two attributes in the other order. *)
Definition hidden_input_swapped : list piece :=
  [Exact ("value=" ++ double_quote)%string; Capture (fun c => negb (code c =? 34));
   Exact double_quote; Many1 is_space;
   Exact ("name=" ++ double_quote ++ "job_key" ++ double_quote)%string].

(** [JOB\s+ID\s*:\s*([A-Za-z0-9_-]+)], ignoring case *)
Definition job_id_label : list piece :=
  [Folded "JOB"; Many1 is_space; Folded "ID"; Many is_space; Folded ":";
   Many is_space; Capture is_key_char].

End Pattern.

Module Submission.
Import Text Py Pattern.

Definition submit_url : string :=
  "https://www.ncbi.nlm.nih.gov/tools/primer-blast/primertool.cgi".

(** [s.replace('&amp;', '&')] *)
Fixpoint unescape_amp (s : string) : string :=
  match s with
  | String "&" (String "a" (String "m" (String "p" (String ";" rest)))) =>
      String "&" (unescape_amp rest)
  | String c s' => String c (unescape_amp s')
  | EmptyString => EmptyString
  end.

(** [not job_key], for a key that is [None] or a text. *)
Definition missing (o : option string) : bool :=
  match o with
  | None | Some EmptyString => true
  | Some _ => false
  end.

(** The three strategies of [submit_job], lines 108-134: the job key and
    the results URL found in the answer of the service. *)
Definition locate_job (html_content : string) : option string * option string :=
  let results_url := unescape_amp <$> find meta_refresh html_content in
  let job_key :=
    match results_url with
    | Some url => find key_in_url url
    | None => None
    end in
  let job_key :=
    if missing job_key then
      match find hidden_input html_content with
      | Some key => Some key
      | None =>
          match find hidden_input_swapped html_content with
          | Some key => Some key
          | None => job_key
          end
      end
    else job_key in
  let job_key :=
    if missing job_key then
      match find job_id_label html_content with
      | Some key => Some key
      | None => job_key
      end
    else job_key in
  let results_url :=
    if negb (missing job_key) && missing results_url
    then Some (submit_url ++ "?job_key=" ++ default EmptyString job_key)%string
    else results_url in
  (job_key, results_url).

(** What comes back from [requests.post] and [raise_for_status]: the text
    of the response, or an exception with its message. *)
Inductive answer : Type :=
| Page (html_content : string)
| Failure (message : string).

(** [row_data[key]] *)
Definition column (key : string) (row_data : dict) : outcome value :=
  match row_data !! key with
  | Some v => Ret v
  | None => Raise KeyError
  end.

(** [PrimerBlastSubmitter.submit_job], for the answer the request gets and
    the time [now] of the submission. *)
Definition submit_job (now : string) (row_data : dict) (reply : answer) : outcome dict :=
  (primer_id <- column "primer_id" row_data;;
   accession <- column "accession" row_data;;
   forward_primer <- column "left_primer_seq" row_data;;
   reverse_primer <- column "right_primer_seq" row_data;;
   size <- column "product_size" row_data;;
   product_size <- py_int size;;
   let left_primer_start := get "left_primer_start" row_data in
   let right_primer_start := get "right_primer_start" row_data in
   let result_info : dict :=
     <["status" := VStr "init"]>
     (<["submission_time" := VStr now]>
     (<["results_url" := VNone]>
     (<["job_key" := VNone]>
     (<["right_primer_start" := right_primer_start]>
     (<["left_primer_start" := left_primer_start]>
     (<["product_size" := VInt product_size]>
     (<["reverse_primer" := reverse_primer]>
     (<["forward_primer" := forward_primer]>
     (<["accession" := accession]>
     (<["primer_id" := primer_id]> ∅)))))))))) in
   match reply with
   | Page html_content =>
       let '(job_key, results_url) := locate_job html_content in
       Ret (<["status" := VStr (if missing job_key then "failed_extraction"
                                else "submitted")]>
            (<["results_url" := of_str results_url]>
            (<["job_key" := of_str job_key]> result_info)))
   | Failure message =>
       Ret (<["error" := VStr message]>
            (<["status" := VStr "failed"]> result_info))
   end)%outcome.

End Submission.

Module Replies.
Import Pattern Submission Py.

(** A row of the input table. *)
Definition row_78 : dict :=
  list_to_map
    [("primer_id", VStr "P1"); ("accession", VStr "NC_000001");
     ("left_primer_seq", VStr "TTTTTGCTATGGCCGGCATC");
     ("right_primer_seq", VStr "TGATTGCCATGCAGACCCAT");
     ("product_size", VInt 421); ("left_primer_start", VInt 78);
     ("right_primer_start", VInt 498)].

(** The same row with an empty cell for the expected forward start, as
    the table reader hands it over: a NaN. *)
Definition row_empty_start : dict :=
  <["left_primer_start" := VFloat S754_nan]> row_78.

(** An answer that redirects to the results of a job. *)
Definition redirect_page : string :=
  ("<meta http-equiv=refresh content=" ++ double_quote
   ++ "2; URL=primertool.cgi?ctg_time=1&amp;job_key=AbC-12_x" ++ double_quote ++ ">")%string.

(** An answer that only names the job in its text. *)
Definition label_page : string := "<p>Your job id : XYZ_9</p>".

End Replies.

(** ** Vocabulary for the records of the submitter *)

Module Records.
Import Py Pattern Submission.

(** The record [submit_job] builds before it sends its request. *)
Definition initial_record (now : string)
    (primer_id accession forward_primer reverse_primer : value) (product_size : Z)
    (left_primer_start right_primer_start : value) : dict :=
  <["status" := VStr "init"]>
  (<["submission_time" := VStr now]>
  (<["results_url" := VNone]>
  (<["job_key" := VNone]>
  (<["right_primer_start" := right_primer_start]>
  (<["left_primer_start" := left_primer_start]>
  (<["product_size" := VInt product_size]>
  (<["reverse_primer" := reverse_primer]>
  (<["forward_primer" := forward_primer]>
  (<["accession" := accession]>
  (<["primer_id" := primer_id]> ∅)))))))))).

(** The record after the answer. *)
Definition answered (reply : answer) (result_info : dict) : dict :=
  match reply with
  | Page html_content =>
      <["status" := VStr (if missing (fst (locate_job html_content))
                          then "failed_extraction" else "submitted")]>
      (<["results_url" := of_str (snd (locate_job html_content))]>
      (<["job_key" := of_str (fst (locate_job html_content))]> result_info))
  | Failure message =>
      <["error" := VStr message]> (<["status" := VStr "failed"]> result_info)
  end.

(** The columns [submit_job] reads with a subscript. *)
Definition required_columns : list string :=
  ["primer_id"; "accession"; "left_primer_seq"; "right_primer_seq"; "product_size"].

End Records.

Module Submitted.
Import Py Submission Records Replies.

Definition now_78 : string := "2026-01-01 00:00:00".

(** The record an outcome carries. *)
Definition returned (o : outcome dict) : dict :=
  match o with Ret r => r | Raise _ => ∅ end.

(** The record of [row_78] when the service redirects to the results. *)
Definition submitted_78 : dict :=
  returned (submit_job now_78 row_78 (Page redirect_page)).

(** The record of [row_empty_start]. *)
Definition submitted_empty_start : dict :=
  returned (submit_job now_78 row_empty_start (Page redirect_page)).

(** The record of [row_78] when the request fails. *)
Definition failed_78 : dict :=
  returned (submit_job now_78 row_78 (Failure "timed out")).

End Submitted.

(** ** The loop of [submit_primer_jobs] *)

Module SubmitAll.
Import Py Submission.

(** What the loop owns: the list of results, the counter and the
    successive contents of the output file. *)
Record saving : Type := mk_saving {
  completed_jobs : list dict;
  count : Z;
  saved : list (list dict)
}.

(** One turn of [for future in as_completed(futures)], lines 182-197: the
    line printed reads [result['job_key']] and [result['primer_id']]. *)
Definition collect (total : Z) (result : outcome dict) (st : saving)
    : outcome unit * saving :=
  match result with
  | Raise e => (Raise e, st)
  | Ret result =>
      let counted := mk_saving (completed_jobs st) (count st + 1) (saved st) in
      match result !! "job_key", result !! "primer_id" with
      | Some _, Some _ =>
          let jobs := completed_jobs st ++ [result] in
          if (count counted mod 10 =? 0) || (count counted =? total)
          then (Ret tt, mk_saving jobs (count counted) (saved st ++ [jobs]))
          else (Ret tt, mk_saving jobs (count counted) (saved st))
      | _, _ => (Raise KeyError, counted)
      end
  end.

Fixpoint collect_all (total : Z) (pool : list (outcome dict)) (order : list nat)
    (st : saving) : outcome unit * saving :=
  match order with
  | [] => (Ret tt, st)
  | future :: later =>
      match pool !! future with
      | None => collect_all total pool later st
      | Some result =>
          match collect total result st with
          | (Ret _, st') => collect_all total pool later st'
          | (Raise e, st') => (Raise e, st')
          end
      end
  end.

(** Lines 165-197 of [submit_primer_jobs] for the rows of the selected
    range: the file is first written with an empty list, one future is
    made per row, and the results are taken in their order of completion.
    [now] and [reply] give the time and the answer of each submission. *)
Definition submit_rows (now : nat -> string) (reply : nat -> answer)
    (rows : list dict) (order : list nat) : outcome unit * saving :=
  let futures := imap (fun i row => submit_job (now i) row (reply i)) rows in
  collect_all (Z.of_nat (length rows)) futures order (mk_saving [] 0 [[]]).

End SubmitAll.

Module Rowsets.
Import Py Submission Replies Submitted.

Definition row_79 : dict := <["primer_id" := VStr "P2"]> row_78.

Definition two_rows : list dict := [row_78; row_79].

Definition two_replies (i : nat) : answer :=
  match i with
  | O => Page redirect_page
  | S _ => Page label_page
  end.

Definition always_now (i : nat) : string := now_78.

(** The record of [row_79] when the service names the job in its text. *)
Definition submitted_79 : dict :=
  returned (submit_job now_78 row_79 (Page label_page)).

End Rowsets.

(** * Properties *)

Import Text Py Regex Extractor Validator Job Aggregator Spec.
Import Runs Rows.

(** ** Size bands *)

(** C9: every product size falls in exactly one of the three cases, and the
    case fixes the band: (100, 200) below 150, (150, 200) from 150 to 200,
    (300, 500) above 200.  The bands for sizes up to 200 are 100 and 50
    wide, the band for larger sizes is 200 wide. *)
Theorem determine_product_size_range_bands (product_size : Z) :
  (product_size < 150 /\
   Submitter._determine_product_size_range product_size = (100, 200) /\
   Submitter.band_width product_size = 100) \/
  (150 <= product_size <= 200 /\
   Submitter._determine_product_size_range product_size = (150, 200) /\
   Submitter.band_width product_size = 50) \/
  (200 < product_size /\
   Submitter._determine_product_size_range product_size = (300, 500) /\
   Submitter.band_width product_size = 200).
Proof.
  unfold Submitter.band_width, Submitter._determine_product_size_range.
  destruct (Z.ltb_spec product_size 150) as [Hlt | Hge].
  - left. repeat split; first [lia | reflexivity].
  - destruct (Z.leb_spec product_size 200) as [Hle | Hgt].
    + right; left. repeat split; first [lia | reflexivity].
    + right; right. repeat split; first [lia | reflexivity].
Qed.

(** ** The pair matcher *)








(** The scenario of the specification: of two sections, the second one
    satisfies the three conditions and the first does not. *)
Example find_matching_pair_second_of_two :
  exists p1 p2,
    extract_all_primer_pairs Samples.two_pair_page = [p1; p2] /\
    find_matching_pair [p1; p2] Jobs.job_78 = Ret (Some p2, true) /\
    pair_index p2 = Some 2.
Proof. do 2 eexists. repeat split; vm_compute; reflexivity. Qed.

Lemma job_78_numeric : expectations_numeric Jobs.job_78.
Proof.
  repeat split; right; eexists; vm_compute; reflexivity.
Qed.



Lemma find_matching_pair_nil (job : dict) :
  find_matching_pair [] job = Ret (None, false).
Proof. reflexivity. Qed.

Lemma find_matching_pair_nonempty (all_pairs : list pair) (job : dict)
    (found : option pair) (tag : bool) :
  all_pairs <> [] ->
  find_matching_pair all_pairs job = Ret (found, tag) ->
  exists p, found = Some p.
Proof.
  intros Hne. unfold find_matching_pair.
  destruct (first_match _ _ _ all_pairs) as [[p |] | e]; cbn [obind]; intros H.
  - exists p. congruence.
  - destruct all_pairs as [| p rest]; [contradiction |].
    exists p. simpl in H. congruence.
  - discriminate.
Qed.

Lemma first_match_tested (job : dict) (pairs : list pair) (found : option pair) :
  first_match (get "left_primer_start" job) (get "right_primer_start" job)
    (get "product_size" job) pairs = Ret found ->
  match found with
  | Some p => tested job p
  | None => Forall (tested job) pairs
  end.
Proof.
  induction pairs as [| q rest IH]; cbn [first_match].
  - intros [= <-]. apply Forall_nil_2.
  - destruct (null_or_equal _ (forward_start q)) as [bf | e] eqn:Ef; [| discriminate].
    destruct (null_or_equal _ (reverse_start q)) as [br | e] eqn:Er; [| discriminate].
    destruct (null_or_equal _ (product_length q)) as [bs | e] eqn:Es; [| discriminate].
    cbn [obind].
    assert (tested job q) as Hq by (unfold tested; rewrite Ef, Er, Es; repeat split; eauto).
    destruct (bf && br && bs).
    + intros [= <-]. exact Hq.
    + intros H. specialize (IH H). destruct found; [exact IH |].
      apply Forall_cons_2; assumption.
Qed.

Lemma find_matching_pair_tested (all_pairs : list pair) (job : dict) (p : pair)
    (tag : bool) :
  find_matching_pair all_pairs job = Ret (Some p, tag) -> tested job p.
Proof.
  unfold find_matching_pair.
  destruct (first_match _ _ _ all_pairs) as [[q |] | e] eqn:Hrun; cbn [obind];
    intros H; [| | discriminate].
  - assert (q = p) as -> by congruence.
    exact (first_match_tested job all_pairs (Some p) Hrun).
  - pose proof (first_match_tested job all_pairs None Hrun) as Hall.
    destruct all_pairs as [| q rest]; [discriminate |].
    simpl in H. assert (q = p) as -> by congruence.
    apply Forall_cons in Hall. tauto.
Qed.

(** A test of the matcher that raised nothing leaves the check of the
    verdict raising nothing either. *)
Lemma present_and_equal_returns (expected : value) (extracted : option Z) (b : bool) :
  null_or_equal expected extracted = Ret b ->
  exists b', present_and_equal expected extracted = Ret b'.
Proof.
  unfold null_or_equal, present_and_equal.
  destruct (is_none expected); [eauto |].
  destruct extracted as [x |]; [| eauto].
  destruct (py_int expected); cbn [obind]; [eauto | discriminate].
Qed.

(** ** Runs of [validate_job] *)

Lemma get_insert_ne (key key' : string) (v : value) (d : dict) :
  key' <> key -> get key (<[key' := v]> d) = get key d.
Proof. intros Hne. unfold get. now rewrite lookup_insert_ne. Qed.

Lemma can_report_insert (job_index : option Z) (key : string) (v : value) (d : dict) :
  key <> "primer_id" -> can_report job_index d -> can_report job_index (<[key := v]> d).
Proof.
  intros Hne [Hi | Hp]; [now left | right].
  now rewrite lookup_insert_ne.
Qed.

Lemma progress_run (job_index : option Z) (st : state) :
  can_report job_index (job_info st) -> progress job_index st = (Ret tt, st).
Proof.
  intros Hrep. unfold progress. destruct job_index as [i |]; [| reflexivity].
  destruct Hrep as [Hi | [v Hv]]; [discriminate |].
  unfold bind, subscript. now rewrite Hv.
Qed.

#[local] Ltac run_stores :=
  unfold bind, store, read, lift; cbv beta iota; cbn [job_info requests].

Lemma validate_coordinates_run (job_index : option Z) (p : pair) (seqs : bool)
    (job : dict) (sent : list value) (fwd rev size : bool) :
  can_report job_index job ->
  present_and_equal (get "left_primer_start" job) (forward_start p) = Ret fwd ->
  present_and_equal (get "right_primer_start" job) (reverse_start p) = Ret rev ->
  present_and_equal (get "product_size" job) (product_length p) = Ret size ->
  validate_coordinates job_index p seqs (mk_state job sent)
  = (Ret tt,
     mk_state
       (<["validation_status" := VStr (if fwd && rev && size && seqs then "pass" else "fail")]>
        (<["validation_passed" := VBool (fwd && rev && size && seqs)]>
         (<["validation" := checks fwd rev size seqs]> job))) sent).
Proof.
  intros Hrep Hf Hr Hs. unfold validate_coordinates. run_stores.
  rewrite Hf, Hr, Hs. cbv beta iota.
  assert (can_report job_index
            (<["validation_passed" := VBool (fwd && rev && size && seqs)]>
               (<["validation" := checks fwd rev size seqs]> job))) as Hrep'
    by (do 2 (apply can_report_insert; [discriminate |]); exact Hrep).
  destruct (fwd && rev && size && seqs); run_stores;
    rewrite progress_run by exact Hrep'; reflexivity.
Qed.

(** The fields written for the matched pair are none of the fields the
    checks read. *)
Lemma get_with_fields (key : string) (p : pair) (found : bool) (job : dict) :
  In key ["forward_primer"; "reverse_primer"; "left_primer_start";
          "right_primer_start"; "product_size"; "results_url"] ->
  get key (with_fields p found job) = get key job.
Proof.
  intros Hkey. unfold with_fields.
  repeat (destruct Hkey as [<- | Hkey];
          [now rewrite !get_insert_ne by discriminate |]).
  destruct Hkey.
Qed.

Lemma can_report_with_fields (job_index : option Z) (p : pair) (found : bool) (job : dict) :
  can_report job_index job -> can_report job_index (with_fields p found job).
Proof.
  intros Hrep. unfold with_fields.
  repeat (apply can_report_insert; [discriminate |]). exact Hrep.
Qed.

Lemma sequence_check_with_fields (p q : pair) (found : bool) (job : dict) :
  sequence_check p (with_fields q found job) = sequence_check p job.
Proof.
  unfold sequence_check.
  rewrite !get_with_fields by (simpl; tauto). reflexivity.
Qed.

Lemma record_matched_pair_run (job_index : option Z) (p : pair) (found : bool)
    (job : dict) (sent : list value) (fwd rev size seqs : bool) :
  can_report job_index job ->
  sequence_check p job = Ret seqs ->
  present_and_equal (get "left_primer_start" job) (forward_start p) = Ret fwd ->
  present_and_equal (get "right_primer_start" job) (reverse_start p) = Ret rev ->
  present_and_equal (get "product_size" job) (product_length p) = Ret size ->
  record_matched_pair job_index p found (mk_state job sent)
  = (Ret tt, mk_state (judged fwd rev size seqs (with_fields p found job)) sent).
Proof.
  intros Hrep Hq Hf Hr Hs. unfold record_matched_pair. run_stores.
  fold (with_fields p found job).
  rewrite sequence_check_with_fields, Hq. cbv beta iota.
  rewrite (validate_coordinates_run job_index p seqs _ sent fwd rev size).
  - reflexivity.
  - apply can_report_insert; [discriminate |].
    now apply can_report_with_fields.
  - rewrite get_insert_ne by discriminate.
    rewrite get_with_fields by (simpl; tauto). exact Hf.
  - rewrite get_insert_ne by discriminate.
    rewrite get_with_fields by (simpl; tauto). exact Hr.
  - rewrite get_insert_ne by discriminate.
    rewrite get_with_fields by (simpl; tauto). exact Hs.
Qed.

Lemma find_matching_pair_insert (all_pairs : list pair) (key : string) (v : value)
    (job : dict) :
  ~ In key ["left_primer_start"; "right_primer_start"; "product_size"] ->
  find_matching_pair all_pairs (<[key := v]> job) = find_matching_pair all_pairs job.
Proof.
  intros Hkey. unfold find_matching_pair.
  rewrite !get_insert_ne; [reflexivity | | |]; intros ->; apply Hkey; simpl; tauto.
Qed.

Lemma validate_page_run (job_index : option Z) (html : string) (job : dict)
    (sent : list value) (p : pair) (found seqs : bool) :
  can_report job_index job ->
  find_matching_pair (extract_all_primer_pairs html) job = Ret (Some p, found) ->
  sequence_check p job = Ret seqs ->
  exists fwd rev size,
    present_and_equal (get "left_primer_start" job) (forward_start p) = Ret fwd /\
    present_and_equal (get "right_primer_start" job) (reverse_start p) = Ret rev /\
    present_and_equal (get "product_size" job) (product_length p) = Ret size /\
    validate_page job_index html (mk_state job sent)
    = (Ret tt,
       mk_state (judged fwd rev size seqs
                   (recorded (length (extract_all_primer_pairs html)) p found job))
         sent).
Proof.
  intros Hrep Hfind Hq.
  destruct (find_matching_pair_tested _ _ _ _ Hfind) as ([bf Hbf] & [br Hbr] & [bs Hbs]).
  destruct (present_and_equal_returns _ _ _ Hbf) as [fwd Hf].
  destruct (present_and_equal_returns _ _ _ Hbr) as [rev Hr].
  destruct (present_and_equal_returns _ _ _ Hbs) as [size Hs].
  exists fwd, rev, size. repeat (split; [assumption |]).
  unfold validate_page.
  destruct (extract_all_primer_pairs html) as [| p0 rest] eqn:Hpairs;
    [rewrite find_matching_pair_nil in Hfind; discriminate |].
  run_stores.
  rewrite find_matching_pair_insert by (simpl; intuition discriminate).
  rewrite Hfind. cbv beta iota.
  unfold recorded.
  apply record_matched_pair_run.
  - apply can_report_insert; [discriminate | exact Hrep].
  - unfold sequence_check. rewrite !get_insert_ne by discriminate. exact Hq.
  - rewrite get_insert_ne by discriminate. exact Hf.
  - rewrite get_insert_ne by discriminate. exact Hr.
  - rewrite get_insert_ne by discriminate. exact Hs.
Qed.

Lemma truthy_get_lookup (key : string) (job : dict) :
  truthy (get key job) = true -> job !! key = Some (get key job).
Proof.
  unfold get. destruct (job !! key) as [v |]; [reflexivity | discriminate].
Qed.

(** A run that reaches the extraction: one request is sent, and the page is
    handed to the extraction. *)
Lemma validate_job_reaches (served : value -> option string) (job_index : option Z)
    (job : dict) (sent : list value) (html : string) :
  reaches_extraction served job html ->
  can_report job_index job ->
  validate_job served job_index (mk_state job sent)
  = validate_page job_index html (mk_state job (sent ++ [get "results_url" job])).
Proof.
  intros (Hurl & Hserved & Hne & Hproc & Hqueued & Hnone) Hrep.
  unfold validate_job. unfold bind at 1. unfold read. cbn [job_info].
  rewrite Hurl. cbn [negb].
  unfold bind at 1. rewrite progress_run by exact Hrep.
  unfold bind at 1. unfold subscript. cbn [job_info].
  rewrite (truthy_get_lookup _ _ Hurl).
  unfold bind at 1. unfold fetch_results. cbn [job_info requests].
  rewrite Hserved.
  destruct html as [| c html']; [contradiction |].
  rewrite Hproc, Hqueued, Hnone. reflexivity.
Qed.

(** ** The verdict *)

Lemma status_judged (fwd rev size seqs : bool) (job : dict) :
  status (judged fwd rev size seqs job)
  = Some (VStr (if fwd && rev && size && seqs then "pass" else "fail")).
Proof. unfold status, judged. apply lookup_insert_eq. Qed.

Lemma validation_judged (fwd rev size seqs : bool) (job : dict) :
  judged fwd rev size seqs job !! "validation" = Some (checks fwd rev size seqs).
Proof.
  unfold judged. rewrite !lookup_insert_ne by discriminate. apply lookup_insert_eq.
Qed.

Lemma passed_judged (fwd rev size seqs : bool) (job : dict) :
  judged fwd rev size seqs job !! "validation_passed"
  = Some (VBool (fwd && rev && size && seqs)).
Proof.
  unfold judged. rewrite lookup_insert_ne by discriminate. apply lookup_insert_eq.
Qed.

Lemma sequences_judged (fwd rev size seqs : bool) (job : dict) :
  judged fwd rev size seqs job !! "sequences_match" = Some (VBool seqs).
Proof.
  unfold judged. rewrite !lookup_insert_ne by discriminate. apply lookup_insert_eq.
Qed.

(** A run of [validate_job] that reaches the checks of the verdict. *)
Lemma validate_job_verdict (served : value -> option string) (job_index : option Z)
    (job : dict) (sent : list value) (html : string) (p : pair) (found seqs : bool) :
  reaches_extraction served job html ->
  can_report job_index job ->
  find_matching_pair (extract_all_primer_pairs html) job = Ret (Some p, found) ->
  sequence_check p job = Ret seqs ->
  exists fwd rev size,
    present_and_equal (get "left_primer_start" job) (forward_start p) = Ret fwd /\
    present_and_equal (get "right_primer_start" job) (reverse_start p) = Ret rev /\
    present_and_equal (get "product_size" job) (product_length p) = Ret size /\
    validate_job served job_index (mk_state job sent)
    = (Ret tt,
       mk_state (judged fwd rev size seqs
                   (recorded (length (extract_all_primer_pairs html)) p found job))
         (sent ++ [get "results_url" job])).
Proof.
  intros Hreach Hrep Hfind Hq.
  rewrite (validate_job_reaches served job_index job sent html Hreach Hrep).
  now apply validate_page_run.
Qed.

(** C2: in a run of [validate_job] that reaches the coordinate checks, the
    status is 'pass' exactly when the four booleans of [validation] are
    true, and 'fail' exactly when one of them is false. *)
Theorem validate_job_pass_iff_all_checks (served : value -> option string)
    (job_index : option Z) (job : dict) (sent : list value) (html : string)
    (p : pair) (found seqs : bool) :
  reaches_extraction served job html ->
  can_report job_index job ->
  find_matching_pair (extract_all_primer_pairs html) job = Ret (Some p, found) ->
  sequence_check p job = Ret seqs ->
  exists fwd rev size final,
    validate_job served job_index (mk_state job sent) = (Ret tt, final) /\
    job_info final !! "validation" = Some (checks fwd rev size seqs) /\
    job_info final !! "validation_passed" = Some (VBool (fwd && rev && size && seqs)) /\
    (status (job_info final) = Some (VStr "pass")
     <-> fwd = true /\ rev = true /\ size = true /\ seqs = true) /\
    (status (job_info final) = Some (VStr "fail")
     <-> fwd = false \/ rev = false \/ size = false \/ seqs = false).
Proof.
  intros Hreach Hrep Hfind Hq.
  destruct (validate_job_verdict served job_index job sent html p found seqs
              Hreach Hrep Hfind Hq) as (fwd & rev & size & _ & _ & _ & Hrun).
  exists fwd, rev, size. eexists. split; [exact Hrun |].
  cbn [job_info]. rewrite validation_judged, passed_judged, status_judged.
  split; [reflexivity |]. split; [reflexivity |].
  destruct fwd, rev, size, seqs; cbn [andb]; split; split;
    solve [ reflexivity | discriminate | intuition discriminate ].
Qed.

#[local] Ltac by_evaluation :=
  repeat split;
  first [ discriminate
        | vm_compute; reflexivity
        | right; eexists; vm_compute; reflexivity ].

Lemma validate_job_pass_iff_all_checks_witness :
  exists fwd rev size final,
    validate_job (Jobs.always Samples.two_pair_page) (Some 1) (mk_state Jobs.job_78 [])
    = (Ret tt, final) /\
    job_info final !! "validation" = Some (checks fwd rev size true) /\
    job_info final !! "validation_passed" = Some (VBool (fwd && rev && size && true)) /\
    (status (job_info final) = Some (VStr "pass")
     <-> fwd = true /\ rev = true /\ size = true /\ true = true) /\
    (status (job_info final) = Some (VStr "fail")
     <-> fwd = false \/ rev = false \/ size = false \/ true = false).
Proof.
  refine (validate_job_pass_iff_all_checks (Jobs.always Samples.two_pair_page) (Some 1)
            Jobs.job_78 [] Samples.two_pair_page Jobs.pair_2 true true _ _ _ _);
    by_evaluation.
Defined.

(** ** Null coordinates *)

Lemma present_and_equal_null (expected : value) (extracted : option Z) (b : bool) :
  expected = VNone \/ extracted = None ->
  present_and_equal expected extracted = Ret b -> b = false.
Proof.
  unfold present_and_equal. intros [-> | ->]; cbn [is_none].
  - congruence.
  - destruct (is_none expected); congruence.
Qed.

Lemma null_or_equal_null (expected : value) (extracted : option Z) :
  expected = VNone \/ extracted = None ->
  null_or_equal expected extracted = Ret true.
Proof.
  unfold null_or_equal. intros [-> | ->]; [reflexivity |].
  now destruct (is_none expected).
Qed.

(** C3: in a run that reaches the coordinate checks, a check whose expected
    value is absent or null, or whose extracted field is null, stays
    [False] although the matcher counted the same comparison as passed;
    with one such check the job does not pass and its status is 'fail'. *)
Theorem validate_job_null_coordinate_fails (served : value -> option string)
    (job_index : option Z) (job : dict) (sent : list value) (html : string)
    (p : pair) (found seqs : bool) :
  reaches_extraction served job html ->
  can_report job_index job ->
  find_matching_pair (extract_all_primer_pairs html) job = Ret (Some p, found) ->
  sequence_check p job = Ret seqs ->
  (get "left_primer_start" job = VNone \/ forward_start p = None) \/
  (get "right_primer_start" job = VNone \/ reverse_start p = None) \/
  (get "product_size" job = VNone \/ product_length p = None) ->
  exists fwd rev size final,
    validate_job served job_index (mk_state job sent) = (Ret tt, final) /\
    job_info final !! "validation" = Some (checks fwd rev size seqs) /\
    (get "left_primer_start" job = VNone \/ forward_start p = None ->
     fwd = false /\
     null_or_equal (get "left_primer_start" job) (forward_start p) = Ret true) /\
    (get "right_primer_start" job = VNone \/ reverse_start p = None ->
     rev = false /\
     null_or_equal (get "right_primer_start" job) (reverse_start p) = Ret true) /\
    (get "product_size" job = VNone \/ product_length p = None ->
     size = false /\
     null_or_equal (get "product_size" job) (product_length p) = Ret true) /\
    job_info final !! "validation_passed" = Some (VBool false) /\
    status (job_info final) = Some (VStr "fail").
Proof.
  intros Hreach Hrep Hfind Hq Hnull.
  destruct (validate_job_verdict served job_index job sent html p found seqs
              Hreach Hrep Hfind Hq) as (fwd & rev & size & Hf & Hr & Hs & Hrun).
  exists fwd, rev, size. eexists. split; [exact Hrun |].
  cbn [job_info]. rewrite validation_judged, passed_judged, status_judged.
  split; [reflexivity |].
  assert (fwd && rev && size && seqs = false) as Hall.
  { destruct Hnull as [H | [H | H]].
    - now rewrite (present_and_equal_null _ _ _ H Hf).
    - rewrite (present_and_equal_null _ _ _ H Hr). now destruct fwd.
    - rewrite (present_and_equal_null _ _ _ H Hs). now destruct fwd, rev. }
  rewrite Hall.
  repeat split; try reflexivity;
    eauto using present_and_equal_null, null_or_equal_null.
Qed.

Lemma validate_job_null_coordinate_fails_witness :
  exists fwd rev size final,
    validate_job (Jobs.always Samples.two_pair_page) (Some 1)
      (mk_state Jobs.job_without_size []) = (Ret tt, final) /\
    job_info final !! "validation" = Some (checks fwd rev size true) /\
    (get "left_primer_start" Jobs.job_without_size = VNone
     \/ forward_start Jobs.pair_2 = None ->
     fwd = false /\
     null_or_equal (get "left_primer_start" Jobs.job_without_size)
       (forward_start Jobs.pair_2) = Ret true) /\
    (get "right_primer_start" Jobs.job_without_size = VNone
     \/ reverse_start Jobs.pair_2 = None ->
     rev = false /\
     null_or_equal (get "right_primer_start" Jobs.job_without_size)
       (reverse_start Jobs.pair_2) = Ret true) /\
    (get "product_size" Jobs.job_without_size = VNone
     \/ product_length Jobs.pair_2 = None ->
     size = false /\
     null_or_equal (get "product_size" Jobs.job_without_size)
       (product_length Jobs.pair_2) = Ret true) /\
    job_info final !! "validation_passed" = Some (VBool false) /\
    status (job_info final) = Some (VStr "fail").
Proof.
  refine (validate_job_null_coordinate_fails (Jobs.always Samples.two_pair_page) (Some 1)
            Jobs.job_without_size [] Samples.two_pair_page Jobs.pair_2 true true
            _ _ _ _ _).
  - by_evaluation.
  - by_evaluation.
  - by_evaluation.
  - by_evaluation.
  - right; right; left. vm_compute; reflexivity.
Defined.

(** ** Sequences *)

Lemma sequence_differs_present (s e : string) :
  s <> EmptyString -> e <> EmptyString ->
  sequence_differs (Some s) (VStr e) = Ret (negb (String.eqb (upper s) (upper e))).
Proof.
  intros Hs He. unfold sequence_differs. cbn [truthy].
  apply String.eqb_neq in Hs, He. now rewrite Hs, He.
Qed.

(** ** Jobs without a results URL *)

(** A progress line changes nothing. *)
Lemma progress_keeps (job_index : option Z) (st : state) :
  exists o, progress job_index st = (o, st) /\
            (can_report job_index (job_info st) -> o = Ret tt).
Proof.
  destruct job_index as [i |]; cbn [progress].
  - unfold bind, subscript.
    destruct (job_info st !! "primer_id") as [v |] eqn:Hid.
    + exists (Ret tt). split; [reflexivity | auto].
    + exists (Raise KeyError). split; [reflexivity |].
      intros [H | [v Hv]]; [discriminate | congruence].
  - exists (Ret tt). split; [reflexivity | auto].
Qed.

Lemma validate_job_no_url_run (served : value -> option string) (job_index : option Z)
    (job : dict) (sent : list value) :
  job !! "results_url" = None \/ job !! "results_url" = Some VNone ->
  exists o,
    validate_job served job_index (mk_state job sent)
    = (o, mk_state (<["validation_status" := VStr "no_url"]> job) sent) /\
    (can_report job_index job -> o = Ret tt).
Proof.
  intros Hurl.
  assert (truthy (get "results_url" job) = false) as Hfalsy
    by (unfold get; destruct Hurl as [-> | ->]; reflexivity).
  unfold validate_job. unfold bind at 1. unfold read. cbn [job_info].
  rewrite Hfalsy. cbn [negb]. run_stores.
  destruct (progress_keeps job_index
              (mk_state (<["validation_status" := VStr "no_url"]> job) sent))
    as (o & -> & Hret).
  exists o. split; [now destruct o as [[] |] |].
  intros Hrep. apply Hret. cbn [job_info].
  apply can_report_insert; [discriminate | exact Hrep].
Qed.

(** C8: when [results_url] is absent or null, [validate_job] records the
    status 'no_url' and nothing else, and sends no request; it returns
    whenever its progress line can be printed. *)
Theorem validate_job_no_url (served : value -> option string) (job_index : option Z)
    (job : dict) (sent : list value) :
  job !! "results_url" = None \/ job !! "results_url" = Some VNone ->
  job_info (snd (validate_job served job_index (mk_state job sent)))
  = <["validation_status" := VStr "no_url"]> job /\
  requests (snd (validate_job served job_index (mk_state job sent))) = sent /\
  (can_report job_index job ->
   fst (validate_job served job_index (mk_state job sent)) = Ret tt).
Proof.
  intros Hurl.
  destruct (validate_job_no_url_run served job_index job sent Hurl)
    as (o & Hrun & Hret).
  rewrite Hrun. cbn [fst snd job_info requests]. auto.
Qed.

Lemma validate_job_no_url_witness :
  job_info (snd (validate_job (Jobs.always Samples.plain_page) (Some 1)
                   (mk_state Jobs.job_without_url [])))
  = <["validation_status" := VStr "no_url"]> Jobs.job_without_url /\
  requests (snd (validate_job (Jobs.always Samples.plain_page) (Some 1)
                   (mk_state Jobs.job_without_url []))) = [] /\
  (can_report (Some 1) Jobs.job_without_url ->
   fst (validate_job (Jobs.always Samples.plain_page) (Some 1)
          (mk_state Jobs.job_without_url [])) = Ret tt).
Proof.
  refine (validate_job_no_url (Jobs.always Samples.plain_page) (Some 1)
            Jobs.job_without_url [] _).
  right. vm_compute. reflexivity.
Defined.

(** ** Pages without pairs, and the status 'no_primer_data' *)

(** C5: on the empty list the matcher returns no pair, tagged [False]; and
    a run of [validate_job] whose page yields no pair records the status
    'extraction_failed' and nothing else. *)
Theorem no_pairs_extraction_failed :
  (forall job : dict, find_matching_pair [] job = Ret (None, false)) /\
  (forall (served : value -> option string) (job_index : option Z) (job : dict)
          (sent : list value) (html : string),
      reaches_extraction served job html ->
      can_report job_index job ->
      extract_all_primer_pairs html = [] ->
      validate_job served job_index (mk_state job sent)
      = (Ret tt,
         mk_state (<["validation_status" := VStr "extraction_failed"]> job)
           (sent ++ [get "results_url" job]))).
Proof.
  split; [exact find_matching_pair_nil |].
  intros served job_index job sent html Hreach Hrep Hnone.
  rewrite (validate_job_reaches served job_index job sent html Hreach Hrep).
  unfold validate_page. rewrite Hnone.
  unfold bind. rewrite progress_run by exact Hrep. reflexivity.
Qed.

Lemma no_pairs_extraction_failed_witness :
  find_matching_pair [] Jobs.job_78 = Ret (None, false) /\
  validate_job (Jobs.always Jobs.blank_page) (Some 1) (mk_state Jobs.job_78 [])
  = (Ret tt,
     mk_state (<["validation_status" := VStr "extraction_failed"]> Jobs.job_78)
       ([] ++ [get "results_url" Jobs.job_78])).
Proof.
  split.
  - exact (proj1 no_pairs_extraction_failed Jobs.job_78).
  - refine (proj2 no_pairs_extraction_failed (Jobs.always Jobs.blank_page) (Some 1)
              Jobs.job_78 [] Jobs.blank_page _ _ _); by_evaluation.
Defined.

Lemma finish_status (job_index : option Z) (s : string) (st final : state) :
  bind (progress job_index) (fun _ => store "validation_status" (VStr s)) st
  = (Ret tt, final) ->
  status (job_info final) = Some (VStr s).
Proof.
  unfold bind. destruct (progress_keeps job_index st) as (o & -> & _).
  destruct o as [[] | e]; [| discriminate].
  unfold store. intros [= <-]. apply lookup_insert_eq.
Qed.

Lemma validate_coordinates_status (job_index : option Z) (p : pair) (seqs : bool)
    (st final : state) :
  validate_coordinates job_index p seqs st = (Ret tt, final) ->
  status (job_info final) = Some (VStr "pass") \/
  status (job_info final) = Some (VStr "fail").
Proof.
  unfold validate_coordinates. unfold bind at 1. unfold read.
  unfold bind at 1. unfold lift at 1.
  destruct (present_and_equal _ (forward_start p)) as [fwd | e]; [| discriminate].
  unfold bind at 1. unfold lift at 1.
  destruct (present_and_equal _ (reverse_start p)) as [rev | e]; [| discriminate].
  unfold bind at 1. unfold lift at 1.
  destruct (present_and_equal _ (product_length p)) as [size | e]; [| discriminate].
  unfold bind at 1. unfold store at 1.
  unfold bind at 1. unfold store at 1.
  destruct (fwd && rev && size && seqs); intros H; apply finish_status in H; auto.
Qed.

Lemma record_matched_pair_status (job_index : option Z) (p : pair) (found : bool)
    (st final : state) :
  record_matched_pair job_index p found st = (Ret tt, final) ->
  status (job_info final) = Some (VStr "pass") \/
  status (job_info final) = Some (VStr "fail").
Proof.
  unfold record_matched_pair.
  do 9 (unfold bind at 1; unfold store at 1).
  unfold bind at 1. unfold read. unfold bind at 1. unfold lift at 1.
  destruct (sequence_check p _) as [seqs | e]; [| discriminate].
  unfold bind at 1. unfold store at 1.
  apply validate_coordinates_status.
Qed.

Lemma validate_page_status (job_index : option Z) (html : string) (st final : state) :
  validate_page job_index html st = (Ret tt, final) ->
  status (job_info final) = Some (VStr "extraction_failed") \/
  status (job_info final) = Some (VStr "pass") \/
  status (job_info final) = Some (VStr "fail").
Proof.
  unfold validate_page.
  destruct (extract_all_primer_pairs html) as [| p0 rest] eqn:Hpairs.
  - intros H. apply finish_status in H. auto.
  - unfold bind at 1. unfold store at 1.
    unfold bind at 1. unfold read. unfold bind at 1. unfold lift at 1.
    destruct (find_matching_pair (p0 :: rest) _) as [[found tag] | e] eqn:Hfind;
      [| discriminate].
    assert (p0 :: rest <> []) as Hne by discriminate.
    destruct (find_matching_pair_nonempty _ _ _ _ Hne Hfind) as [p ->].
    intros H. apply record_matched_pair_status in H. tauto.
Qed.

(** Every run of [validate_job] that returns has recorded one of seven
    statuses. *)
Lemma validate_job_status (served : value -> option string) (job_index : option Z)
    (st final : state) :
  validate_job served job_index st = (Ret tt, final) ->
  exists s, In s assigned_statuses /\ status (job_info final) = Some (VStr s).
Proof.
  unfold validate_job. unfold bind at 1. unfold read.
  destruct (negb (truthy (get "results_url" (job_info st)))).
  - unfold bind at 1. unfold store at 1.
    destruct (progress_keeps job_index
                (mk_state (<["validation_status" := VStr "no_url"]> (job_info st))
                   (requests st))) as (o & -> & _).
    intros [= -> <-]. exists "no_url". split; [simpl; tauto |].
    apply lookup_insert_eq.
  - unfold bind at 1. destruct (progress_keeps job_index st) as (o & -> & _).
    destruct o as [[] | e]; [| discriminate].
    unfold bind at 1. unfold subscript.
    destruct (job_info st !! "results_url") as [url |]; [| discriminate].
    unfold bind at 1. unfold fetch_results.
    destruct (served url) as [[| c html] |].
    + intros H. apply finish_status in H. exists "fetch_failed". simpl; tauto.
    + destruct (contains "processing" _ || contains "queued" _).
      * intros H. apply finish_status in H. exists "processing". simpl; tauto.
      * destruct (contains "No primer pairs found" _).
        -- intros H. apply finish_status in H. exists "no_primers". simpl; tauto.
        -- intros H. apply validate_page_status in H.
           destruct H as [H | [H | H]];
             [exists "extraction_failed" | exists "pass" | exists "fail"];
             simpl; tauto.
    + intros H. apply finish_status in H. exists "fetch_failed". simpl; tauto.
Qed.

(** C6: on a list that is not empty the matcher returns a pair whenever it
    returns; and no run of [validate_job] that returns has recorded the
    status 'no_primer_data'. *)
Theorem no_primer_data_never_assigned :
  (forall (all_pairs : list pair) (job : dict) (found : option pair) (tag : bool),
      all_pairs <> [] ->
      find_matching_pair all_pairs job = Ret (found, tag) ->
      found <> None) /\
  (forall (served : value -> option string) (job_index : option Z) (st final : state),
      validate_job served job_index st = (Ret tt, final) ->
      status (job_info final) <> Some (VStr "no_primer_data")).
Proof.
  split.
  - intros all_pairs job found tag Hne Hfind.
    destruct (find_matching_pair_nonempty _ _ _ _ Hne Hfind) as [p ->]. discriminate.
  - intros served job_index st final Hrun.
    destruct (validate_job_status served job_index st final Hrun) as (s & Hs & ->).
    simpl in Hs. intuition (subst; discriminate).
Qed.

Lemma no_primer_data_never_assigned_witness :
  Some Jobs.pair_2 <> None /\
  status (job_info (snd (validate_job (Jobs.always Samples.two_pair_page) (Some 1)
                           (mk_state Jobs.job_78 []))))
  <> Some (VStr "no_primer_data").
Proof.
  split.
  - refine (proj1 no_primer_data_never_assigned
              (extract_all_primer_pairs Samples.two_pair_page) Jobs.job_78
              (Some Jobs.pair_2) true _ _).
    + vm_compute. discriminate.
    + vm_compute. reflexivity.
  - refine (proj2 no_primer_data_never_assigned
              (Jobs.always Samples.two_pair_page) (Some 1) (mk_state Jobs.job_78 []) _ _).
    vm_compute. reflexivity.
Defined.

(** ** Pages without section markers *)

Lemma append_empty_r (s : string) : (s ++ EmptyString)%string = s.
Proof.
  induction s as [| c s IH]; [reflexivity |].
  change (String c (s ++ EmptyString)%string = String c s). now rewrite IH.
Qed.

Lemma append_snoc (s t : string) (c : ascii) :
  ((s ++ String c EmptyString) ++ t)%string = (s ++ String c t)%string.
Proof.
  induction s as [| d s IH]; [reflexivity |].
  change (String d ((s ++ String c EmptyString) ++ t)%string
          = String d (s ++ String c t)%string).
  now rewrite IH.
Qed.

Lemma search_none_inv (r : regex) (s : string) :
  search r s = None ->
  match_here r s [] = None /\
  match s with
  | String _ s' => search r s' = None
  | EmptyString => True
  end.
Proof.
  destruct s as [| c s']; cbn [search];
    destruct (match_here r _ []) as [[caps rest] |]; intros H;
    try discriminate; auto.
Qed.

(** Without a match the split returns its input in one piece. *)
Lemma split_from_no_match (r : regex) (s : string) :
  forall (fuel : nat) (cur : string),
    search r s = None ->
    (String.length s < fuel)%nat ->
    split_from fuel r cur s = [(cur ++ s)%string].
Proof.
  induction s as [| c s' IH]; intros fuel cur Hnone Hfuel;
    destruct fuel as [| fuel']; try (simpl in Hfuel; lia);
    destruct (search_none_inv r _ Hnone) as [Hhere Htail];
    cbn [split_from]; rewrite Hhere.
  - now rewrite append_empty_r.
  - rewrite IH; [| exact Htail | simpl in Hfuel; lia].
    now rewrite append_snoc.
Qed.

Lemma split_no_match (r : regex) (s : string) :
  search r s = None -> split r s = [s].
Proof.
  intros Hnone. unfold split.
  rewrite split_from_no_match; [reflexivity | exact Hnone | lia].
Qed.

(** C4: a page in which the section marker matches nowhere is handled as
    one section, numbered 1; the extraction returns the pair of that
    section when its forward start was found and nothing otherwise, hence
    at most one pair. *)
Theorem extract_all_primer_pairs_without_marker (html_content : string) :
  has_section_marker html_content = false ->
  sections_of html_content = [html_content] /\
  extract_all_primer_pairs html_content
  = match forward_start (_extract_single_pair html_content (Some 1)) with
    | Some _ => [_extract_single_pair html_content (Some 1)]
    | None => []
    end /\
  (length (extract_all_primer_pairs html_content) <= 1)%nat.
Proof.
  unfold has_section_marker. intros Hmarker.
  assert (search section_marker html_content = None) as Hnone
    by (destruct (search section_marker html_content); [discriminate | reflexivity]).
  assert (sections_of html_content = [html_content]) as Hsections
    by (unfold sections_of; now rewrite (split_no_match _ _ Hnone)).
  split; [exact Hsections |].
  unfold extract_all_primer_pairs. rewrite Hsections. cbn [collect_pairs].
  destruct (forward_start (_extract_single_pair html_content (Some 1)));
    split; simpl; auto.
Qed.

Lemma extract_all_primer_pairs_without_marker_witness :
  sections_of Samples.plain_page = [Samples.plain_page] /\
  extract_all_primer_pairs Samples.plain_page
  = match forward_start (_extract_single_pair Samples.plain_page (Some 1)) with
    | Some _ => [_extract_single_pair Samples.plain_page (Some 1)]
    | None => []
    end /\
  (length (extract_all_primer_pairs Samples.plain_page) <= 1)%nat.
Proof.
  refine (extract_all_primer_pairs_without_marker Samples.plain_page _).
  vm_compute. reflexivity.
Defined.

(** The page of the docstring of [_extract_single_pair] yields its pair. *)
Example extract_plain_page :
  extract_all_primer_pairs Samples.plain_page
  = [ {| forward_start := Some 78; forward_end := Some 97;
         forward_sequence := Some "TTTTTGCTATGGCCGGCATC";
         reverse_start := Some 498; reverse_end := Some 479;
         reverse_sequence := Some "TGATTGCCATGCAGACCCAT";
         product_length := Some 421; pair_index := Some 1 |} ].
Proof. vm_compute. reflexivity. Qed.

Example extract_blank_page : extract_all_primer_pairs Jobs.blank_page = [].
Proof. vm_compute. reflexivity. Qed.

(** ** Order of the results *)


Section Ordered_scatter.

Variable served : nat -> value -> option string.
Variable jobs_subset : list dict.
Variable checkpoint_interval : Z.

Hypothesis interval_nonzero : checkpoint_interval <> 0.

(** Every worker returns. *)
Hypothesis workers_return :
  forall (idx : nat) (job : dict),
    jobs_subset !! idx = Some job -> exists r, process_job served idx job = Ret r.






End Ordered_scatter.




(** * Further properties *)

(** ** How [validate_job] returns *)

Lemma page_cases (served : value -> option string) (job : dict) (html : string) :
  truthy (get "results_url" job) = true ->
  served (get "results_url" job) = Some html ->
  html <> EmptyString ->
  contains "processing" (lower html) || contains "queued" (lower html) = false ->
  contains "No primer pairs found" html = false ->
  reaches_extraction served job html.
Proof.
  intros Hurl Hserved Hne Hproc Hnone.
  apply orb_false_elim in Hproc as [Hp Hq].
  repeat split; assumption.
Qed.

Lemma record_matched_pair_inv (job_index : option Z) (p : pair) (found : bool)
    (job : dict) (sent : list value) (final : state) :
  record_matched_pair job_index p found (mk_state job sent) = (Ret tt, final) ->
  exists seqs, sequence_check p job = Ret seqs.
Proof.
  unfold record_matched_pair.
  do 9 (unfold bind at 1; unfold store at 1).
  unfold bind at 1. unfold read. unfold bind at 1. unfold lift at 1.
  cbn [job_info requests]. fold (with_fields p found job).
  rewrite sequence_check_with_fields.
  destruct (sequence_check p job) as [seqs | e]; [eauto | discriminate].
Qed.

Lemma progress_returns_inv (job_index : option Z) (st st' : state) :
  progress job_index st = (Ret tt, st') -> can_report job_index (job_info st).
Proof.
  destruct job_index as [i |]; [| now left].
  unfold progress, bind, subscript.
  destruct (job_info st !! "primer_id") as [v |] eqn:Hid; [| discriminate].
  intros _. right. eauto.
Qed.

Lemma finish_inv (job_index : option Z) (s : string) (job : dict) (sent : list value)
    (final : state) :
  bind (progress job_index) (fun _ => store "validation_status" (VStr s))
    (mk_state job sent) = (Ret tt, final) ->
  can_report job_index job /\ final = mk_state (marked s job) sent.
Proof.
  unfold bind, progress.
  destruct job_index as [i |].
  - unfold bind, subscript. cbn [job_info].
    destruct (job !! "primer_id") as [v |] eqn:Hid; [| discriminate].
    unfold ret, store. intros [= <-]. split; [right; eauto | reflexivity].
  - unfold ret, store. intros [= <-]. split; [now left | reflexivity].
Qed.

(** A run of [validate_job] that returns could print its progress lines
    and is one of the six runs of [returning_run]. *)
Lemma validate_job_returns_inv (served : value -> option string)
    (job_index : option Z) (job : dict) (sent : list value) (final : state) :
  validate_job served job_index (mk_state job sent) = (Ret tt, final) ->
  can_report job_index job /\ returning_run served job sent final.
Proof.
  unfold validate_job. unfold bind at 1. unfold read. cbn [job_info].
  destruct (truthy (get "results_url" job)) eqn:Hurl; cbn [negb].
  - unfold bind at 1.
    destruct (progress_keeps job_index (mk_state job sent)) as (o & Hprog & Hrep).
    rewrite Hprog. destruct o as [[] | e]; [| discriminate].
    assert (can_report job_index job) as Hcan
      by exact (progress_returns_inv _ _ _ Hprog).
    unfold bind at 1. unfold subscript. cbn [job_info].
    rewrite (truthy_get_lookup _ _ Hurl).
    unfold bind at 1. unfold fetch_results. cbn [job_info requests].
    destruct (served (get "results_url" job)) as [[| c html] |] eqn:Hserved.
    + intros H. apply finish_inv in H as [_ ->].
      split; [exact Hcan |]. apply run_fetch_failed; auto.
    + destruct (contains "processing" _ || contains "queued" _) eqn:Hproc.
      * intros H. apply finish_inv in H as [_ ->].
        split; [exact Hcan |]. now apply (run_processing _ _ _ (String c html)).
      * destruct (contains "No primer pairs found" _) eqn:Hnone.
        -- intros H. apply finish_inv in H as [_ ->].
           split; [exact Hcan |]. now apply (run_no_primers _ _ _ (String c html)).
        -- assert (reaches_extraction served job (String c html)) as Hreach
             by (apply page_cases; auto; discriminate).
           intros H. split; [exact Hcan |].
           unfold validate_page in H.
           destruct (extract_all_primer_pairs (String c html)) as [| p0 rest] eqn:Hpairs.
           ++ apply finish_inv in H as [_ ->].
              now apply (run_extraction_failed _ _ _ (String c html)).
           ++ revert H. unfold bind at 1. unfold store at 1.
              unfold bind at 1. unfold read. unfold bind at 1. unfold lift at 1.
              cbn [job_info requests].
              rewrite find_matching_pair_insert by (simpl; intuition discriminate).
              destruct (find_matching_pair (p0 :: rest) job) as [[found tag] | e] eqn:Hfind;
                [| discriminate].
              assert (p0 :: rest <> []) as Hne by discriminate.
              destruct (find_matching_pair_nonempty _ _ _ _ Hne Hfind) as [p ->].
              intros H.
              destruct (record_matched_pair_inv _ _ _ _ _ _ H) as [seqs Hseqs].
              assert (sequence_check p job = Ret seqs) as Hq
                by (revert Hseqs; unfold sequence_check;
                    now rewrite !get_insert_ne by discriminate).
              destruct (find_matching_pair_tested _ _ _ _ Hfind)
                as ([bf Hbf] & [br Hbr] & [bs Hbs]).
              destruct (present_and_equal_returns _ _ _ Hbf) as [fwd Hf].
              destruct (present_and_equal_returns _ _ _ Hbr) as [rev Hr].
              destruct (present_and_equal_returns _ _ _ Hbs) as [size Hs].
              rewrite (record_matched_pair_run job_index p tag _ _ fwd rev size seqs)
                in H.
              2: apply can_report_insert; [discriminate | exact Hcan].
              2: exact Hseqs.
              2-4: rewrite get_insert_ne by discriminate; assumption.
              injection H as <-.
              change (with_fields p tag _)
                with (recorded (length (p0 :: rest)) p tag job).
              rewrite <- Hpairs in *.
              now apply (run_verdict _ _ _ (String c html) p tag seqs fwd rev size).
    + intros H. apply finish_inv in H as [_ ->].
      split; [exact Hcan |]. apply run_fetch_failed; auto.
  - unfold bind at 1. unfold store at 1. cbn [job_info requests].
    destruct (progress_keeps job_index (mk_state (marked "no_url" job) sent))
      as (o & Hprog & Hrep).
    unfold marked in Hprog. rewrite Hprog. intros [= -> <-].
    split; [| now apply run_no_url].
    apply progress_returns_inv in Hprog. cbn [job_info] in Hprog.
    destruct Hprog as [Hi | Hid]; [now left | right].
    now rewrite lookup_insert_ne in Hid by discriminate.
Qed.

Lemma validate_job_fetches (served : value -> option string) (job_index : option Z)
    (job : dict) (sent : list value) :
  truthy (get "results_url" job) = true ->
  can_report job_index job ->
  validate_job served job_index (mk_state job sent)
  = match served (get "results_url" job) with
    | None | Some EmptyString =>
        (Ret tt, mk_state (marked "fetch_failed" job) (sent ++ [get "results_url" job]))
    | Some html =>
        if contains "processing" (lower html) || contains "queued" (lower html)
        then (Ret tt, mk_state (marked "processing" job) (sent ++ [get "results_url" job]))
        else if contains "No primer pairs found" html
        then (Ret tt, mk_state (marked "no_primers" job) (sent ++ [get "results_url" job]))
        else validate_page job_index html (mk_state job (sent ++ [get "results_url" job]))
    end.
Proof.
  intros Hurl Hrep.
  unfold validate_job. unfold bind at 1. unfold read. cbn [job_info].
  rewrite Hurl. cbn [negb].
  unfold bind at 1. rewrite progress_run by exact Hrep.
  unfold bind at 1. unfold subscript. cbn [job_info].
  rewrite (truthy_get_lookup _ _ Hurl).
  unfold bind at 1. unfold fetch_results. cbn [job_info requests].
  assert (forall s,
             bind (progress job_index) (fun _ => store "validation_status" (VStr s))
               (mk_state job (sent ++ [get "results_url" job]))
             = (Ret tt, mk_state (marked s job) (sent ++ [get "results_url" job])))
    as Hfinish
    by (intros s; unfold bind; rewrite progress_run by exact Hrep; reflexivity).
  destruct (served (get "results_url" job)) as [[| c html] |]; try apply Hfinish.
  destruct (contains "processing" _ || contains "queued" _); [apply Hfinish |].
  destruct (contains "No primer pairs found" _); [apply Hfinish | reflexivity].
Qed.

(** Each of the six runs is a run of [validate_job]. *)
Lemma validate_job_returning (served : value -> option string) (job_index : option Z)
    (job : dict) (sent : list value) (final : state) :
  can_report job_index job ->
  returning_run served job sent final ->
  validate_job served job_index (mk_state job sent) = (Ret tt, final).
Proof.
  intros Hrep Hrun.
  destruct Hrun as [Hurl | Hurl Hserved | html Hurl Hserved Hne Hproc
                   | html Hurl Hserved Hne Hproc Hnone | html Hreach Hnone
                   | html p found seqs fwd rev size Hreach Hfind Hq Hf Hr Hs].
  - unfold validate_job. unfold bind at 1. unfold read. cbn [job_info].
    rewrite Hurl. cbn [negb]. unfold bind at 1. unfold store at 1.
    cbn [job_info requests]. apply progress_run. cbn [job_info].
    apply can_report_insert; [discriminate | exact Hrep].
  - rewrite validate_job_fetches by assumption.
    destruct Hserved as [-> | ->]; reflexivity.
  - rewrite validate_job_fetches by assumption. rewrite Hserved.
    destruct html as [| c html]; [contradiction |]. now rewrite Hproc.
  - rewrite validate_job_fetches by assumption. rewrite Hserved.
    destruct html as [| c html]; [contradiction |]. now rewrite Hproc, Hnone.
  - rewrite (validate_job_reaches served job_index job sent html Hreach Hrep).
    unfold validate_page. rewrite Hnone.
    unfold bind. rewrite progress_run by exact Hrep. reflexivity.
  - destruct (validate_job_verdict served job_index job sent html p found seqs
                Hreach Hrep Hfind Hq) as (fwd' & rev' & size' & Hf' & Hr' & Hs' & Hrun).
    rewrite Hrun. congruence.
Qed.

(** ** Early exits of [validate_job] *)

(** X1: when the request for the results page fails, or is answered with
    an empty page, the job is marked 'fetch_failed' and nothing else of the
    record changes; one request was sent. *)
Theorem validate_job_fetch_failed (served : value -> option string)
    (job_index : option Z) (job : dict) (sent : list value) :
  truthy (get "results_url" job) = true ->
  can_report job_index job ->
  served (get "results_url" job) = None \/
  served (get "results_url" job) = Some EmptyString ->
  validate_job served job_index (mk_state job sent)
  = (Ret tt,
     mk_state (<["validation_status" := VStr "fetch_failed"]> job)
       (sent ++ [get "results_url" job])).
Proof.
  intros Hurl Hrep Hserved.
  apply validate_job_returning; [exact Hrep |].
  now apply run_fetch_failed.
Qed.

Lemma validate_job_fetch_failed_witness :
  validate_job (fun _ => Some EmptyString) (Some 1) (mk_state Jobs.job_78 [])
  = (Ret tt,
     mk_state (<["validation_status" := VStr "fetch_failed"]> Jobs.job_78)
       ([] ++ [get "results_url" Jobs.job_78])).
Proof.
  refine (validate_job_fetch_failed (fun _ => Some EmptyString) (Some 1)
            Jobs.job_78 [] _ _ _).
  - vm_compute. reflexivity.
  - right. eexists. vm_compute. reflexivity.
  - right. reflexivity.
Defined.

(** X2: a page that contains 'processing' or 'queued', in any letter case,
    marks the job 'processing' whatever else the page holds: the rows of a
    primer pair and the sentence 'No primer pairs found' are not looked
    at. *)
Theorem validate_job_processing_first (served : value -> option string)
    (job_index : option Z) (job : dict) (sent : list value) (html : string) :
  truthy (get "results_url" job) = true ->
  can_report job_index job ->
  served (get "results_url" job) = Some html ->
  contains "processing" (lower html) = true \/ contains "queued" (lower html) = true ->
  validate_job served job_index (mk_state job sent)
  = (Ret tt,
     mk_state (<["validation_status" := VStr "processing"]> job)
       (sent ++ [get "results_url" job])).
Proof.
  intros Hurl Hrep Hserved Hword.
  apply validate_job_returning; [exact Hrep |].
  apply (run_processing served job sent html); try assumption.
  - intros ->. destruct Hword as [H | H]; vm_compute in H; discriminate.
  - destruct Hword as [-> | ->]; [reflexivity | apply orb_true_r].
Qed.

Lemma validate_job_processing_first_witness :
  validate_job (Jobs.always Cases.mixed_page) None (mk_state Jobs.job_78 [])
  = (Ret tt,
     mk_state (<["validation_status" := VStr "processing"]> Jobs.job_78)
       ([] ++ [get "results_url" Jobs.job_78])).
Proof.
  refine (validate_job_processing_first (Jobs.always Cases.mixed_page) None
            Jobs.job_78 [] Cases.mixed_page _ _ _ _).
  - vm_compute. reflexivity.
  - left. reflexivity.
  - reflexivity.
  - right. vm_compute. reflexivity.
Defined.

(** X3: a page without 'processing' or 'queued' that contains the
    sentence 'No primer pairs found', in this very letter case, marks the
    job 'no_primers'; rows of a pair on the same page are not extracted. *)
Theorem validate_job_no_primers (served : value -> option string)
    (job_index : option Z) (job : dict) (sent : list value) (html : string) :
  truthy (get "results_url" job) = true ->
  can_report job_index job ->
  served (get "results_url" job) = Some html ->
  contains "processing" (lower html) = false ->
  contains "queued" (lower html) = false ->
  contains "No primer pairs found" html = true ->
  validate_job served job_index (mk_state job sent)
  = (Ret tt,
     mk_state (<["validation_status" := VStr "no_primers"]> job)
       (sent ++ [get "results_url" job])).
Proof.
  intros Hurl Hrep Hserved Hproc Hqueued Hnone.
  apply validate_job_returning; [exact Hrep |].
  apply (run_no_primers served job sent html); try assumption.
  - intros ->. vm_compute in Hnone. discriminate.
  - now rewrite Hproc, Hqueued.
Qed.

Lemma validate_job_no_primers_witness :
  validate_job (Jobs.always Cases.empty_result_page) None (mk_state Jobs.job_78 [])
  = (Ret tt,
     mk_state (<["validation_status" := VStr "no_primers"]> Jobs.job_78)
       ([] ++ [get "results_url" Jobs.job_78])).
Proof.
  refine (validate_job_no_primers (Jobs.always Cases.empty_result_page) None
            Jobs.job_78 [] Cases.empty_result_page _ _ _ _ _ _).
  - vm_compute. reflexivity.
  - left. reflexivity.
  - reflexivity.
  - vm_compute. reflexivity.
  - vm_compute. reflexivity.
  - vm_compute. reflexivity.
Defined.

(** ** What a 'pass' means *)

Lemma present_and_equal_true (expected : value) (extracted : option Z) :
  present_and_equal expected extracted = Ret true ->
  exists n, extracted = Some n /\ py_int expected = Ret n /\ is_none expected = false.
Proof.
  unfold present_and_equal.
  destruct (is_none expected); [discriminate |].
  destruct extracted as [x |]; [| discriminate].
  destruct (py_int expected) as [n | e]; cbn [obind]; [| discriminate].
  intros [= Heq]. apply Z.eqb_eq in Heq as ->. eauto.
Qed.

Lemma first_match_none_rejects (job : dict) (pairs : list pair) :
  first_match (get "left_primer_start" job) (get "right_primer_start" job)
    (get "product_size" job) pairs = Ret None ->
  Forall (fun q =>
            exists bf br bs,
              null_or_equal (get "left_primer_start" job) (forward_start q) = Ret bf /\
              null_or_equal (get "right_primer_start" job) (reverse_start q) = Ret br /\
              null_or_equal (get "product_size" job) (product_length q) = Ret bs /\
              bf && br && bs = false) pairs.
Proof.
  induction pairs as [| q rest IH]; cbn [first_match]; [intros _; apply Forall_nil_2 |].
  destruct (null_or_equal _ (forward_start q)) as [bf | e] eqn:Ef; [| discriminate].
  destruct (null_or_equal _ (reverse_start q)) as [br | e] eqn:Er; [| discriminate].
  destruct (null_or_equal _ (product_length q)) as [bs | e] eqn:Es; [| discriminate].
  cbn [obind]. destruct (bf && br && bs) eqn:Hall; [discriminate |].
  intros H. apply Forall_cons_2; [| exact (IH H)].
  exists bf, br, bs. auto.
Qed.

Lemma find_matching_pair_fallback (all_pairs : list pair) (job : dict) (p : pair) :
  find_matching_pair all_pairs job = Ret (Some p, false) ->
  exists bf br bs,
    null_or_equal (get "left_primer_start" job) (forward_start p) = Ret bf /\
    null_or_equal (get "right_primer_start" job) (reverse_start p) = Ret br /\
    null_or_equal (get "product_size" job) (product_length p) = Ret bs /\
    bf && br && bs = false.
Proof.
  unfold find_matching_pair.
  destruct (first_match _ _ _ all_pairs) as [[q |] | e] eqn:Hrun; cbn [obind];
    intros H; try discriminate.
  pose proof (first_match_none_rejects job all_pairs Hrun) as Hall.
  destruct all_pairs as [| q rest]; [discriminate |].
  simpl in H. assert (q = p) as -> by congruence.
  apply Forall_cons in Hall. tauto.
Qed.

Lemma null_or_equal_of_equal (expected : value) (n : Z) :
  py_int expected = Ret n -> is_none expected = false ->
  null_or_equal expected (Some n) = Ret true.
Proof.
  intros Hn Hnn. unfold null_or_equal. rewrite Hnn, Hn. cbn [obind].
  now rewrite Z.eqb_refl.
Qed.

#[local] Ltac lookup_written :=
  unfold judged, recorded, with_fields, marked;
  rewrite ?lookup_insert_ne by discriminate; apply lookup_insert_eq.

Lemma status_marked (s : string) (job : dict) :
  status (marked s job) = Some (VStr s).
Proof. apply lookup_insert_eq. Qed.

(** X4: a job that ends with the status 'pass' was validated against a
    pair the matcher confirmed, and [int()] accepts each of its three
    expected values and makes of it the extracted number that is stored
    beside it.  The expected value itself need not be that number: it can
    be a text that [int()] reads as it, or a float whose integer part it
    is. *)
Theorem validate_job_pass_means_equal (served : value -> option string)
    (job_index : option Z) (job : dict) (sent : list value) (final : state) :
  validate_job served job_index (mk_state job sent) = (Ret tt, final) ->
  status (job_info final) = Some (VStr "pass") ->
  job_info final !! "used_matching_algorithm" = Some (VBool true) /\
  job_info final !! "validation_passed" = Some (VBool true) /\
  exists fwd rev size,
    py_int (get "left_primer_start" job) = Ret fwd /\
    job_info final !! "extracted_forward_start" = Some (VInt fwd) /\
    py_int (get "right_primer_start" job) = Ret rev /\
    job_info final !! "extracted_reverse_start" = Some (VInt rev) /\
    py_int (get "product_size" job) = Ret size /\
    job_info final !! "extracted_product_length" = Some (VInt size).
Proof.
  intros Hrun Hpass.
  apply validate_job_returns_inv in Hrun as [_ Hrun].
  destruct Hrun as [Hurl | Hurl Hserved | html Hurl Hserved Hne Hproc
                   | html Hurl Hserved Hne Hproc Hnone | html Hreach Hnone
                   | html p found seqs fwd rev size Hreach Hfind Hq Hf Hr Hs];
    cbn [job_info] in *;
    try (rewrite status_marked in Hpass; discriminate).
  rewrite status_judged in Hpass.
  destruct fwd, rev, size, seqs; try discriminate. clear Hpass.
  destruct (present_and_equal_true _ _ Hf) as (nf & Hxf & Hnf & Hpf).
  destruct (present_and_equal_true _ _ Hr) as (nr & Hxr & Hnr & Hpr).
  destruct (present_and_equal_true _ _ Hs) as (ns & Hxs & Hns & Hps).
  assert (found = true) as ->.
  { destruct found; [reflexivity | exfalso].
    destruct (find_matching_pair_fallback _ _ _ Hfind)
      as (bf & br & bs & Hbf & Hbr & Hbs & Hall).
    rewrite Hxf, (null_or_equal_of_equal _ _ Hnf Hpf) in Hbf.
    rewrite Hxr, (null_or_equal_of_equal _ _ Hnr Hpr) in Hbr.
    rewrite Hxs, (null_or_equal_of_equal _ _ Hns Hps) in Hbs.
    injection Hbf as <-. injection Hbr as <-. injection Hbs as <-. discriminate. }
  split; [lookup_written |]. split; [lookup_written |].
  exists nf, nr, ns.
  repeat split; try assumption;
    unfold judged, recorded, with_fields;
    rewrite ?lookup_insert_ne by discriminate;
    rewrite lookup_insert_eq, ?Hxf, ?Hxr, ?Hxs; reflexivity.
Qed.

Lemma validate_job_pass_means_equal_witness :
  job_info (snd (validate_job (Jobs.always Samples.two_pair_page) (Some 1)
                   (mk_state Jobs.job_78 []))) !! "used_matching_algorithm"
  = Some (VBool true) /\
  job_info (snd (validate_job (Jobs.always Samples.two_pair_page) (Some 1)
                   (mk_state Jobs.job_78 []))) !! "validation_passed"
  = Some (VBool true) /\
  exists fwd rev size,
    py_int (get "left_primer_start" Jobs.job_78) = Ret fwd /\
    job_info (snd (validate_job (Jobs.always Samples.two_pair_page) (Some 1)
                     (mk_state Jobs.job_78 []))) !! "extracted_forward_start"
    = Some (VInt fwd) /\
    py_int (get "right_primer_start" Jobs.job_78) = Ret rev /\
    job_info (snd (validate_job (Jobs.always Samples.two_pair_page) (Some 1)
                     (mk_state Jobs.job_78 []))) !! "extracted_reverse_start"
    = Some (VInt rev) /\
    py_int (get "product_size" Jobs.job_78) = Ret size /\
    job_info (snd (validate_job (Jobs.always Samples.two_pair_page) (Some 1)
                     (mk_state Jobs.job_78 []))) !! "extracted_product_length"
    = Some (VInt size).
Proof.
  refine (validate_job_pass_means_equal (Jobs.always Samples.two_pair_page) (Some 1)
            Jobs.job_78 [] _ _ _).
  - vm_compute. reflexivity.
  - vm_compute. reflexivity.
Defined.

(** Expected values that are not the extracted numbers, and pass: [int()]
    makes 78, 498 and 421 of them. *)
Example loose_expectations_pass :
  match validate_job (Jobs.always Samples.two_pair_page) (Some 1)
          (mk_state Cases.job_loose_expectations [])
  with
  | (Ret _, final) => status (job_info final)
  | (Raise _, _) => None
  end
  = Some (VStr "pass").
Proof. vm_compute. reflexivity. Qed.

(** ** Running [validate_job] again *)

Lemma get_judged_recorded (key : string) (fwd rev size seqs : bool) (n : nat)
    (p : pair) (found : bool) (job : dict) :
  In key ["forward_primer"; "reverse_primer"; "left_primer_start";
          "right_primer_start"; "product_size"; "results_url"] ->
  get key (judged fwd rev size seqs (recorded n p found job)) = get key job.
Proof.
  intros Hkey. unfold judged, recorded. simpl in Hkey.
  repeat (destruct Hkey as [<- | Hkey];
          [rewrite !get_insert_ne by discriminate;
           rewrite get_with_fields by (simpl; tauto);
           now rewrite get_insert_ne by discriminate |]).
  destruct Hkey.
Qed.

Lemma get_marked (key s : string) (job : dict) :
  key <> "validation_status" -> get key (marked s job) = get key job.
Proof. intros Hne. apply get_insert_ne. congruence. Qed.

Lemma marked_twice (s : string) (job : dict) : marked s (marked s job) = marked s job.
Proof. apply insert_insert_eq. Qed.

(** Writing the fields of a verdict into a record that holds them already
    changes nothing. *)
Lemma judged_recorded_twice (fwd rev size seqs : bool) (n : nat) (p : pair)
    (found : bool) (job : dict) :
  judged fwd rev size seqs
    (recorded n p found (judged fwd rev size seqs (recorded n p found job)))
  = judged fwd rev size seqs (recorded n p found job).
Proof.
  set (J := judged fwd rev size seqs (recorded n p found job)).
  assert (forall key v, In (key, v)
            [("total_primer_pairs_found", VInt (Z.of_nat n));
             ("matched_pair_index", of_int (pair_index p));
             ("used_matching_algorithm", VBool found);
             ("extracted_forward_sequence", of_str (forward_sequence p));
             ("extracted_forward_start", of_int (forward_start p));
             ("extracted_forward_end", of_int (forward_end p));
             ("extracted_reverse_sequence", of_str (reverse_sequence p));
             ("extracted_reverse_start", of_int (reverse_start p));
             ("extracted_reverse_end", of_int (reverse_end p));
             ("extracted_product_length", of_int (product_length p));
             ("sequences_match", VBool seqs);
             ("validation", checks fwd rev size seqs);
             ("validation_passed", VBool (fwd && rev && size && seqs));
             ("validation_status",
              VStr (if fwd && rev && size && seqs then "pass" else "fail"))] ->
            <[key := v]> J = J) as Hsame.
  { intros key v Hin. apply insert_id. subst J.
    simpl in Hin.
    repeat (destruct Hin as [[= <- <-] | Hin]; [lookup_written |]).
    destruct Hin. }
  unfold judged at 1. unfold recorded at 1. unfold with_fields at 1.
  do 14 (rewrite Hsame by (simpl; tauto)). reflexivity.
Qed.

Lemma reaches_extraction_ext (served : value -> option string) (job job' : dict)
    (html : string) :
  get "results_url" job' = get "results_url" job ->
  reaches_extraction served job html -> reaches_extraction served job' html.
Proof. unfold reaches_extraction. now intros ->. Qed.

Lemma find_matching_pair_ext (all_pairs : list pair) (job job' : dict) :
  get "left_primer_start" job' = get "left_primer_start" job ->
  get "right_primer_start" job' = get "right_primer_start" job ->
  get "product_size" job' = get "product_size" job ->
  find_matching_pair all_pairs job' = find_matching_pair all_pairs job.
Proof. unfold find_matching_pair. now intros -> -> ->. Qed.

Lemma sequence_check_ext (p : pair) (job job' : dict) :
  get "forward_primer" job' = get "forward_primer" job ->
  get "reverse_primer" job' = get "reverse_primer" job ->
  sequence_check p job' = sequence_check p job.
Proof. unfold sequence_check. now intros -> ->. Qed.

(** X5: a run of [validate_job] on the record left by a run that
    returned, with the service answering as before, returns as well and
    leaves the record as it is. *)
Theorem validate_job_idempotent (served : value -> option string)
    (job_index : option Z) (job : dict) (sent : list value) (once : state) :
  validate_job served job_index (mk_state job sent) = (Ret tt, once) ->
  exists twice,
    validate_job served job_index once = (Ret tt, twice) /\
    job_info twice = job_info once.
Proof.
  intros Hrun.
  apply validate_job_returns_inv in Hrun as [Hrep Hrun].
  assert (forall s, can_report job_index (marked s job)) as Hrep_marked
    by (intros s; apply can_report_insert; [discriminate | exact Hrep]).
  assert (forall s, get "results_url" (marked s job) = get "results_url" job) as Hurl_marked
    by (intros s; apply get_marked; discriminate).
  destruct Hrun as [Hurl | Hurl Hserved | html Hurl Hserved Hne Hproc
                   | html Hurl Hserved Hne Hproc Hnone | html Hreach Hnone
                   | html p found seqs fwd rev size Hreach Hfind Hq Hf Hr Hs].
  - eexists. split.
    + apply validate_job_returning; [apply Hrep_marked |].
      apply run_no_url. now rewrite Hurl_marked.
    + cbn [job_info]. apply marked_twice.
  - eexists. split.
    + apply validate_job_returning; [apply Hrep_marked |].
      apply run_fetch_failed; now rewrite Hurl_marked.
    + cbn [job_info]. apply marked_twice.
  - eexists. split.
    + apply validate_job_returning; [apply Hrep_marked |].
      apply (run_processing _ _ _ html); try rewrite Hurl_marked; assumption.
    + cbn [job_info]. apply marked_twice.
  - eexists. split.
    + apply validate_job_returning; [apply Hrep_marked |].
      apply (run_no_primers _ _ _ html); try rewrite Hurl_marked; assumption.
    + cbn [job_info]. apply marked_twice.
  - eexists. split.
    + apply validate_job_returning; [apply Hrep_marked |].
      apply (run_extraction_failed _ _ _ html); [| assumption].
      apply (reaches_extraction_ext served job); [apply Hurl_marked | assumption].
    + cbn [job_info]. apply marked_twice.
  - set (n := length (extract_all_primer_pairs html)) in *.
    set (J := judged fwd rev size seqs (recorded n p found job)).
    assert (forall key,
               In key ["forward_primer"; "reverse_primer"; "left_primer_start";
                       "right_primer_start"; "product_size"; "results_url"] ->
               get key J = get key job) as Hget
      by (intros key Hkey; now apply get_judged_recorded).
    eexists. split.
    + apply validate_job_returning.
      * cbn [job_info]. subst J. unfold judged, recorded.
        repeat (apply can_report_insert; [discriminate |]). exact Hrep.
      * cbn [job_info requests].
        apply (run_verdict served J _ html p found seqs fwd rev size).
        -- apply (reaches_extraction_ext served job); [| assumption].
           apply Hget. simpl; tauto.
        -- rewrite <- Hfind. apply find_matching_pair_ext; apply Hget; simpl; tauto.
        -- rewrite <- Hq. apply sequence_check_ext; apply Hget; simpl; tauto.
        -- rewrite Hget by (simpl; tauto). exact Hf.
        -- rewrite Hget by (simpl; tauto). exact Hr.
        -- rewrite Hget by (simpl; tauto). exact Hs.
    + cbn [job_info]. subst J n. apply judged_recorded_twice.
Qed.

Lemma validate_job_idempotent_witness :
  exists twice,
    validate_job (Jobs.always Samples.two_pair_page) (Some 1)
      (snd (validate_job (Jobs.always Samples.two_pair_page) (Some 1)
              (mk_state Jobs.job_78 [])))
    = (Ret tt, twice) /\
    job_info twice
    = job_info (snd (validate_job (Jobs.always Samples.two_pair_page) (Some 1)
                       (mk_state Jobs.job_78 []))).
Proof.
  refine (validate_job_idempotent (Jobs.always Samples.two_pair_page) (Some 1)
            Jobs.job_78 [] _ _).
  vm_compute. reflexivity.
Defined.

(** ** What every run of [validate_job] leaves alone *)

Section Respecting.

Variable R : state -> state -> Prop.
Hypothesis R_refl : forall st, R st st.
Hypothesis R_trans : forall st1 st2 st3, R st1 st2 -> R st2 st3 -> R st1 st3.

Lemma respects_ret {A : Type} (a : A) : respects R (ret a).
Proof. intros st o st' [= _ <-]. apply R_refl. Qed.

Lemma respects_lift {A : Type} (c : outcome A) : respects R (lift c).
Proof. intros st o st' [= _ <-]. apply R_refl. Qed.

Lemma respects_read : respects R read.
Proof. intros st o st' [= _ <-]. apply R_refl. Qed.

Lemma respects_subscript (key : string) : respects R (subscript key).
Proof.
  intros st o st'. unfold subscript.
  destruct (job_info st !! key); intros [= _ <-]; apply R_refl.
Qed.

Lemma respects_bind {A B : Type} (c : M A) (k : A -> M B) :
  respects R c -> (forall a, respects R (k a)) -> respects R (bind c k).
Proof.
  intros Hc Hk st o st'. unfold bind.
  destruct (c st) as [[a | e] st1] eqn:Hrun.
  - intros Hrest. exact (R_trans _ _ _ (Hc _ _ _ Hrun) (Hk a _ _ _ Hrest)).
  - intros [= _ <-]. exact (Hc _ _ _ Hrun).
Qed.

Lemma respects_progress (job_index : option Z) : respects R (progress job_index).
Proof.
  destruct job_index as [i |]; cbn [progress]; [| apply respects_ret].
  apply respects_bind; [apply respects_subscript | intros v; apply respects_ret].
Qed.

End Respecting.

#[local] Ltac respecting Hrefl Htrans Hstore :=
  repeat first
    [ apply (respects_bind _ Htrans); [| intros ?]
    | apply (respects_ret _ Hrefl)
    | apply (respects_lift _ Hrefl)
    | apply (respects_read _ Hrefl)
    | apply (respects_subscript _ Hrefl)
    | apply (respects_progress _ Hrefl Htrans)
    | Hstore
    | match goal with
      | |- respects _ (if ?b then _ else _) => destruct b
      | |- respects _ (match ?x with _ => _ end) => destruct x
      | |- respects _ (let '(_, _) := ?x in _) => destruct x
      end ].

Lemma framed_refl (st : state) : framed st st.
Proof. split; auto. Qed.

Lemma framed_trans (st1 st2 st3 : state) :
  framed st1 st2 -> framed st2 st3 -> framed st1 st3.
Proof.
  intros [H12 K12] [H23 K23]. split.
  - intros key Hkey. now rewrite H23, H12.
  - auto.
Qed.

Lemma store_framed (key : string) (v : value) :
  In key written_keys -> respects framed (store key v).
Proof.
  intros Hkey st o st' [= _ <-]. split; cbn [job_info].
  - intros key' Hkey'. apply lookup_insert_ne. congruence.
  - intros key' Hsome. destruct (decide (key = key')) as [<- | Hne].
    + rewrite lookup_insert_eq. eauto.
    + now rewrite lookup_insert_ne.
Qed.

Lemma fetch_results_framed (served : value -> option string) (url : value) :
  respects framed (fetch_results served url).
Proof. intros st o st' [= _ <-]. split; cbn [job_info]; auto. Qed.

#[local] Ltac framing :=
  respecting framed_refl framed_trans
    ltac:(first [ apply fetch_results_framed
                | apply store_framed; unfold written_keys; simpl; tauto ]).

Lemma validate_page_framed (job_index : option Z) (html : string) :
  respects framed (validate_page job_index html).
Proof.
  unfold validate_page, record_matched_pair, validate_coordinates.
  destruct (extract_all_primer_pairs html); framing.
Qed.

(** X6: whether it returns or raises, [validate_job] changes no field
    of the record other than the fourteen it assigns, and removes none. *)
Theorem validate_job_keeps_other_fields (served : value -> option string)
    (job_index : option Z) (st : state) (o : outcome unit) (final : state) :
  validate_job served job_index st = (o, final) ->
  (forall key, ~ In key written_keys -> job_info final !! key = job_info st !! key) /\
  (forall key, is_Some (job_info st !! key) -> is_Some (job_info final !! key)).
Proof.
  revert st o final. change (respects framed (validate_job served job_index)).
  unfold validate_job. framing.
  all: apply validate_page_framed.
Qed.

Lemma validate_job_keeps_other_fields_witness :
  (forall key, ~ In key written_keys ->
     job_info (snd (validate_job (Jobs.always Samples.two_pair_page) (Some 1)
                      (mk_state Cases.job_bad_start []))) !! key
     = job_info (mk_state Cases.job_bad_start []) !! key) /\
  (forall key, is_Some (job_info (mk_state Cases.job_bad_start []) !! key) ->
     is_Some (job_info (snd (validate_job (Jobs.always Samples.two_pair_page) (Some 1)
                               (mk_state Cases.job_bad_start []))) !! key)).
Proof.
  refine (validate_job_keeps_other_fields (Jobs.always Samples.two_pair_page) (Some 1)
            (mk_state Cases.job_bad_start []) (Raise ValueError) _ _).
  vm_compute. reflexivity.
Defined.

Lemma same_requests_refl (st : state) : same_requests st st.
Proof. reflexivity. Qed.

Lemma same_requests_trans (st1 st2 st3 : state) :
  same_requests st1 st2 -> same_requests st2 st3 -> same_requests st1 st3.
Proof. unfold same_requests. congruence. Qed.

Lemma store_same_requests (key : string) (v : value) :
  respects same_requests (store key v).
Proof. intros st o st' [= _ <-]. reflexivity. Qed.

#[local] Ltac silent :=
  respecting same_requests_refl same_requests_trans ltac:(apply store_same_requests).

Lemma validate_page_same_requests (job_index : option Z) (html : string) :
  respects same_requests (validate_page job_index html).
Proof.
  unfold validate_page, record_matched_pair, validate_coordinates.
  destruct (extract_all_primer_pairs html); silent.
Qed.

Lemma finish_same_requests (job_index : option Z) (s : string) :
  respects same_requests
    (bind (progress job_index) (fun _ => store "validation_status" (VStr s))).
Proof. silent. Qed.

(** X7: whether it returns or raises, [validate_job] sends at most one
    request, for the results URL of the record, and none when that URL is
    missing, null or empty. *)
Theorem validate_job_one_request (served : value -> option string)
    (job_index : option Z) (st : state) (o : outcome unit) (final : state) :
  validate_job served job_index st = (o, final) ->
  requests final = requests st \/
  (truthy (get "results_url" (job_info st)) = true /\
   requests final = requests st ++ [get "results_url" (job_info st)]).
Proof.
  unfold validate_job. unfold bind at 1. unfold read.
  destruct (truthy (get "results_url" (job_info st))) eqn:Hurl; cbn [negb].
  - unfold bind at 1.
    destruct (progress_keeps job_index st) as (o1 & -> & _).
    destruct o1 as [[] | e]; [| intros [= _ <-]; now left].
    unfold bind at 1. unfold subscript.
    rewrite (truthy_get_lookup _ _ Hurl).
    unfold bind at 1. unfold fetch_results.
    cbn [job_info requests].
    destruct (served (get "results_url" (job_info st))) as [[| c html] |].
    + intros Hrest. right. split; [reflexivity |].
      exact (finish_same_requests _ _ _ _ _ Hrest).
    + destruct (contains "processing" _ || contains "queued" _);
        [| destruct (contains "No primer pairs found" _)];
        intros Hrest; right; (split; [reflexivity |]).
      * exact (finish_same_requests _ _ _ _ _ Hrest).
      * exact (finish_same_requests _ _ _ _ _ Hrest).
      * exact (validate_page_same_requests _ _ _ _ _ Hrest).
    + intros Hrest. right. split; [reflexivity |].
      exact (finish_same_requests _ _ _ _ _ Hrest).
  - intros Hrest. left.
    assert (respects same_requests
              (bind (store "validation_status" (VStr "no_url"))
                 (fun _ => progress job_index))) as Hquiet by silent.
    exact (Hquiet _ _ _ Hrest).
Qed.

Lemma validate_job_one_request_witness :
  requests (snd (validate_job (Jobs.always Samples.two_pair_page) (Some 1)
                   (mk_state Cases.job_bad_start [])))
  = requests (mk_state Cases.job_bad_start []) \/
  (truthy (get "results_url" (job_info (mk_state Cases.job_bad_start []))) = true /\
   requests (snd (validate_job (Jobs.always Samples.two_pair_page) (Some 1)
                    (mk_state Cases.job_bad_start [])))
   = requests (mk_state Cases.job_bad_start [])
     ++ [get "results_url" (job_info (mk_state Cases.job_bad_start []))]).
Proof.
  refine (validate_job_one_request (Jobs.always Samples.two_pair_page) (Some 1)
            (mk_state Cases.job_bad_start []) (Raise ValueError) _ _).
  vm_compute. reflexivity.
Defined.

(** ** The matcher on records it cannot compare *)

Lemma null_or_equal_raises (expected : value) (x : Z) (e : exn) :
  py_int expected = Raise e -> expected <> VNone ->
  null_or_equal expected (Some x) = Raise e.
Proof.
  intros He Hv. unfold null_or_equal.
  destruct expected; try contradiction; cbn [is_none]; now rewrite He.
Qed.

Lemma null_or_equal_outcome (expected : value) (extracted : option Z) :
  (exists b, null_or_equal expected extracted = Ret b) \/
  (exists e, null_or_equal expected extracted = Raise e).
Proof. destruct (null_or_equal expected extracted); eauto. Qed.

(** X8: when the first extracted pair carries its three numbers and one
    of the expected values is present but nothing [int()] accepts, the
    matcher raises: it returns neither a match nor the fallback. *)
Theorem find_matching_pair_raises (p : pair) (rest : list pair) (job : dict)
    (fwd rev size : Z) :
  forward_start p = Some fwd ->
  reverse_start p = Some rev ->
  product_length p = Some size ->
  (exists e, py_int (get "left_primer_start" job) = Raise e /\
             get "left_primer_start" job <> VNone) \/
  (exists e, py_int (get "right_primer_start" job) = Raise e /\
             get "right_primer_start" job <> VNone) \/
  (exists e, py_int (get "product_size" job) = Raise e /\
             get "product_size" job <> VNone) ->
  exists e, find_matching_pair (p :: rest) job = Raise e.
Proof.
  intros Hf Hr Hs Hbad. unfold find_matching_pair. cbn [first_match].
  rewrite Hf, Hr, Hs.
  destruct Hbad as [(e & He & Hv) | [(e & He & Hv) | (e & He & Hv)]].
  - rewrite (null_or_equal_raises _ fwd e He Hv). eauto.
  - destruct (null_or_equal_outcome (get "left_primer_start" job) (Some fwd))
      as [[bf ->] | [e' ->]]; [| eauto].
    rewrite (null_or_equal_raises _ rev e He Hv). eauto.
  - destruct (null_or_equal_outcome (get "left_primer_start" job) (Some fwd))
      as [[bf ->] | [e' ->]]; [| eauto].
    destruct (null_or_equal_outcome (get "right_primer_start" job) (Some rev))
      as [[br ->] | [e' ->]]; [| eauto].
    rewrite (null_or_equal_raises _ size e He Hv). eauto.
Qed.

Lemma find_matching_pair_raises_witness :
  exists e, find_matching_pair (Jobs.pair_2 :: []) Cases.job_bad_start = Raise e.
Proof.
  refine (find_matching_pair_raises Jobs.pair_2 [] Cases.job_bad_start 78 498 421
            _ _ _ _); try reflexivity.
  left. exists ValueError. split; [vm_compute; reflexivity | vm_compute; discriminate].
Defined.

(** X9: for a record without any of the three expected values, the matcher
    returns the first extracted pair tagged [True], whatever it holds. *)
Theorem find_matching_pair_without_expectations (p : pair) (rest : list pair)
    (job : dict) :
  get "left_primer_start" job = VNone ->
  get "right_primer_start" job = VNone ->
  get "product_size" job = VNone ->
  find_matching_pair (p :: rest) job = Ret (Some p, true).
Proof.
  intros Hf Hr Hs. unfold find_matching_pair. cbn [first_match].
  now rewrite Hf, Hr, Hs.
Qed.

Lemma find_matching_pair_without_expectations_witness :
  find_matching_pair (Jobs.pair_2 :: []) Cases.job_without_expectations
  = Ret (Some Jobs.pair_2, true).
Proof.
  refine (find_matching_pair_without_expectations Jobs.pair_2 []
            Cases.job_without_expectations _ _ _); vm_compute; reflexivity.
Defined.

(** ** Batches that stop *)







(** ** The range of a batch *)

(** X12: the range check of [validate_all_jobs] accepts a range exactly
    when its start is not negative and lies before its end, the end being
    cut at the length of the list; the selected jobs are then the jobs at
    positions start, start + 1, ... up to the end, and there is at least
    one. *)
Theorem select_range_bounds (jobs : list dict) (start_line : Z) (end_line : option Z) :
  let total := Z.of_nat (length jobs) in
  let stop := Z.min (default total end_line) total in
  match select_range jobs start_line end_line with
  | Some jobs_subset =>
      0 <= start_line < stop /\
      Z.of_nat (length jobs_subset) = stop - start_line /\
      forall i : nat,
        (i < length jobs_subset)%nat ->
        jobs_subset !! i = jobs !! (Z.to_nat start_line + i)%nat
  | None => start_line < 0 \/ stop <= start_line
  end.
Proof.
  intros total stop. unfold select_range. fold total.
  destruct (Z.ltb_spec start_line 0) as [Hneg | Hpos]; [left; lia |].
  destruct (Z.geb_spec start_line total) as [Hbeyond | Hwithin]; [right; lia |].
  assert ((if default total end_line >? total then total else default total end_line)
          = stop) as Hstop.
  { unfold stop. destruct (Z.gtb_spec (default total end_line) total); lia. }
  replace (match end_line with Some e => e | None => total end)
    with (default total end_line) by (now destruct end_line).
  rewrite Hstop.
  destruct (Z.geb_spec start_line stop) as [Hempty | Hsome]; [right; lia |].
  split; [lia |].
  assert (length (take (Z.to_nat stop - Z.to_nat start_line)
                    (drop (Z.to_nat start_line) jobs))
          = (Z.to_nat stop - Z.to_nat start_line)%nat) as Hlen.
  { rewrite length_take, length_drop. unfold stop, total in *. lia. }
  split; [rewrite Hlen; lia |].
  intros i Hi. rewrite Hlen in Hi.
  rewrite lookup_take_lt by exact Hi. apply lookup_drop.
Qed.

(** ** Checkpoints *)



Section Checkpointing.

Variable served : nat -> value -> option string.
Variable jobs_subset : list dict.
Variable checkpoint_interval : Z.

Hypothesis interval_positive : 0 < checkpoint_interval.

Hypothesis workers_return :
  forall (idx : nat) (job : dict),
    jobs_subset !! idx = Some job -> exists r, process_job served idx job = Ret r.


End Checkpointing.




(** The scenario of a batch of 25 jobs checkpointed every 10 completions:
    two checkpoints, of 10 and of 20 jobs. *)
Example checkpoints_of_25_by_10 :
  filter (fun k => k mod 10 = 0) (seqZ 1 (Z.of_nat 25)) = [10; 20].
Proof. reflexivity. Qed.

(** ** What the extractor captures *)

Lemma rep_inv {R : Type} (p : ascii -> bool) (cont : string -> string -> option R)
    (s : string) :
  forall (taken : string) (r : R),
    rep p cont taken s = Some r ->
    exists extra rest,
      cont (taken ++ extra)%string rest = Some r /\
      Forall (fun c => p c = true) (list_ascii_of_string extra).
Proof.
  induction s as [| c s' IH]; intros taken r; cbn [rep].
  - intros H. exists EmptyString, EmptyString.
    rewrite append_empty_r. split; [exact H | apply Forall_nil_2].
  - destruct (p c) eqn:Hc.
    + destruct (rep p cont (taken ++ String c EmptyString)%string s') as [r' |] eqn:Hdeep.
      * intros [= <-]. destruct (IH _ _ Hdeep) as (extra & rest & Hcont & Hall).
        exists (String c extra), rest. rewrite <- append_snoc.
        split; [exact Hcont |]. cbn [list_ascii_of_string].
        apply Forall_cons_2; assumption.
      * intros H. exists EmptyString, (String c s').
        rewrite append_empty_r. split; [exact H | apply Forall_nil_2].
    + intros H. exists EmptyString, (String c s').
      rewrite append_empty_r. split; [exact H | apply Forall_nil_2].
Qed.

Lemma rep1_inv {R : Type} (k : cls) (cont : string -> string -> option R)
    (s : string) (r : R) :
  rep1 (cls_mem k) cont s = Some r ->
  exists g rest, cont g rest = Some r /\ made_of k g.
Proof.
  unfold rep1. destruct s as [| c s']; [discriminate |].
  destruct (cls_mem k c) eqn:Hc; [| discriminate].
  intros H. destruct (rep_inv _ _ _ _ _ H) as (extra & rest & Hcont & Hall).
  exists (String c extra), rest. split; [exact Hcont |].
  split; [discriminate |]. cbn [list_ascii_of_string].
  apply Forall_cons_2; assumption.
Qed.

(** A match captures one text for each group of the pattern, made of the
    class of that group. *)
Lemma match_here_groups (r : regex) :
  forall (s : string) (caps caps' : list string) (rest : string),
    match_here r s caps = Some (caps', rest) ->
    exists groups, caps' = caps ++ groups /\ Forall2 made_of (group_classes r) groups.
Proof.
  induction r as [| a r' IH]; intros s caps caps' rest; cbn [match_here group_classes].
  - intros [= <- _]. exists []. rewrite app_nil_r. split; [reflexivity | apply Forall2_nil_2].
  - destruct a as [text | k | k | k].
    + destruct (strip_literal text s) as [s' |]; [apply IH | discriminate].
    + intros H. destruct (rep_inv _ _ _ _ _ H) as (extra & rest' & Hcont & _).
      exact (IH _ _ _ _ Hcont).
    + intros H. destruct (rep1_inv _ _ _ _ H) as (g & rest' & Hcont & _).
      exact (IH _ _ _ _ Hcont).
    + intros H. destruct (rep1_inv _ _ _ _ H) as (g & rest' & Hcont & Hg).
      destruct (IH _ _ _ _ Hcont) as (groups & -> & Hall).
      exists (g :: groups). rewrite <- app_assoc. split; [reflexivity |].
      apply Forall2_cons_2; assumption.
Qed.

Lemma search_groups (r : regex) (s : string) (groups : list string) :
  search r s = Some groups -> Forall2 made_of (group_classes r) groups.
Proof.
  induction s as [| c s' IH]; cbn [search];
    destruct (match_here r _ []) as [[caps rest] |] eqn:Hhere;
    try discriminate; try (intros [= <-]); try exact IH;
    destruct (match_here_groups _ _ _ _ _ Hhere) as (found & -> & Hall);
    exact Hall.
Qed.

Lemma digits_value_natural (s : string) :
  made_of Digit s -> 0 <= digits_value s.
Proof.
  intros [_ Hdigits]. unfold digits_value.
  assert (forall acc, 0 <= acc ->
            0 <= fold_left (fun acc c => 10 * acc + digit_value c)
                   (list_ascii_of_string s) acc) as Hfold.
  { induction Hdigits as [| c l Hc _ IH]; intros acc Hacc; cbn [fold_left];
      [exact Hacc |].
    apply IH. cbn [cls_mem] in Hc. unfold is_digit, between, digit_value in *.
    apply andb_prop in Hc as [Hlo _]. apply Z.leb_le in Hlo. lia. }
  apply Hfold. lia.
Qed.

(** The fields of a primer row are taken together from a match of the row
    pattern, or are all null. *)
Lemma primer_fields_spec (direction html : string) :
  match search (primer_row direction) html with
  | Some _ =>
      exists seq start stop,
        primer_fields (search (primer_row direction) html)
        = (Some seq, Some start, Some stop) /\
        made_of Base seq /\ 0 <= start /\ 0 <= stop
  | None => primer_fields (search (primer_row direction) html) = (None, None, None)
  end.
Proof.
  destruct (search (primer_row direction) html) as [groups |] eqn:Hsearch;
    [| reflexivity].
  apply search_groups in Hsearch. cbn [primer_row group_classes] in Hsearch.
  repeat match goal with
         | H : Forall2 _ (_ :: _) _ |- _ =>
             apply Forall2_cons_inv_l in H as (? & ? & ? & H & ->)
         | H : Forall2 _ [] _ |- _ => apply Forall2_nil_inv_l in H as ->
         end.
  cbn [primer_fields]. do 3 eexists. split; [reflexivity |].
  auto using digits_value_natural.
Qed.

Lemma product_field_spec (html : string) :
  match search product_pattern html with
  | Some _ => exists len, product_field (search product_pattern html) = Some len /\ 0 <= len
  | None => product_field (search product_pattern html) = None
  end.
Proof.
  destruct (search product_pattern html) as [groups |] eqn:Hsearch; [| reflexivity].
  apply search_groups in Hsearch. cbn [product_pattern group_classes] in Hsearch.
  repeat match goal with
         | H : Forall2 _ (_ :: _) _ |- _ =>
             apply Forall2_cons_inv_l in H as (? & ? & ? & H & ->)
         | H : Forall2 _ [] _ |- _ => apply Forall2_nil_inv_l in H as ->
         end.
  cbn [product_field]. eexists. split; [reflexivity |].
  auto using digits_value_natural.
Qed.

(** X14: [_extract_single_pair] takes the sequence, start and end of a
    primer from one match of its row pattern, so the three are present
    together or null together; the forward row, the reverse row and the
    product row are found or missed independently, and the index is the
    one given. *)
Theorem extract_single_pair_rows (html_content : string) (index : option Z) :
  let p := _extract_single_pair html_content index in
  pair_index p = index /\
  ((search forward_pattern html_content <> None /\
    exists seq start stop,
      forward_sequence p = Some seq /\ forward_start p = Some start /\
      forward_end p = Some stop)
   \/ (search forward_pattern html_content = None /\
       forward_sequence p = None /\ forward_start p = None /\ forward_end p = None)) /\
  ((search reverse_pattern html_content <> None /\
    exists seq start stop,
      reverse_sequence p = Some seq /\ reverse_start p = Some start /\
      reverse_end p = Some stop)
   \/ (search reverse_pattern html_content = None /\
       reverse_sequence p = None /\ reverse_start p = None /\ reverse_end p = None)) /\
  (product_length p = None <-> search product_pattern html_content = None).
Proof.
  unfold _extract_single_pair, forward_pattern, reverse_pattern.
  pose proof (primer_fields_spec "Forward" html_content) as Hf.
  pose proof (primer_fields_spec "Reverse" html_content) as Hr.
  pose proof (product_field_spec html_content) as Hp.
  destruct (search (primer_row "Forward") html_content) as [gf |];
    [destruct Hf as (fseq & fstart & fstop & -> & _) | rewrite Hf];
    (destruct (search (primer_row "Reverse") html_content) as [gr |];
     [destruct Hr as (rseq & rstart & rstop & -> & _) | rewrite Hr]);
    (destruct (search product_pattern html_content) as [gp |];
     [destruct Hp as (len & -> & _) | rewrite Hp]);
    cbn;
    (split; [reflexivity |]);
    (split; [first [ left; split; [discriminate | eauto 6]
                   | right; auto ] |]);
    (split; [first [ left; split; [discriminate | eauto 6]
                   | right; auto ] |]);
    split; congruence.
Qed.

(** X15: every number [_extract_single_pair] returns is a natural number,
    and every sequence is a run, not empty, of the letters A, T, C, G, N in
    upper or lower case. *)
Theorem extract_single_pair_values (html_content : string) (index : option Z) :
  let p := _extract_single_pair html_content index in
  natural (forward_start p) /\ natural (forward_end p) /\
  natural (reverse_start p) /\ natural (reverse_end p) /\
  natural (product_length p) /\
  bases (forward_sequence p) /\ bases (reverse_sequence p).
Proof.
  unfold _extract_single_pair, forward_pattern, reverse_pattern.
  pose proof (primer_fields_spec "Forward" html_content) as Hf.
  pose proof (primer_fields_spec "Reverse" html_content) as Hr.
  pose proof (product_field_spec html_content) as Hp.
  destruct (search (primer_row "Forward") html_content) as [gf |];
    [destruct Hf as (fseq & fstart & fstop & -> & ? & ? & ?) | rewrite Hf];
    (destruct (search (primer_row "Reverse") html_content) as [gr |];
     [destruct Hr as (rseq & rstart & rstop & -> & ? & ? & ?) | rewrite Hr]);
    (destruct (search product_pattern html_content) as [gp |];
     [destruct Hp as (len & -> & ?) | rewrite Hp]);
    cbn; repeat split; auto; try discriminate;
    match goal with H : made_of Base _ |- _ => apply H end.
Qed.

(** ** The pairs of a page *)

Lemma pair_index_extract (html_content : string) (index : option Z) :
  pair_index (_extract_single_pair html_content index) = index.
Proof.
  unfold _extract_single_pair.
  destruct (primer_fields (search forward_pattern html_content)) as [[? ?] ?].
  destruct (primer_fields (search reverse_pattern html_content)) as [[? ?] ?].
  reflexivity.
Qed.

(** The loop keeps, in order, the pairs of the sections whose forward start
    was found; [k] sections came before. *)
Lemma collect_pairs_from (sections : list string) :
  forall k : nat,
    Forall (fun p => forward_start p <> None /\
                     exists i section,
                       sections !! i = Some section /\
                       p = pair_of_section (k + i) section)
      (collect_pairs (Z.of_nat k + 1) sections) /\
    StronglySorted index_before (collect_pairs (Z.of_nat k + 1) sections) /\
    (length (collect_pairs (Z.of_nat k + 1) sections) <= length sections)%nat.
Proof.
  induction sections as [| section rest IH]; intros k; cbn [collect_pairs].
  - split; [apply Forall_nil_2 |]. split; [apply SSorted_nil | reflexivity].
  - replace (Z.of_nat k + 1 + 1) with (Z.of_nat (S k) + 1) by lia.
    destruct (IH (S k)) as (Hfrom & Hsorted & Hlen).
    assert (Forall (fun p => forward_start p <> None /\
                             exists i s,
                               (section :: rest) !! i = Some s /\
                               p = pair_of_section (k + i) s)
              (collect_pairs (Z.of_nat (S k) + 1) rest)) as Hshift.
    { eapply Forall_impl; [exact Hfrom |].
      intros p (Hstart & i & s & Hs & ->). split; [exact Hstart |].
      exists (S i), s. split; [exact Hs |]. f_equal. lia. }
    destruct (forward_start (_extract_single_pair section (Some (Z.of_nat k + 1))))
      as [start |] eqn:Hstart.
    + split; [| split].
      * apply Forall_cons_2; [| exact Hshift].
        split; [congruence |]. exists 0%nat, section.
        split; [reflexivity |]. unfold pair_of_section. now rewrite Nat.add_0_r.
      * apply SSorted_cons; [exact Hsorted |].
        apply Forall_forall. intros q Hq.
        apply (proj1 (Forall_forall _ _) Hfrom) in Hq as (_ & i & s & _ & ->).
        exists (Z.of_nat k + 1), (Z.of_nat (S k + i) + 1).
        unfold pair_of_section. rewrite !pair_index_extract.
        repeat split; lia.
      * cbn [length]. lia.
    + split; [exact Hshift |]. split; [exact Hsorted | cbn [length]; lia].
Qed.

(** X16: every pair [extract_all_primer_pairs] returns has a forward
    start and is the pair of one section of the page, numbered from 1 by
    the position of that section; the pairs come in the order of their
    sections, and there are no more pairs than sections. *)
Theorem extract_all_primer_pairs_sections (html_content : string) :
  Forall (fun p => forward_start p <> None /\
                   exists i section,
                     sections_of html_content !! i = Some section /\
                     p = _extract_single_pair section (Some (Z.of_nat i + 1)))
    (extract_all_primer_pairs html_content) /\
  StronglySorted index_before (extract_all_primer_pairs html_content) /\
  (length (extract_all_primer_pairs html_content)
   <= length (sections_of html_content))%nat.
Proof.
  unfold extract_all_primer_pairs.
  exact (collect_pairs_from (sections_of html_content) 0).
Qed.

Lemma extracted_first (html_content : string) (first : pair) (others : list pair) :
  extract_all_primer_pairs html_content = first :: others ->
  forward_start first <> None /\ pair_index first <> None.
Proof.
  intros Hpairs.
  pose proof (proj1 (collect_pairs_from (sections_of html_content) 0)) as Hfrom.
  change (collect_pairs (Z.of_nat 0 + 1) (sections_of html_content))
    with (extract_all_primer_pairs html_content) in Hfrom.
  rewrite Hpairs in Hfrom.
  apply Forall_cons in Hfrom as [(Hstart & i & s & _ & ->) _].
  split; [exact Hstart |]. unfold pair_of_section.
  rewrite pair_index_extract. discriminate.
Qed.

(** ** Comparison of the sequences *)

(** The pair the matcher returns is one of the pairs it was given. *)
Lemma first_match_elem (expected_fwd expected_rev expected_size : value)
    (pairs : list pair) (p : pair) :
  first_match expected_fwd expected_rev expected_size pairs = Ret (Some p) ->
  In p pairs.
Proof.
  induction pairs as [| q rest IH]; cbn [first_match]; [discriminate |].
  destruct (null_or_equal expected_fwd (forward_start q)) as [bf | e]; [| discriminate].
  destruct (null_or_equal expected_rev (reverse_start q)) as [br | e]; [| discriminate].
  destruct (null_or_equal expected_size (product_length q)) as [bs | e]; [| discriminate].
  cbn [obind]. destruct (bf && br && bs).
  - intros [= ->]. now left.
  - intros H. right. exact (IH H).
Qed.

Lemma find_matching_pair_elem (all_pairs : list pair) (job : dict) (p : pair)
    (found : bool) :
  find_matching_pair all_pairs job = Ret (Some p, found) -> In p all_pairs.
Proof.
  unfold find_matching_pair.
  destruct (first_match _ _ _ all_pairs) as [[q |] | e] eqn:Hrun; cbn [obind];
    [| | discriminate].
  - intros [= <- _]. exact (first_match_elem _ _ _ _ _ Hrun).
  - destruct all_pairs as [| q rest]; [discriminate |].
    intros [= <- _]. now left.
Qed.

(** The sequences of an extracted pair are runs of bases. *)
Lemma extract_single_pair_bases (html_content : string) (index : option Z) :
  bases (forward_sequence (_extract_single_pair html_content index)) /\
  bases (reverse_sequence (_extract_single_pair html_content index)).
Proof.
  unfold _extract_single_pair, forward_pattern, reverse_pattern.
  pose proof (primer_fields_spec "Forward" html_content) as Hf.
  pose proof (primer_fields_spec "Reverse" html_content) as Hr.
  destruct (search (primer_row "Forward") html_content) as [gf |];
    [destruct Hf as (fseq & fstart & fstop & -> & ? & ? & ?) | rewrite Hf];
    (destruct (search (primer_row "Reverse") html_content) as [gr |];
     [destruct Hr as (rseq & rstart & rstop & -> & ? & ? & ?) | rewrite Hr]);
    cbn; split; auto.
Qed.

Lemma extracted_bases (html_content : string) (p : pair) :
  In p (extract_all_primer_pairs html_content) ->
  bases (forward_sequence p) /\ bases (reverse_sequence p).
Proof.
  intros Hin.
  pose proof (proj1 (collect_pairs_from (sections_of html_content) 0)) as Hfrom.
  change (collect_pairs (Z.of_nat 0 + 1) (sections_of html_content))
    with (extract_all_primer_pairs html_content) in Hfrom.
  rewrite Forall_forall in Hfrom.
  destruct (Hfrom p (proj2 (list_elem_of_In _ _) Hin)) as (_ & i & section & _ & ->).
  apply extract_single_pair_bases.
Qed.

Lemma every_character_in (c : ascii) : In c every_character.
Proof.
  unfold every_character. rewrite <- (ascii_nat_embedding c).
  apply in_map, in_seq. pose proof (nat_ascii_bounded c). lia.
Qed.

Lemma upper_agrees_on_bases (c d : ascii) :
  cls_mem Base c = true -> upper_agrees c d = true.
Proof.
  assert (forallb (fun c => forallb (fun d => implb (cls_mem Base c) (upper_agrees c d))
                              every_character) every_character = true) as Hall
    by (vm_compute; reflexivity).
  rewrite forallb_forall in Hall.
  specialize (Hall c (every_character_in c)).
  rewrite forallb_forall in Hall.
  specialize (Hall d (every_character_in d)).
  intros Hc. now rewrite Hc in Hall.
Qed.

Lemma upper_cons (c : ascii) (s : string) :
  upper (String c s) = (upper (String c EmptyString) ++ upper s)%string.
Proof.
  cbn [upper].
  destruct (code c =? 223); [reflexivity |].
  destruct (between 97 122 c); [reflexivity |].
  destruct (between 224 254 c && negb (code c =? 247)); reflexivity.
Qed.

Lemma upper_cons_nonempty (c : ascii) (s : string) : upper (String c s) <> EmptyString.
Proof.
  cbn [upper].
  destruct (code c =? 223); [discriminate |].
  destruct (between 97 122 c); [discriminate |].
  destruct (between 224 254 c && negb (code c =? 247)); discriminate.
Qed.

(** On a run of bases, the comparison of the upper-cased texts is the
    comparison letter by letter, whatever the case. *)
Lemma upper_eqb_bases (s : string) :
  Forall (fun c => cls_mem Base c = true) (list_ascii_of_string s) ->
  forall e : string,
    String.eqb (upper s) (upper e) = equal_ignoring_case s e.
Proof.
  induction s as [| c s' IH]; intros Hbases e.
  - destruct e as [| d e']; [reflexivity |].
    cbn [equal_ignoring_case].
    pose proof (upper_cons_nonempty d e') as Hne.
    change (upper EmptyString) with EmptyString.
    destruct (upper (String d e')); [contradiction | reflexivity].
  - cbn [list_ascii_of_string] in Hbases.
    apply Forall_cons in Hbases as [Hc Hrest].
    destruct e as [| d e'].
    + cbn [equal_ignoring_case].
      pose proof (upper_cons_nonempty c s') as Hne.
      change (upper EmptyString) with EmptyString.
      destruct (upper (String c s')); [contradiction | reflexivity].
    + cbn [equal_ignoring_case]. rewrite <- (IH Hrest e').
      pose proof (upper_agrees_on_bases c d Hc) as Hcd. unfold upper_agrees in Hcd.
      rewrite (upper_cons c s'), (upper_cons d e').
      destruct (upper (String c EmptyString)) as [| a [| ? ?]]; try discriminate.
      destruct (upper (String d EmptyString)) as [| b [| b' tail]]; try discriminate.
      * change (String.eqb (String a (upper s')) (String b (upper e'))
                = same_letter c d && String.eqb (upper s') (upper e')).
        cbn [String.eqb].
        apply Bool.eqb_prop in Hcd. now rewrite Hcd.
      * apply andb_prop in Hcd as [Hab Hnot].
        apply negb_true_iff in Hab, Hnot.
        change (String.eqb (String a (upper s'))
                  (String b (String b' (tail ++ upper e')))
                = same_letter c d && String.eqb (upper s') (upper e')).
        cbn [String.eqb]. now rewrite Hab, Hnot.
Qed.

(** C7: when the expected sequences of both primers are present and the
    matched pair carries both sequences, [sequences_match] is the
    comparison of the upper-cased texts: it is [False] exactly when the
    upper-cased forward sequences or the upper-cased reverse sequences
    differ.  That comparison is exact up to the case of the letters: it
    holds when the expected and the extracted text have the same length and
    the same letter, in either case, at every position.  'ATCG' and 'atcg'
    are equal; 'ATCG' and 'ATCC', or 'ATCG' and 'ATCGA', are not. *)
Theorem validate_job_sequences_ignore_case (served : value -> option string)
    (job_index : option Z) (job : dict) (sent : list value) (html : string)
    (p : pair) (found : bool) (fwd_seq rev_seq fwd_primer rev_primer : string) :
  reaches_extraction served job html ->
  can_report job_index job ->
  find_matching_pair (extract_all_primer_pairs html) job = Ret (Some p, found) ->
  forward_sequence p = Some fwd_seq ->
  get "forward_primer" job = VStr fwd_primer -> fwd_primer <> EmptyString ->
  reverse_sequence p = Some rev_seq ->
  get "reverse_primer" job = VStr rev_primer -> rev_primer <> EmptyString ->
  exists fwd rev size seqs final,
    validate_job served job_index (mk_state job sent) = (Ret tt, final) /\
    job_info final !! "sequences_match" = Some (VBool seqs) /\
    job_info final !! "validation" = Some (checks fwd rev size seqs) /\
    seqs = String.eqb (upper fwd_seq) (upper fwd_primer)
           && String.eqb (upper rev_seq) (upper rev_primer) /\
    (seqs = false <->
     upper fwd_seq <> upper fwd_primer \/ upper rev_seq <> upper rev_primer) /\
    seqs = equal_ignoring_case fwd_seq fwd_primer
           && equal_ignoring_case rev_seq rev_primer /\
    sequence_differs (Some "ATCG") (VStr "atcg") = Ret false /\
    sequence_differs (Some "ATCG") (VStr "ATCC") = Ret true /\
    sequence_differs (Some "ATCG") (VStr "ATCGA") = Ret true.
Proof.
  intros Hreach Hrep Hfind Hfs Hfp Hfp' Hrs Hrp Hrp'.
  destruct (extracted_bases html p (find_matching_pair_elem _ _ _ _ Hfind))
    as [Hfb Hrb].
  rewrite Hfs in Hfb. rewrite Hrs in Hrb. cbn [bases] in Hfb, Hrb.
  destruct Hfb as [Hfs' Hfb]. destruct Hrb as [Hrs' Hrb].
  set (seqs := String.eqb (upper fwd_seq) (upper fwd_primer)
               && String.eqb (upper rev_seq) (upper rev_primer)).
  assert (sequence_check p job = Ret seqs) as Hq.
  { unfold sequence_check. rewrite Hfs, Hfp, Hrs, Hrp.
    rewrite !sequence_differs_present by assumption.
    cbn [obind]. now rewrite !negb_involutive. }
  destruct (validate_job_verdict served job_index job sent html p found seqs
              Hreach Hrep Hfind Hq) as (fwd & rev & size & _ & _ & _ & Hrun).
  exists fwd, rev, size, seqs. eexists. split; [exact Hrun |].
  cbn [job_info]. rewrite sequences_judged, validation_judged.
  split; [reflexivity |]. split; [reflexivity |]. split; [reflexivity |].
  split; [| split; [| repeat split; reflexivity]].
  - subst seqs. split.
    + intros Hfalse. apply andb_false_iff in Hfalse.
      destruct Hfalse as [H | H]; apply String.eqb_neq in H; tauto.
    + intros [H | H]; apply String.eqb_neq in H; rewrite H;
        [reflexivity | apply andb_false_r].
  - subst seqs. now rewrite !upper_eqb_bases by assumption.
Qed.

Lemma validate_job_sequences_ignore_case_witness :
  exists fwd rev size seqs final,
    validate_job (Jobs.always Samples.two_pair_page) (Some 1) (mk_state Jobs.job_78 [])
    = (Ret tt, final) /\
    job_info final !! "sequences_match" = Some (VBool seqs) /\
    job_info final !! "validation" = Some (checks fwd rev size seqs) /\
    seqs = String.eqb (upper "TTTTTGCTATGGCCGGCATC") (upper "tttttgctatggccggcatc")
           && String.eqb (upper "TGATTGCCATGCAGACCCAT") (upper "TGATTGCCATGCAGACCCAT") /\
    (seqs = false <->
     upper "TTTTTGCTATGGCCGGCATC" <> upper "tttttgctatggccggcatc"
     \/ upper "TGATTGCCATGCAGACCCAT" <> upper "TGATTGCCATGCAGACCCAT") /\
    seqs = equal_ignoring_case "TTTTTGCTATGGCCGGCATC" "tttttgctatggccggcatc"
           && equal_ignoring_case "TGATTGCCATGCAGACCCAT" "TGATTGCCATGCAGACCCAT" /\
    sequence_differs (Some "ATCG") (VStr "atcg") = Ret false /\
    sequence_differs (Some "ATCG") (VStr "ATCC") = Ret true /\
    sequence_differs (Some "ATCG") (VStr "ATCGA") = Ret true.
Proof.
  refine (validate_job_sequences_ignore_case (Jobs.always Samples.two_pair_page) (Some 1)
            Jobs.job_78 [] Samples.two_pair_page Jobs.pair_2 true
            "TTTTTGCTATGGCCGGCATC" "TGATTGCCATGCAGACCCAT"
            "tttttgctatggccggcatc" "TGATTGCCATGCAGACCCAT" _ _ _ _ _ _ _ _ _);
    by_evaluation.
Defined.

(** A record that expects another reverse primer: the sequences do not
    match and the job fails, although the three coordinates agree. *)
Example other_sequence_fails :
  match validate_job (Jobs.always Samples.two_pair_page) (Some 1)
          (mk_state (<["reverse_primer" := VStr "TGATTGCCATGCAGACCCAA"]> Jobs.job_78) [])
  with
  | (Ret _, final) =>
      Some (job_info final !! "sequences_match", status (job_info final))
  | (Raise _, _) => None
  end
  = Some (Some (VBool false), Some (VStr "fail")).
Proof. vm_compute. reflexivity. Qed.

(** ** The first pair *)

(** X17: [extract_coordinates] returns the first pair of the page, and a
    dictionary of nulls when the page has none: its forward start, and its
    index, are null exactly when no pair was extracted. *)
Theorem extract_coordinates_first (html_content : string) :
  extract_coordinates html_content
  = default null_pair (head (extract_all_primer_pairs html_content)) /\
  (forward_start (extract_coordinates html_content) = None
   <-> extract_all_primer_pairs html_content = []) /\
  (pair_index (extract_coordinates html_content) = None
   <-> extract_all_primer_pairs html_content = []).
Proof.
  unfold extract_coordinates.
  destruct (extract_all_primer_pairs html_content) as [| first others] eqn:Hpairs.
  - repeat split; reflexivity.
  - destruct (extracted_first _ _ _ Hpairs) as [Hstart Hindex].
    split; [reflexivity |].
    split; split; intros H; first [contradiction | discriminate].
Qed.

(** ** Size bands and sizes *)

(** X18: the band requested for a product size contains that size exactly
    when the size lies between 100 and 200 or between 300 and 500; for any
    other size the service is asked for products of another length. *)
Theorem determine_product_size_range_covers (product_size : Z) :
  fst (Submitter._determine_product_size_range product_size) <= product_size
  <= snd (Submitter._determine_product_size_range product_size)
  <-> 100 <= product_size <= 200 \/ 300 <= product_size <= 500.
Proof.
  unfold Submitter._determine_product_size_range.
  destruct (Z.ltb_spec product_size 150); [cbn [fst snd]; lia |].
  destruct (Z.leb_spec product_size 200); cbn [fst snd]; lia.
Qed.

(** ** Tallies of the analysis *)

Import Analysis.

Lemma count_records_spec (records : list dict) :
  forall t : tally,
    count_records (map Some records) t
    = Ret (mk_tally
             (passed_count t + Z.of_nat (length (filter (fun r => is_passed r = true) records)))
             (failed_count t + Z.of_nat (length (filter (fun r => is_failed r = true) records)))
             (all_records t ++ map listing records)).
Proof.
  induction records as [| record rest IH]; intros [p f l].
  - cbn. now rewrite !Z.add_0_r, app_nil_r.
  - cbn [map count_records count_record].
    rewrite !filter_cons. fold (is_passed record).
    assert (is_passed record = true -> is_failed record = false) as Hexcl.
    { unfold is_passed, is_failed, is_text.
      destruct (get "validation_status" record) as [| | | | s | |]; try discriminate.
      intros Hs. apply String.eqb_eq in Hs as ->. reflexivity. }
    destruct (is_passed record) eqn:Hp.
    + rewrite IH. cbn [passed_count failed_count all_records].
      rewrite decide_True by reflexivity.
      rewrite decide_False by (rewrite Hexcl by reflexivity; discriminate).
      cbn [length map]. f_equal. f_equal; [lia | now rewrite <- app_assoc].
    + fold (is_failed record). destruct (is_failed record) eqn:Hf.
      * rewrite IH. cbn [passed_count failed_count all_records].
        rewrite decide_False by discriminate. rewrite decide_True by reflexivity.
        cbn [length map]. f_equal. f_equal; [lia | now rewrite <- app_assoc].
      * rewrite IH. cbn [passed_count failed_count all_records].
        rewrite !decide_False by discriminate.
        cbn [map]. f_equal. f_equal. now rewrite <- app_assoc.
Qed.

Lemma passed_not_failed (record : dict) :
  is_passed record = true -> is_failed record = false.
Proof.
  unfold is_passed, is_failed, is_text.
  destruct (get "validation_status" record) as [| | | | s | |]; try discriminate.
  intros Hs. apply String.eqb_eq in Hs as ->. reflexivity.
Qed.

Lemma verdicts_bound (records : list dict) :
  (length (filter (fun r => is_passed r = true) records)
   + length (filter (fun r => is_failed r = true) records) <= length records)%nat /\
  ((length (filter (fun r => is_passed r = true) records)
    + length (filter (fun r => is_failed r = true) records) = length records)%nat
   <-> Forall (fun r => is_passed r = true \/ is_failed r = true) records).
Proof.
  induction records as [| record rest [IHle IHeq]].
  - split; [reflexivity |]. split; [intros _; apply Forall_nil_2 | reflexivity].
  - rewrite !filter_cons, Forall_cons.
    destruct (is_passed record) eqn:Hp.
    + rewrite (passed_not_failed _ Hp).
      rewrite decide_True by reflexivity. rewrite decide_False by discriminate.
      cbn [length]. split; [lia |].
      rewrite <- IHeq. split; [intros H; split; [now left | lia] | intros [_ H]; lia].
    + rewrite decide_False by discriminate.
      destruct (is_failed record) eqn:Hf.
      * rewrite decide_True by reflexivity. cbn [length]. split; [lia |].
        rewrite <- IHeq. split; [intros H; split; [now right | lia] | intros [_ H]; lia].
      * rewrite decide_False by discriminate. cbn [length]. split; [lia |].
        split; [intros H; lia | intros [[H | H] _]; discriminate].
Qed.

(** X19: on a list of records, [analyze_primer_validation] lists every
    record, in order, with its identifier ('MISSING_ID' when it has none)
    and its status; it counts as passed the records whose status is 'pass'
    and as failed those whose status is 'fail' or 'failed'.  The two counts
    add up to the number of records exactly when every record has one of
    these three statuses: a record that is 'processing', 'no_url' and the
    like is listed but not counted. *)
Theorem analyze_primer_validation_counts (records : list dict) :
  exists t,
    analyze_primer_validation (map Some records) = Ret t /\
    all_records t = map listing records /\
    passed_count t = Z.of_nat (length (filter (fun r => is_passed r = true) records)) /\
    failed_count t = Z.of_nat (length (filter (fun r => is_failed r = true) records)) /\
    passed_count t + failed_count t <= Z.of_nat (length records) /\
    (passed_count t + failed_count t = Z.of_nat (length records)
     <-> Forall (fun r => is_passed r = true \/ is_failed r = true) records).
Proof.
  eexists. unfold analyze_primer_validation. rewrite count_records_spec.
  split; [reflexivity |]. cbn [passed_count failed_count all_records app].
  destruct (verdicts_bound records) as [Hle Heq].
  repeat split; try lia.
  - intros H. apply Heq. lia.
  - intros H. apply Heq in H. lia.
Qed.

Lemma count_records_null (before : list dict) (after : list (option dict)) (t : tally) :
  count_records (map Some before ++ None :: after) t = Raise AttributeError.
Proof.
  revert t. induction before as [| record rest IH]; intros t; [reflexivity |].
  cbn [map app count_records].
  destruct (count_record (Some record) t) as [t' | e] eqn:Hstep; [apply IH |].
  unfold count_record in Hstep.
  destruct (is_text "pass" _); [discriminate |].
  destruct (is_text "fail" _ || is_text "failed" _); discriminate.
Qed.

(** X20: a null in the list makes [analyze_primer_validation] raise
    [AttributeError] when it comes to it, whatever it has counted so far. *)
Theorem analyze_primer_validation_null (before : list dict) (after : list (option dict)) :
  analyze_primer_validation (map Some before ++ None :: after) = Raise AttributeError.
Proof. apply count_records_null. Qed.

(** ** From the batch to the analysis *)



(** ** The summary and the returned list *)













(** Statuses of the batch when the third job completes first: the results
    are in the order of the input, and the checkpoint written after the
    second completion holds the two jobs completed by then. *)
Example batch_out_of_order :
  match validate_all_jobs Jobs.batch_served Jobs.batch 0 None 2 [2; 0; 1]%nat with
  | (Ret results, files) =>
      Some (map (fun j => j ≫= status) results,
            map (map (fun j => j ≫= status)) files)
  | (Raise _, _) => None
  end
  = Some ([Some (VStr "pass"); Some (VStr "no_job_key"); Some (VStr "fail")],
          [[Some (VStr "pass"); Some (VStr "fail")];
           [Some (VStr "pass"); Some (VStr "no_job_key"); Some (VStr "fail")]]).
Proof. vm_compute. reflexivity. Qed.

(** A record that is not validated, for want of a job key, and that holds
    a text where the number of pairs is expected: the results are written,
    in the order of the input, and the summary raises before the list is
    returned. *)
Example summary_raises_after_the_last_write :
  match validate_all_jobs Jobs.batch_served [Jobs.job_78; Cases.job_stale_total]
          0 None 1000 [1; 0]%nat with
  | (outcome, files) =>
      (match outcome with Ret _ => None | Raise e => Some e end,
       map (map (fun j => j ≫= status)) files)
  end
  = (Some TypeError, [[Some (VStr "pass"); Some (VStr "no_job_key")]]).
Proof. vm_compute. reflexivity. Qed.

(** ** The analysis of the file of a batch *)



(** ** Submission *)

Import Pattern Submission Records.

Lemma rep1_taken {R : Type} (p : ascii -> bool) (cont : string -> string -> option R)
    (s : string) (r : R) :
  rep1 p cont s = Some r ->
  exists g rest, cont g rest = Some r /\ g <> EmptyString.
Proof.
  unfold rep1. destruct s as [| c s']; [discriminate |].
  destruct (p c); [| discriminate].
  intros H. destruct (rep_inv _ _ _ _ _ H) as (extra & rest & Hcont & _).
  exists (String c extra), rest. split; [exact Hcont | discriminate].
Qed.

(** No captured text is empty. *)
Lemma match_at_captures (pattern : list piece) :
  forall (s : string) (caps caps' : list string) (rest : string),
    match_at pattern s caps = Some (caps', rest) ->
    exists groups,
      caps' = caps ++ groups /\ Forall (fun g => g <> EmptyString) groups.
Proof.
  induction pattern as [| a pattern IH]; intros s caps caps' rest; cbn [match_at].
  - intros [= <- _]. exists []. rewrite app_nil_r. split; [reflexivity | apply Forall_nil_2].
  - destruct a as [text | text | p | p | p | p].
    + destruct (strip_exact text s); [apply IH | discriminate].
    + destruct (strip_literal text s); [apply IH | discriminate].
    + destruct s as [| c s']; [discriminate |].
      destruct (p c); [apply IH | discriminate].
    + intros H. destruct (rep_inv _ _ _ _ _ H) as (extra & rest' & Hcont & _).
      exact (IH _ _ _ _ Hcont).
    + intros H. destruct (rep1_taken _ _ _ _ H) as (g & rest' & Hcont & _).
      exact (IH _ _ _ _ Hcont).
    + intros H. destruct (rep1_taken _ _ _ _ H) as (g & rest' & Hcont & Hg).
      destruct (IH _ _ _ _ Hcont) as (groups & -> & Hall).
      exists (g :: groups). rewrite <- app_assoc. split; [reflexivity |].
      apply Forall_cons_2; assumption.
Qed.

Lemma find_nonempty (pattern : list piece) (s g : string) :
  find pattern s = Some g -> g <> EmptyString.
Proof.
  induction s as [| c s' IH]; cbn [find];
    destruct (match_at pattern _ []) as [[caps rest] |] eqn:Hat;
    try discriminate; try exact IH;
    destruct (match_at_captures _ _ _ _ _ Hat) as (groups & -> & Hall);
    cbn [app] in *;
    destruct groups as [| g' [| g'' more]]; try discriminate;
    intros [= <-]; apply Forall_cons in Hall; tauto.
Qed.

Lemma unescape_amp_head (c : ascii) (s : string) :
  exists c' t, unescape_amp (String c s) = String c' t.
Proof.
  cbn [unescape_amp].
  repeat match goal with
         | |- context [match ?x with EmptyString => _ | String _ _ => _ end] =>
             destruct x
         | |- context [match ?x with Ascii _ _ _ _ _ _ _ _ => _ end] => destruct x
         | |- context [if ?b then _ else _] => destruct b
         end;
    do 2 eexists; reflexivity.
Qed.

Lemma unescape_amp_nonempty (s : string) :
  s <> EmptyString -> unescape_amp s <> EmptyString.
Proof.
  destruct s as [| c s']; [contradiction |]. intros _.
  destruct (unescape_amp_head c s') as (c' & t & ->). discriminate.
Qed.

(** What the three strategies find: a key is never empty, neither is a
    URL, and a key never comes without a URL. *)
Lemma locate_job_found (html_content : string) :
  (forall key, fst (locate_job html_content) = Some key -> key <> EmptyString) /\
  (forall url, snd (locate_job html_content) = Some url -> url <> EmptyString) /\
  (forall key, fst (locate_job html_content) = Some key ->
               exists url, snd (locate_job html_content) = Some url).
Proof.
  unfold locate_job.
  pose proof (find_nonempty meta_refresh html_content) as Hm.
  pose proof (find_nonempty hidden_input html_content) as H1.
  pose proof (find_nonempty hidden_input_swapped html_content) as H1'.
  pose proof (find_nonempty job_id_label html_content) as H2.
  destruct (find meta_refresh html_content) as [raw |];
    cbn [fmap option_fmap option_map].
  - pose proof (unescape_amp_nonempty raw (Hm _ eq_refl)) as Hu.
    pose proof (find_nonempty key_in_url (unescape_amp raw)) as H0.
    destruct (unescape_amp raw) as [| uc us]; [contradiction |].
    destruct (find key_in_url _) as [[| ? ?] |];
      destruct (find hidden_input _) as [[| ? ?] |];
      destruct (find hidden_input_swapped _) as [[| ? ?] |];
      destruct (find job_id_label _) as [[| ? ?] |];
      try (exfalso;
           match goal with
           | H : forall g, Some EmptyString = Some g -> g <> EmptyString |- _ =>
               exact (H _ eq_refl eq_refl)
           end);
      cbn [missing negb andb fst snd default];
      (split; [intros ? [= <-]; discriminate |]);
      (split; [intros ? [= <-]; discriminate | eauto]).
  - destruct (find hidden_input _) as [[| ? ?] |];
      destruct (find hidden_input_swapped _) as [[| ? ?] |];
      destruct (find job_id_label _) as [[| ? ?] |];
      try (exfalso;
           match goal with
           | H : forall g, Some EmptyString = Some g -> g <> EmptyString |- _ =>
               exact (H _ eq_refl eq_refl)
           end);
      cbn [missing negb andb fst snd default];
      (split; [intros ? [=]; subst; discriminate |]);
      (split; [intros ? [=]; subst; discriminate | eauto]).
Qed.

Lemma submit_job_inv (now : string) (row_data : dict) (reply : answer) (r : dict) :
  submit_job now row_data reply = Ret r ->
  exists primer_id accession forward_primer reverse_primer size product_size,
    row_data !! "primer_id" = Some primer_id /\
    row_data !! "accession" = Some accession /\
    row_data !! "left_primer_seq" = Some forward_primer /\
    row_data !! "right_primer_seq" = Some reverse_primer /\
    row_data !! "product_size" = Some size /\
    py_int size = Ret product_size /\
    r = answered reply
          (initial_record now primer_id accession forward_primer reverse_primer
             product_size (get "left_primer_start" row_data)
             (get "right_primer_start" row_data)).
Proof.
  unfold submit_job, column.
  destruct (row_data !! "primer_id") as [primer_id |]; [| discriminate].
  destruct (row_data !! "accession") as [accession |]; [| discriminate].
  destruct (row_data !! "left_primer_seq") as [forward_primer |]; [| discriminate].
  destruct (row_data !! "right_primer_seq") as [reverse_primer |]; [| discriminate].
  destruct (row_data !! "product_size") as [size |]; [| discriminate].
  cbn [obind]. destruct (py_int size) as [product_size |] eqn:Hsize; [| discriminate].
  cbn [obind]. intros Hr.
  exists primer_id, accession, forward_primer, reverse_primer, size, product_size.
  repeat (split; [reflexivity |]).
  unfold answered, initial_record.
  destruct reply as [html_content | message].
  - destruct (locate_job html_content) as [job_key results_url]. cbn [fst snd].
    now injection Hr as <-.
  - now injection Hr as <-.
Qed.

#[local] Ltac get_field :=
  unfold get, answered, initial_record;
  rewrite ?lookup_insert_ne by discriminate; rewrite lookup_insert_eq.

Lemma answered_page_fields (html_content : string) (base : dict) :
  get "status" (answered (Page html_content) base)
  = VStr (if missing (fst (locate_job html_content))
          then "failed_extraction" else "submitted") /\
  get "job_key" (answered (Page html_content) base)
  = of_str (fst (locate_job html_content)) /\
  get "results_url" (answered (Page html_content) base)
  = of_str (snd (locate_job html_content)).
Proof. repeat split; get_field; reflexivity. Qed.

Lemma answered_failure_fields (now message : string)
    (primer_id accession forward_primer reverse_primer : value) (product_size : Z)
    (left_primer_start right_primer_start : value) :
  let r := answered (Failure message)
             (initial_record now primer_id accession forward_primer reverse_primer
                product_size left_primer_start right_primer_start) in
  get "status" r = VStr "failed" /\ get "error" r = VStr message /\
  get "job_key" r = VNone /\ get "results_url" r = VNone.
Proof. repeat split; get_field; reflexivity. Qed.

(** X22: a record returned by [submit_job] has one of three statuses; it
    is 'submitted' exactly when it holds a job key, which is then a text
    that is not empty, and a record with a job key also holds a results
    URL that is not empty. *)
Theorem submit_job_key_and_url (now : string) (row_data : dict) (reply : answer)
    (r : dict) :
  submit_job now row_data reply = Ret r ->
  (get "status" r = VStr "submitted" \/ get "status" r = VStr "failed_extraction"
   \/ get "status" r = VStr "failed") /\
  (get "status" r = VStr "submitted" <-> get "job_key" r <> VNone) /\
  (get "job_key" r <> VNone ->
   exists key url,
     get "job_key" r = VStr key /\ key <> EmptyString /\
     get "results_url" r = VStr url /\ url <> EmptyString).
Proof.
  intros Hr.
  destruct (submit_job_inv _ _ _ _ Hr)
    as (pid & acc & fp & rp & size & n & _ & _ & _ & _ & _ & _ & ->).
  destruct reply as [html_content | message].
  - destruct (answered_page_fields html_content
                (initial_record now pid acc fp rp n (get "left_primer_start" row_data)
                   (get "right_primer_start" row_data))) as (-> & -> & ->).
    destruct (locate_job_found html_content) as (Hkey & Hurl & Hboth).
    destruct (fst (locate_job html_content)) as [key |].
    + pose proof (Hkey key eq_refl) as Hne.
      destruct (Hboth key eq_refl) as [url Hu]. rewrite Hu in *.
      pose proof (Hurl url eq_refl) as Hune.
      assert (missing (Some key) = false) as ->
        by (destruct key; [contradiction | reflexivity]).
      cbn [of_str]. split; [now left |].
      split; [split; [discriminate | reflexivity] |].
      intros _. exists key, url. auto.
    + cbn [missing of_str]. split; [right; now left |].
      split; [split; [discriminate | contradiction] | contradiction].
  - destruct (answered_failure_fields now message pid acc fp rp n
                (get "left_primer_start" row_data) (get "right_primer_start" row_data))
      as (-> & _ & -> & _).
    split; [right; now right |].
    split; [split; [discriminate | contradiction] | contradiction].
Qed.

Lemma returned_of (o : outcome dict) :
  match o with Ret _ => true | Raise _ => false end = true ->
  o = Ret (Submitted.returned o).
Proof. destruct o; [reflexivity | discriminate]. Qed.

Lemma submit_job_key_and_url_witness :
  (get "status" Submitted.submitted_78 = VStr "submitted"
   \/ get "status" Submitted.submitted_78 = VStr "failed_extraction"
   \/ get "status" Submitted.submitted_78 = VStr "failed") /\
  (get "status" Submitted.submitted_78 = VStr "submitted"
   <-> get "job_key" Submitted.submitted_78 <> VNone) /\
  (get "job_key" Submitted.submitted_78 <> VNone ->
   exists key url,
     get "job_key" Submitted.submitted_78 = VStr key /\ key <> EmptyString /\
     get "results_url" Submitted.submitted_78 = VStr url /\ url <> EmptyString).
Proof.
  refine (submit_job_key_and_url Submitted.now_78 Replies.row_78
            (Page Replies.redirect_page) Submitted.submitted_78 _).
  apply returned_of. vm_compute. reflexivity.
Defined.

(** When the matcher raises, so does [validate_job], with the number of
    pairs stored. *)
Lemma matcher_raise_run (served : value -> option string) (job_index : option Z)
    (job : dict) (sent : list value) (html : string) (e : exn) :
  reaches_extraction served job html ->
  can_report job_index job ->
  find_matching_pair (extract_all_primer_pairs html) job = Raise e ->
  validate_job served job_index (mk_state job sent)
  = (Raise e,
     mk_state (<["total_primer_pairs_found" :=
                   VInt (Z.of_nat (length (extract_all_primer_pairs html)))]> job)
       (sent ++ [get "results_url" job])).
Proof.
  intros Hreach Hrep Hfind.
  rewrite (validate_job_reaches served job_index job sent html Hreach Hrep).
  unfold validate_page.
  destruct (extract_all_primer_pairs html) as [| p0 rest] eqn:Hpairs;
    [rewrite find_matching_pair_nil in Hfind; discriminate |].
  unfold bind at 1. unfold store at 1.
  unfold bind at 1. unfold read. unfold bind at 1. unfold lift at 1.
  cbn [job_info requests].
  rewrite find_matching_pair_insert by (simpl; intuition discriminate).
  now rewrite Hfind.
Qed.

(** X23: [submit_job] copies the expected forward start of the row into
    the record as it is, so the NaN that stands for an empty cell of the
    table stays a NaN.  Such a record cannot be validated: as soon as the
    page of its results yields a pair, [int()] is applied to the NaN and
    [validate_job] raises [ValueError], after its request, with the number
    of pairs stored and no status. *)
Theorem empty_start_cell_is_not_validated (now : string) (row_data : dict)
    (reply : answer) (r : dict) (served : value -> option string)
    (job_index : option Z) (sent : list value) (html : string) :
  submit_job now row_data reply = Ret r ->
  row_data !! "left_primer_start" = Some (VFloat S754_nan) ->
  reaches_extraction served r html ->
  extract_all_primer_pairs html <> [] ->
  get "left_primer_start" r = VFloat S754_nan /\
  validate_job served job_index (mk_state r sent)
  = (Raise ValueError,
     mk_state (<["total_primer_pairs_found" :=
                   VInt (Z.of_nat (length (extract_all_primer_pairs html)))]> r)
       (sent ++ [get "results_url" r])).
Proof.
  intros Hr Hnan Hreach Hpairs.
  destruct (submit_job_inv _ _ _ _ Hr)
    as (pid & acc & fp & rp & size & n & _ & _ & _ & _ & _ & _ & Hrec).
  assert (r !! "primer_id" = Some pid) as Hpid.
  { rewrite Hrec. destruct reply; unfold answered, initial_record;
      rewrite !lookup_insert_ne by discriminate; apply lookup_insert_eq. }
  assert (get "left_primer_start" r = VFloat S754_nan) as Hleft.
  { rewrite Hrec. destruct reply; get_field; now rewrite Hnan. }
  split; [exact Hleft |].
  apply matcher_raise_run; [exact Hreach | right; eauto |].
  destruct (extract_all_primer_pairs html) as [| first others] eqn:Hextracted;
    [contradiction |].
  destruct (extracted_first html first others Hextracted) as [Hstart _].
  unfold find_matching_pair. cbn [first_match]. rewrite Hleft.
  destruct (forward_start first) as [x |]; [reflexivity | contradiction].
Qed.

Lemma empty_start_cell_is_not_validated_witness :
  get "left_primer_start" Submitted.submitted_empty_start = VFloat S754_nan /\
  validate_job (Jobs.always Samples.two_pair_page) (Some 1)
    (mk_state Submitted.submitted_empty_start [])
  = (Raise ValueError,
     mk_state (<["total_primer_pairs_found" :=
                   VInt (Z.of_nat (length (extract_all_primer_pairs
                                             Samples.two_pair_page)))]>
                 Submitted.submitted_empty_start)
       ([] ++ [get "results_url" Submitted.submitted_empty_start])).
Proof.
  refine (empty_start_cell_is_not_validated Submitted.now_78 Replies.row_empty_start
            (Page Replies.redirect_page) Submitted.submitted_empty_start
            (Jobs.always Samples.two_pair_page) (Some 1) [] Samples.two_pair_page
            _ _ _ _).
  - apply returned_of. vm_compute. reflexivity.
  - vm_compute. reflexivity.
  - repeat split; first [discriminate | vm_compute; reflexivity].
  - vm_compute. discriminate.
Defined.

(** X24: for a record that [submit_job] returned as 'submitted',
    [validate_job] always sends its request, to the results URL of the
    record, whether it then returns or raises; and the record has the job
    key that [process_job] asks for. *)
Theorem submitted_job_is_fetched (now : string) (row_data : dict) (reply : answer)
    (r : dict) (served : value -> option string) (job_index : option Z)
    (sent : list value) :
  submit_job now row_data reply = Ret r ->
  get "status" r = VStr "submitted" ->
  truthy (get "job_key" r) = true /\
  requests (snd (validate_job served job_index (mk_state r sent)))
  = sent ++ [get "results_url" r].
Proof.
  intros Hr Hstatus.
  destruct (submit_job_inv _ _ _ _ Hr)
    as (pid & acc & fp & rp & size & n & _ & _ & _ & _ & _ & _ & Hrec).
  assert (r !! "primer_id" = Some pid) as Hpid.
  { rewrite Hrec. destruct reply; unfold answered, initial_record;
      rewrite !lookup_insert_ne by discriminate; apply lookup_insert_eq. }
  assert (get "job_key" r <> VNone) as Hkey.
  { destruct reply as [html_content | message].
    - rewrite Hrec in Hstatus |- *.
      destruct (answered_page_fields html_content
                  (initial_record now pid acc fp rp n (get "left_primer_start" row_data)
                     (get "right_primer_start" row_data))) as (Hs & Hk & _).
      rewrite Hs in Hstatus. rewrite Hk.
      destruct (fst (locate_job html_content)) as [[| c key] |]; try discriminate.
    - rewrite Hrec in Hstatus.
      destruct (answered_failure_fields now message pid acc fp rp n
                  (get "left_primer_start" row_data) (get "right_primer_start" row_data))
        as (Hs & _).
      rewrite Hs in Hstatus. discriminate. }
  assert (exists key url,
             get "job_key" r = VStr key /\ key <> EmptyString /\
             get "results_url" r = VStr url /\ url <> EmptyString)
    as (key & url & Hk & Hkne & Hu & Hune).
  { destruct reply as [html_content | message].
    - rewrite Hrec in Hkey |- *.
      destruct (answered_page_fields html_content
                  (initial_record now pid acc fp rp n (get "left_primer_start" row_data)
                     (get "right_primer_start" row_data))) as (_ & Hk & Hu).
      rewrite Hk in Hkey |- *. rewrite Hu.
      destruct (locate_job_found html_content) as (Hkne & Hune & Hboth).
      destruct (fst (locate_job html_content)) as [key |]; [| contradiction].
      destruct (Hboth key eq_refl) as [url Hurl]. rewrite Hurl in *.
      exists key, url. repeat split; auto.
    - exfalso. apply Hkey. rewrite Hrec.
      now destruct (answered_failure_fields now message pid acc fp rp n
                      (get "left_primer_start" row_data)
                      (get "right_primer_start" row_data)) as (_ & _ & -> & _). }
  assert (forall s : string, s <> EmptyString -> truthy (VStr s) = true) as Htruthy
    by (intros [| c s] Hs; [contradiction | reflexivity]).
  split; [rewrite Hk; now apply Htruthy |].
  rewrite validate_job_fetches;
    [| rewrite Hu; now apply Htruthy | right; eauto].
  destruct (served (get "results_url" r)) as [[| c html] |]; try reflexivity.
  destruct (contains "processing" _ || contains "queued" _); [reflexivity |].
  destruct (contains "No primer pairs found" _); [reflexivity |].
  destruct (validate_page job_index (String c html)
              (mk_state r (sent ++ [get "results_url" r]))) as [o final] eqn:Hpage.
  exact (validate_page_same_requests _ _ _ _ _ Hpage).
Qed.

Lemma submitted_job_is_fetched_witness :
  truthy (get "job_key" Submitted.submitted_78) = true /\
  requests (snd (validate_job (Jobs.always Samples.plain_page) (Some 1)
                   (mk_state Submitted.submitted_78 [])))
  = [] ++ [get "results_url" Submitted.submitted_78].
Proof.
  refine (submitted_job_is_fetched Submitted.now_78 Replies.row_78
            (Page Replies.redirect_page) Submitted.submitted_78
            (Jobs.always Samples.plain_page) (Some 1) [] _ _).
  - apply returned_of. vm_compute. reflexivity.
  - vm_compute. reflexivity.
Defined.

(** X25: when the request of [submit_job] fails, the record is 'failed'
    with the message of the exception, without job key or results URL; on
    such a record [process_job] sends nothing and marks it 'no_job_key'. *)
Theorem failed_submission_is_not_validated (now : string) (row_data : dict)
    (message : string) (r : dict) (served : nat -> value -> option string) (idx : nat) :
  submit_job now row_data (Failure message) = Ret r ->
  get "status" r = VStr "failed" /\ get "error" r = VStr message /\
  get "job_key" r = VNone /\ get "results_url" r = VNone /\
  process_job served idx r = Ret (idx, <["validation_status" := VStr "no_job_key"]> r).
Proof.
  intros Hr.
  destruct (submit_job_inv _ _ _ _ Hr)
    as (pid & acc & fp & rp & size & n & _ & _ & _ & _ & _ & _ & ->).
  destruct (answered_failure_fields now message pid acc fp rp n
              (get "left_primer_start" row_data) (get "right_primer_start" row_data))
    as (Hs & He & Hk & Hu).
  repeat (split; [assumption |]).
  unfold process_job. rewrite Hk. cbn [truthy negb].
  assert (answered (Failure message)
            (initial_record now pid acc fp rp n (get "left_primer_start" row_data)
               (get "right_primer_start" row_data)) !! "primer_id" = Some pid) as ->
    by (unfold answered, initial_record;
        rewrite !lookup_insert_ne by discriminate; apply lookup_insert_eq).
  reflexivity.
Qed.

Lemma failed_submission_is_not_validated_witness :
  get "status" Submitted.failed_78 = VStr "failed" /\
  get "error" Submitted.failed_78 = VStr "timed out" /\
  get "job_key" Submitted.failed_78 = VNone /\
  get "results_url" Submitted.failed_78 = VNone /\
  process_job Jobs.batch_served 0 Submitted.failed_78
  = Ret (0%nat, <["validation_status" := VStr "no_job_key"]> Submitted.failed_78).
Proof.
  refine (failed_submission_is_not_validated Submitted.now_78 Replies.row_78
            "timed out" Submitted.failed_78 Jobs.batch_served 0 _).
  apply returned_of. vm_compute. reflexivity.
Defined.

(** X26: when the row lacks one of the five columns [submit_job] reads
    with a subscript, it raises [KeyError] and returns no record. *)
Theorem submit_job_missing_column (now : string) (row_data : dict) (reply : answer)
    (key : string) :
  In key required_columns ->
  row_data !! key = None ->
  submit_job now row_data reply = Raise KeyError.
Proof.
  intros Hkey Hnone. unfold submit_job, column.
  unfold required_columns in Hkey. simpl in Hkey.
  destruct (row_data !! "primer_id") eqn:H1; [| reflexivity].
  destruct (row_data !! "accession") eqn:H2; [| reflexivity].
  destruct (row_data !! "left_primer_seq") eqn:H3; [| reflexivity].
  destruct (row_data !! "right_primer_seq") eqn:H4; [| reflexivity].
  destruct (row_data !! "product_size") eqn:H5; [| reflexivity].
  exfalso. intuition (subst; congruence).
Qed.

Lemma submit_job_missing_column_witness :
  submit_job Submitted.now_78 (delete "accession" Replies.row_78)
    (Page Replies.redirect_page) = Raise KeyError.
Proof.
  refine (submit_job_missing_column Submitted.now_78 (delete "accession" Replies.row_78)
            (Page Replies.redirect_page) "accession" _ _).
  - unfold required_columns. simpl. tauto.
  - apply lookup_delete_eq.
Defined.

(** X27: the results URL of a job is the one of the redirection, with
    its escaped ampersands restored, whenever the answer holds a
    redirection, and a key found in that URL is the job key, whatever
    fields and labels the page holds beside it; without redirection the
    URL is built from the address of the service and the key found. *)
Theorem locate_job_url (html_content : string) :
  match find meta_refresh html_content with
  | Some raw =>
      snd (locate_job html_content) = Some (unescape_amp raw) /\
      forall key, find key_in_url (unescape_amp raw) = Some key ->
                  fst (locate_job html_content) = Some key
  | None =>
      forall key, fst (locate_job html_content) = Some key ->
                  snd (locate_job html_content)
                  = Some (submit_url ++ "?job_key=" ++ key)%string
  end.
Proof.
  unfold locate_job.
  pose proof (find_nonempty meta_refresh html_content) as Hm.
  pose proof (find_nonempty hidden_input html_content) as H1.
  pose proof (find_nonempty hidden_input_swapped html_content) as H1'.
  pose proof (find_nonempty job_id_label html_content) as H2.
  destruct (find meta_refresh html_content) as [raw |];
    cbn [fmap option_fmap option_map].
  - pose proof (unescape_amp_nonempty raw (Hm _ eq_refl)) as Hu.
    pose proof (find_nonempty key_in_url (unescape_amp raw)) as H0.
    destruct (unescape_amp raw) as [| uc us]; [contradiction |].
    destruct (find key_in_url _) as [[| ? ?] |];
      destruct (find hidden_input _) as [[| ? ?] |];
      destruct (find hidden_input_swapped _) as [[| ? ?] |];
      destruct (find job_id_label _) as [[| ? ?] |];
      try (exfalso;
           match goal with
           | H : forall g, Some EmptyString = Some g -> g <> EmptyString |- _ =>
               exact (H _ eq_refl eq_refl)
           end);
      cbn [missing negb andb fst snd default];
      (split; [reflexivity | intros ? [= <-]; reflexivity]).
  - destruct (find hidden_input _) as [[| ? ?] |];
      destruct (find hidden_input_swapped _) as [[| ? ?] |];
      destruct (find job_id_label _) as [[| ? ?] |];
      try (exfalso;
           match goal with
           | H : forall g, Some EmptyString = Some g -> g <> EmptyString |- _ =>
               exact (H _ eq_refl eq_refl)
           end);
      cbn [missing negb andb fst snd default];
      intros ? [= <-]; reflexivity.
Qed.

(** ** Exceptions inside [validate_job] *)

(** X28: when the matcher raises, [validate_job] raises the same
    exception after its request: the record has gained the number of pairs
    found and nothing else, in particular no [validation_status]. *)
Theorem validate_job_matcher_raises (served : value -> option string)
    (job_index : option Z) (job : dict) (sent : list value) (html : string) (e : exn) :
  reaches_extraction served job html ->
  can_report job_index job ->
  find_matching_pair (extract_all_primer_pairs html) job = Raise e ->
  validate_job served job_index (mk_state job sent)
  = (Raise e,
     mk_state (<["total_primer_pairs_found" :=
                   VInt (Z.of_nat (length (extract_all_primer_pairs html)))]> job)
       (sent ++ [get "results_url" job])).
Proof.
  intros Hreach Hrep Hfind.
  rewrite (validate_job_reaches served job_index job sent html Hreach Hrep).
  unfold validate_page.
  destruct (extract_all_primer_pairs html) as [| p0 rest] eqn:Hpairs;
    [rewrite find_matching_pair_nil in Hfind; discriminate |].
  unfold bind at 1. unfold store at 1.
  unfold bind at 1. unfold read. unfold bind at 1. unfold lift at 1.
  cbn [job_info requests].
  rewrite find_matching_pair_insert by (simpl; intuition discriminate).
  now rewrite Hfind.
Qed.

Lemma validate_job_matcher_raises_witness :
  validate_job (Jobs.always Samples.two_pair_page) (Some 1)
    (mk_state Cases.job_bad_start [])
  = (Raise ValueError,
     mk_state (<["total_primer_pairs_found" :=
                   VInt (Z.of_nat (length (extract_all_primer_pairs Samples.two_pair_page)))]>
                 Cases.job_bad_start)
       ([] ++ [get "results_url" Cases.job_bad_start])).
Proof.
  refine (validate_job_matcher_raises (Jobs.always Samples.two_pair_page) (Some 1)
            Cases.job_bad_start [] Samples.two_pair_page ValueError _ _ _).
  - by_evaluation.
  - right. eexists. vm_compute. reflexivity.
  - vm_compute. reflexivity.
Defined.

(** ** The file of the submitter *)

Import SubmitAll.

Lemma submit_job_keys (now : string) (row_data : dict) (reply : answer) (r : dict) :
  submit_job now row_data reply = Ret r ->
  is_Some (r !! "job_key") /\ is_Some (r !! "primer_id").
Proof.
  intros Hr.
  destruct (submit_job_inv _ _ _ _ Hr)
    as (pid & acc & fp & rp & size & n & _ & _ & _ & _ & _ & _ & ->).
  destruct reply; split; unfold answered, initial_record;
    rewrite ?lookup_insert_ne by discriminate; rewrite lookup_insert_eq; eauto.
Qed.

(** The loop appends the results in the order of completion and saves
    them, at the latest, when the counter reaches the total. *)
Lemma collect_all_in_order (total : Z) (pool : list (outcome dict)) (order : list nat) :
  forall (records : list dict) (st : saving),
    Forall2 (fun i r => pool !! i = Some (Ret r) /\
                        is_Some (r !! "job_key") /\ is_Some (r !! "primer_id"))
      order records ->
    order <> [] ->
    count st + Z.of_nat (length order) = total ->
    exists earlier,
      collect_all total pool order st
      = (Ret tt,
         mk_saving (completed_jobs st ++ records) total
           (earlier ++ [completed_jobs st ++ records])) /\
      exists between, earlier = saved st ++ between.
Proof.
  induction order as [| i later IH]; intros records st Hall Hne Htotal;
    [contradiction |].
  apply Forall2_cons_inv_l in Hall as (r & rest & (Hi & [k Hk] & [p Hp]) & Hrest & ->).
  cbn [collect_all]. rewrite Hi. unfold collect. rewrite Hk, Hp.
  cbn [count completed_jobs saved length] in *.
  destruct later as [| j later'].
  - apply Forall2_nil_inv_l in Hrest as ->.
    assert (count st + 1 = total) as Hlast by (cbn [length] in Htotal; lia).
    rewrite (proj2 (Z.eqb_eq _ _) Hlast), orb_true_r.
    cbn [collect_all]. exists (saved st). rewrite Hlast.
    split; [reflexivity | exists []; now rewrite app_nil_r].
  - destruct (((count st + 1) mod 10 =? 0) || (count st + 1 =? total)).
    + destruct (IH rest (mk_saving (completed_jobs st ++ [r]) (count st + 1)
                           (saved st ++ [completed_jobs st ++ [r]])) Hrest)
        as (earlier & Hrun & between & Hbetween);
        [discriminate | cbn [count length] in *; lia |].
      cbn [completed_jobs saved] in *. rewrite <- app_assoc in Hrun. cbn [app] in Hrun.
      exists earlier. split; [exact Hrun |].
      exists ([completed_jobs st ++ [r]] ++ between).
      now rewrite Hbetween, <- app_assoc.
    + destruct (IH rest (mk_saving (completed_jobs st ++ [r]) (count st + 1) (saved st))
                  Hrest)
        as (earlier & Hrun & between & Hbetween);
        [discriminate | cbn [count length] in *; lia |].
      cbn [completed_jobs saved] in *. rewrite <- app_assoc in Hrun. cbn [app] in Hrun.
      exists earlier. split; [exact Hrun | eauto].
Qed.

(** X29: when every submission returns, the file of the submitter ends
    up holding the records of all rows in the order in which the
    submissions completed, which need not be the order of the rows; the
    file was first written with an empty list. *)
Theorem submit_rows_in_completion_order (now : nat -> string) (reply : nat -> answer)
    (rows : list dict) (order : list nat) (records : list dict) :
  rows <> [] ->
  Permutation order (seq 0 (length rows)) ->
  Forall2 (fun i r => exists row, rows !! i = Some row /\
                                  submit_job (now i) row (reply i) = Ret r)
    order records ->
  exists between,
    submit_rows now reply rows order
    = (Ret tt,
       mk_saving records (Z.of_nat (length rows)) ([[]] ++ between ++ [records])).
Proof.
  intros Hrows Hperm Hall. unfold submit_rows.
  destruct (collect_all_in_order (Z.of_nat (length rows))
              (imap (fun i row => submit_job (now i) row (reply i)) rows)
              order records (mk_saving [] 0 [[]]))
    as (earlier & Hrun & between & ->).
  - eapply Forall2_impl; [exact Hall |].
    intros i r (row & Hrow & Hr). split.
    + rewrite list_lookup_imap, Hrow. cbn [fmap option_fmap option_map].
      now rewrite Hr.
    + exact (submit_job_keys _ _ _ _ Hr).
  - intros ->. apply Permutation_nil_l in Hperm.
    destruct rows; [contradiction | discriminate].
  - cbn [count]. rewrite (Permutation_length Hperm), length_seq. lia.
  - exists between. rewrite Hrun. reflexivity.
Qed.

Lemma submit_rows_in_completion_order_witness :
  exists between,
    submit_rows Rowsets.always_now Rowsets.two_replies Rowsets.two_rows [1; 0]%nat
    = (Ret tt,
       mk_saving [Rowsets.submitted_79; Submitted.submitted_78]
         (Z.of_nat (length Rowsets.two_rows))
         ([[]] ++ between ++ [[Rowsets.submitted_79; Submitted.submitted_78]])).
Proof.
  refine (submit_rows_in_completion_order Rowsets.always_now Rowsets.two_replies
            Rowsets.two_rows [1; 0]%nat
            [Rowsets.submitted_79; Submitted.submitted_78] _ _ _).
  - discriminate.
  - apply perm_swap.
  - apply Forall2_cons_2; [| apply Forall2_cons_2; [| apply Forall2_nil_2]].
    + exists Rowsets.row_79. split; [reflexivity |].
      apply returned_of. vm_compute. reflexivity.
    + exists Replies.row_78. split; [reflexivity |].
      apply returned_of. vm_compute. reflexivity.
Defined.
